(** * Token-holder analysis: balance reconstruction from transfer events

    A shallow embedding of [src/app/handler.py] (class [AsyncTokenAnalyzer])
    and of the batch endpoint of [src/server.py].

    Python integers are [Z]; addresses and messages are [string]; the
    [defaultdict] of balances is an association list in insertion order; the
    float a true division returns is a finite binary64 held as an integer
    number of units of 2^-1074; awaited RPC calls are answered by a [node]
    whose replies may change from one call to the next; exceptions are the
    [Raise] results of a small state-and-error monad with fuel for the
    [while] loop of the chunked scan. *)

From Stdlib Require Import ZArith List String Ascii DecimalString Bool Lia Permutation Sorted.
Import ListNotations.
Open Scope Z_scope.

(** ** Exceptions and results *)

(** The two classes of exception the handlers tell apart:
    [asyncio.TimeoutError] and every other [Exception].  [msg] is the text
    [str(e)] gives, without the name of the class. *)
Inductive exn : Type :=
| TimeoutError
| Exception (msg : string).

Inductive result (A : Type) : Type :=
| Return (a : A)
| Raise (e : exn).
Arguments Return {A} a.
Arguments Raise {A} e.

(** ** Python floats and true division *)

Module PyFloat.

(** A finite binary64.  Every finite double is an integer multiple of
    2^-1074, so [scaled x] is the value of [x] times 2^1074. *)
Record float : Type := Float { scaled : Z }.

Definition of_Z (z : Z) : float := Float (z * 2 ^ 1074).

Definition eqb (x y : float) : bool := scaled x =? scaled y.
Definition ltb (x y : float) : bool := scaled x <? scaled y.
Definition gtb (x y : float) : bool := scaled y <? scaled x.
Definition leb (x y : float) : bool := scaled x <=? scaled y.

(** [n / d] rounded to the nearest integer, ties to even ([0 < d]). *)
Definition round_half_even (n d : Z) : Z :=
  let q := n / d in
  let r := n mod d in
  if 2 * r <? d then q
  else if d <? 2 * r then q + 1
  else if Z.even q then q else q + 1.

(** Number of low bits of the quotient (in units of 2^-1074) that do not
    fit the 53-bit significand. *)
Definition dropped_bits (q0 : Z) : Z := Z.max 0 (Z.log2 q0 - 52).

(** [a / b] of two Python ints with [0 <= a] and [0 < b]: the exact
    quotient rounded once to binary64, [OverflowError] past the largest
    double. *)
Definition true_divide_pos (a b : Z) : result float :=
  let n := a * 2 ^ 1074 in
  let k := dropped_bits (n / b) in
  let m := round_half_even n (b * 2 ^ k) in
  let u := m * 2 ^ k in
  if 2 ^ 2098 <=? u
  then Raise (Exception "integer division result too large for a float")
  else Return (Float u).

(** [a / b] on Python ints (the [/] operator). *)
Definition true_divide (a b : Z) : result float :=
  if b =? 0 then Raise (Exception "division by zero")
  else
    match true_divide_pos (Z.abs a) (Z.abs b) with
    | Return x => Return (Float (Z.sgn a * Z.sgn b * scaled x))
    | Raise e => Raise e
    end.

End PyFloat.

(** ** Python dicts keyed by strings, in insertion order *)

Module PyDict.

Definition dict : Type := list (string * Z).

Fixpoint get (d : dict) (k : string) : option Z :=
  match d with
  | [] => None
  | (k', v) :: d' => if String.eqb k' k then Some v else get d' k
  end.

(** [d[k] = v]: an existing key keeps its place, a new key goes last. *)
Fixpoint set (d : dict) (k : string) (v : Z) : dict :=
  match d with
  | [] => [(k, v)]
  | (k', v') :: d' =>
      if String.eqb k' k then (k', v) :: d' else (k', v') :: set d' k v
  end.

(** [d[k]] on a [defaultdict(int)]: a missing key reads as [0]. *)
Definition get_default (d : dict) (k : string) : Z :=
  match get d k with
  | Some v => v
  | None => 0
  end.

Definition keys (d : dict) : list string := map fst d.

(** [d.items()]. *)
Definition items (d : dict) : list (string * Z) := d.

End PyDict.

(** ** Transfer events *)

(** [event['args']]: each field is read with [args.get], so it may be
    absent. *)
Record event_args : Type := Args {
  arg_from : option string;
  arg_to : option string;
  arg_value : option Z
}.

(** A decoded event, as [get_event_data] returns it. *)
Record event : Type := Event {
  args : event_args;
  event_block : Z
}.

(** A raw log entry of the node.  [log_data] is what the entry decodes to
    under the Transfer ABI, [None] when [get_event_data] raises on it. *)
Record log : Type := Log {
  blockNumber : Z;
  log_data : option event_args
}.

Definition get_event_data (l : log) : result event :=
  match log_data l with
  | Some a => Return (Event a (blockNumber l))
  | None => Raise (Exception "MismatchedABI")
  end.

Definition ZERO_ADDRESS : string := "0x0000000000000000000000000000000000000000".

(** [addr and addr != '0x00...00']: [None] and the empty string are falsy. *)
Definition counts_as_holder (addr : option string) : bool :=
  match addr with
  | None => false
  | Some a => negb (String.eqb a "") && negb (String.eqb a ZERO_ADDRESS)
  end.

Definition addr_key (addr : option string) : string :=
  match addr with
  | Some a => a
  | None => ""%string
  end.

(** ** Balance aggregation (step 2 of [get_top_holders]) *)

(** One iteration of [for event in transfer_events]. *)
Definition apply_event (balances : PyDict.dict) (ev : event) : PyDict.dict :=
  let from_addr := arg_from (args ev) in
  let to_addr := arg_to (args ev) in
  let value := match arg_value (args ev) with Some v => v | None => 0 end in
  let balances :=
    if counts_as_holder from_addr
    then PyDict.set balances (addr_key from_addr)
           (PyDict.get_default balances (addr_key from_addr) - value)
    else balances in
  if counts_as_holder to_addr
  then PyDict.set balances (addr_key to_addr)
         (PyDict.get_default balances (addr_key to_addr) + value)
  else balances.

(** The whole loop, from [balances = defaultdict(int)]. *)
Definition count_balances (transfer_events : list event) : PyDict.dict :=
  fold_left apply_event transfer_events [].

(** ** Ranking (steps 3 and 4 of [get_top_holders]) *)

(** [value / (10 ** self.decimals)]; [decimals] is the token's [uint8]. *)
Definition _to_decimal (decimals : N) (value : Z) : result PyFloat.float :=
  PyFloat.true_divide value (10 ^ Z.of_N decimals).

(** The list comprehension: entries with [bal > 0], converted in the order
    of [balances.items()]; a failing division raises out of it. *)
Fixpoint non_zero (decimals : N) (its : list (string * Z))
  : result (list (string * PyFloat.float)) :=
  match its with
  | [] => Return []
  | (addr, bal) :: rest =>
      if 0 <? bal then
        match _to_decimal decimals bal with
        | Raise e => Raise e
        | Return x =>
            match non_zero decimals rest with
            | Raise e => Raise e
            | Return l => Return ((addr, x) :: l)
            end
        end
      else non_zero decimals rest
  end.

(** [sorted(l, key=lambda x: x[1], reverse=True)].  Python's sort is stable,
    also under [reverse=True]: entries with equal keys keep their order in
    [l].  A stable sort has one possible result; it is computed here by
    insertion from the right, each entry going in front of the first entry
    whose key is not greater than its own. *)
Fixpoint insert_desc (x : string * PyFloat.float) (l : list (string * PyFloat.float))
  : list (string * PyFloat.float) :=
  match l with
  | [] => [x]
  | y :: l' =>
      if PyFloat.gtb (snd y) (snd x) then y :: insert_desc x l'
      else x :: y :: l'
  end.

Fixpoint sorted_desc (l : list (string * PyFloat.float)) : list (string * PyFloat.float) :=
  match l with
  | [] => []
  | x :: l' => insert_desc x (sorted_desc l')
  end.

(** Steps 3 and 4 on a ledger, for [n > 0]: filter, convert, sort, [[:n]]. *)
Definition rank (decimals : N) (balances : PyDict.dict) (n : Z)
  : result (list (string * PyFloat.float)) :=
  match non_zero decimals (PyDict.items balances) with
  | Raise e => Raise e
  | Return l => Return (firstn (Z.to_nat n) (sorted_desc l))
  end.

(** ** The node and the effects of a run *)

Inductive block_ref : Type :=
| BlockNo (n : Z)
| Latest.

(** The filter passed to [eth.get_logs]; the contract address is fixed. *)
Record filter_params : Type := Filter {
  fromBlock : Z;
  toBlock : block_ref;
  topics : list (option string);
  limit : option Z
}.

Inductive request : Type :=
| Eth_block_number
| Eth_get_logs (f : filter_params)
| Eth_get_block (number : Z).

(** The lines the handler prints. *)
Inductive notice : Type :=
| No_transfer_events
| Error_parsing_event (msg : string)
| Processed_blocks (from_block to_block : Z) (n_events : Z)
| Timeout_retry (retries max_retries from_block to_block : Z)
| Error_getting_logs (from_block to_block : Z) (msg : string)
| Error_in_get_top_holders (msg : string)
| Error_getting_last_transaction (address msg : string).

Inductive effect : Type :=
| Call (r : request)
| Sleep (seconds : Z)
| Print (line : notice).

(** What the analyzer reaches through [self.w3] and the token contract.
    Each awaited call is answered by the number of RPC calls made before it
    in the run and by its arguments, so a reply may differ from one attempt
    to the next; [Raise TimeoutError] stands for a call that timed out.
    [eth_call_balanceOf] also gives the time at which the reply arrives.
    [to_checksum_address] and [encode_address] are the address helpers of
    the library, which raise on a malformed address. *)
Record web3 : Type := Web3 {
  eth_block_number : nat -> result Z;
  eth_get_logs : nat -> filter_params -> result (list log);
  eth_get_block : nat -> Z -> result Z;
  eth_call_balanceOf : nat -> string -> nat * result Z;
  to_checksum_address : string -> result string;
  encode_address : string -> result string
}.

Definition is_call (e : effect) : bool :=
  match e with
  | Call _ => true
  | _ => false
  end.

Definition calls_made (trace : list effect) : nat :=
  List.length (filter is_call trace).

(** [str(e)]. *)
Definition str (e : exn) : string :=
  match e with
  | TimeoutError => ""%string
  | Exception msg => msg
  end.

(** ** A monad for awaited code

    A computation takes the trace of effects so far and gives a result and
    the extended trace, or [None] when the fuel of a loop ran out before the
    loop ended. *)

Definition M (A : Type) : Type := list effect -> option (result A * list effect).

Definition ret {A} (a : A) : M A := fun t => Some (Return a, t).

Definition raise {A} (e : exn) : M A := fun t => Some (Raise e, t).

Definition diverge {A} : M A := fun _ => None.

Definition bind {A B} (m : M A) (k : A -> M B) : M B := fun t =>
  match m t with
  | None => None
  | Some (Return a, t') => k a t'
  | Some (Raise e, t') => Some (Raise e, t')
  end.

(** [try: m  except ... as e: h e]. *)
Definition try_except {A} (m : M A) (h : exn -> M A) : M A := fun t =>
  match m t with
  | None => None
  | Some (Return a, t') => Some (Return a, t')
  | Some (Raise e, t') => h e t'
  end.

Definition lift {A} (r : result A) : M A := fun t => Some (r, t).

Definition emit (e : effect) : M unit := fun t => Some (Return tt, t ++ [e]).

Definition print (line : notice) : M unit := emit (Print line).

Definition sleep (seconds : Z) : M unit := emit (Sleep seconds).

Notation "x <- m ;; k" := (bind m (fun x => k))
  (at level 61, m at next level, right associativity).
Notation "m ;; k" := (bind m (fun _ => k))
  (at level 61, right associativity).

Definition await_block_number (w3 : web3) : M Z := fun t =>
  Some (eth_block_number w3 (calls_made t), t ++ [Call Eth_block_number]).

Definition await_get_logs (w3 : web3) (f : filter_params) : M (list log) := fun t =>
  Some (eth_get_logs w3 (calls_made t) f, t ++ [Call (Eth_get_logs f)]).

Definition await_get_block (w3 : web3) (number : Z) : M Z := fun t =>
  Some (eth_get_block w3 (calls_made t) number, t ++ [Call (Eth_get_block number)]).

(** The topic of [Transfer(address,address,uint256)]. *)
Definition TRANSFER_TOPIC : string :=
  "0xddf252ad1be2c89b69c2b068fc378daa952ba7f163c4a11628f55a4df523b3ef".

(** ** The chunked log scan, [_get_all_transfer_events] *)

Section Scan.

Variable w3 : web3.
Variables max_retries chunk_size : Z.

Definition range_filter (from_block to_block : Z) : filter_params :=
  Filter from_block (BlockNo to_block) [Some TRANSFER_TOPIC] None.

(** [for log in logs]: an entry that fails to decode is printed and
    skipped. *)
Fixpoint parse_logs (logs : list log) (events : list event) : M (list event) :=
  match logs with
  | [] => ret events
  | l :: rest =>
      match get_event_data l with
      | Return ev => parse_logs rest (events ++ [ev])
      | Raise e => print (Error_parsing_event (str e)) ;; parse_logs rest events
      end
  end.

(** The inner [while retries < max_retries], one iteration per unit of
    fuel.  It returns [from_block] and [events] as the loop leaves them:
    [from_block] moves past the chunk only on the success path. *)
Fixpoint retry_loop (fuel : nat) (from_block to_block retries : Z)
  (events : list event) : M (Z * list event) :=
  match fuel with
  | O => diverge
  | S fuel' =>
      if retries <? max_retries then
        try_except
          (logs <- await_get_logs w3 (range_filter from_block to_block) ;;
           events' <- parse_logs logs events ;;
           print (Processed_blocks from_block to_block
                    (Z.of_nat (List.length events'))) ;;
           ret (to_block + 1, events'))
          (fun e =>
             match e with
             | TimeoutError =>
                 let retries := retries + 1 in
                 print (Timeout_retry retries max_retries from_block to_block) ;;
                 sleep (2 ^ retries) ;;
                 retry_loop fuel' from_block to_block retries events
             | Exception msg =>
                 print (Error_getting_logs from_block to_block msg) ;;
                 ret (from_block, events)
             end)
      else ret (from_block, events)
  end.

(** The outer [while from_block <= current_block]. *)
Fixpoint scan_loop (fuel : nat) (current_block from_block : Z)
  (events : list event) : M (list event) :=
  match fuel with
  | O => diverge
  | S fuel' =>
      if from_block <=? current_block then
        let to_block := Z.min (from_block + chunk_size - 1) current_block in
        st <- retry_loop fuel' from_block to_block 0 events ;;
        scan_loop fuel' current_block (fst st) (snd st)
      else ret events
  end.

Definition _get_all_transfer_events (fuel : nat) : M (list event) :=
  current_block <- await_block_number w3 ;;
  scan_loop fuel current_block 0 [].

End Scan.

(** ** [get_top_holders] *)

(** What the [except] branch raises.  [requests.HTTPError] passes the
    keyword arguments it does not know on to [OSError], which takes none:
    the call [requests.HTTPError(status_code=500, detail=...)] raises this
    [TypeError] before any [HTTPError] exists, and the [raise] statement
    propagates it. *)
Definition HTTPError_TypeError : exn :=
  Exception "HTTPError() takes no keyword arguments".

Section Analyzer.

Variable w3 : web3.
(** [self.decimals], set once by [initialize]. *)
Variable decimals : N.

Definition get_top_holders (fuel : nat) (n : Z) : M (list (string * PyFloat.float)) :=
  if n <=? 0 then ret []
  else
    try_except
      (transfer_events <- _get_all_transfer_events w3 3 1000000 fuel ;;
       match transfer_events with
       | [] => print No_transfer_events ;; ret []
       | _ :: _ => lift (rank decimals (count_balances transfer_events) n)
       end)
      (fun e =>
         print (Error_in_get_top_holders (str e)) ;;
         raise HTTPError_TypeError).

End Analyzer.

(** ** Dates *)

Module DateTime.

Record datetime : Type := Datetime {
  year : Z; month : Z; day : Z; hour : Z; minute : Z; second : Z
}.

(** The proleptic Gregorian date of a day number counted from 1970-01-01. *)
Definition civil_from_days (days : Z) : Z * Z * Z :=
  let z := days + 719468 in
  let era := z / 146097 in
  let doe := z - era * 146097 in
  let yoe := (doe - doe / 1460 + doe / 36524 - doe / 146096) / 365 in
  let doy := doe - (365 * yoe + yoe / 4 - yoe / 100) in
  let mp := (5 * doy + 2) / 153 in
  let d := doy - (153 * mp + 2) / 5 + 1 in
  let m := if mp <? 10 then mp + 3 else mp - 9 in
  let y := yoe + era * 400 + (if m <=? 2 then 1 else 0) in
  (y, m, d).

Definition decimal (z : Z) : string := NilZero.string_of_int (Z.to_int z).

(** The [ValueError] of a year outside 1 to 9999. *)
Definition year_out_of_range (y : Z) : exn :=
  Exception ("year " ++ decimal y ++ " is out of range").

(** One conversion of a POSIX time to the fields of a time at the offset
    [utcoffset t]: the C library's [localtime_r] (or [gmtime_r], at offset
    0), which fails with [EOVERFLOW] when the year less 1900 does not fit
    its [int]; then the year [tm_year + 1900], computed in an [int], is
    checked against the years a [datetime] can hold. *)
Definition local (utcoffset : Z -> Z) (t : Z) : result datetime :=
  let seconds := t + utcoffset t in
  let '(y, m, d) := civil_from_days (seconds / 86400) in
  let s := seconds mod 86400 in
  if (y - 1900 <? - 2 ^ 31) || (2 ^ 31 <=? y - 1900)
  then Raise (Exception "[Errno 75] Value too large for defined data type")
  else
    let year := (y + 2 ^ 31) mod 2 ^ 32 - 2 ^ 31 in
    if (year <? 1) || (9999 <? year)
    then Raise (year_out_of_range year)
    else Return (Datetime year m d (s / 3600) (s mod 3600 / 60) (s mod 60)).

(** [OverflowError] for an int that is no [time_t]. *)
Definition time_t_fits (timestamp : Z) : bool :=
  (- 2 ^ 63 <=? timestamp) && (timestamp <? 2 ^ 63).

(** [datetime.fromtimestamp(timestamp)] with no [tz]: the naive local time
    of the process.  To tell the two readings of a repeated local time
    apart the library also converts the time a day earlier and, when the
    offset went down in between, the time that much earlier; each
    conversion can raise, so a time in the first day of year 1 raises. *)
Definition fromtimestamp (utcoffset : Z -> Z) (timestamp : Z) : result datetime :=
  if negb (time_t_fits timestamp)
  then Raise (Exception "timestamp out of range for platform time_t")
  else
    match local utcoffset timestamp with
    | Raise e => Raise e
    | Return dt =>
        match local utcoffset (timestamp - 86400) with
        | Raise e => Raise e
        | Return _ =>
            let transition := utcoffset timestamp - utcoffset (timestamp - 86400) in
            if transition <? 0
            then match local utcoffset (timestamp + transition) with
                 | Raise e => Raise e
                 | Return _ => Return dt
                 end
            else Return dt
        end
    end.

(** [datetime.utcfromtimestamp(timestamp)]: the same instant read in UTC;
    one conversion. *)
Definition utcfromtimestamp (timestamp : Z) : result datetime :=
  if negb (time_t_fits timestamp)
  then Raise (Exception "timestamp out of range for platform time_t")
  else local (fun _ => 0) timestamp.

Definition digit (n : Z) : ascii := ascii_of_nat (48 + Z.to_nat n).

Definition pad2 (n : Z) : string :=
  String (digit (n / 10)) (String (digit (n mod 10)) EmptyString).

(** [%Y] as the C library of Linux writes the year of a [datetime], 1 to
    9999: in decimal, with no padding, so a year below 1000 takes fewer than
    four characters. *)
Definition year_text (y : Z) : string :=
  if y <? 10 then String (digit y) EmptyString
  else if y <? 100 then pad2 y
  else if y <? 1000 then String (digit (y / 100)) (pad2 (y mod 100))
  else String (digit (y / 1000)) (String (digit (y / 100 mod 10)) (pad2 (y mod 100))).

(** [dt.strftime("%Y-%m-%d %H:%M:%S")]. *)
Definition strftime (dt : datetime) : string :=
  (year_text (year dt) ++ "-" ++ pad2 (month dt) ++ "-" ++ pad2 (day dt) ++ " "
   ++ pad2 (hour dt) ++ ":" ++ pad2 (minute dt) ++ ":" ++ pad2 (second dt))%string.

End DateTime.

(** ** Last activity and [get_top_with_transactions] *)

Section Activity.

Variable w3 : web3.
Variable decimals : N.
(** The UTC offset, in seconds, of the process's local time zone at a
    POSIX timestamp. *)
Variable utcoffset : Z -> Z.

Definition incoming_filter (address_topic : string) : filter_params :=
  Filter 0 Latest [Some TRANSFER_TOPIC; None; Some address_topic] (Some 1).

Definition outgoing_filter (address_topic : string) : filter_params :=
  Filter 0 Latest [Some TRANSFER_TOPIC; Some address_topic; None] (Some 1).

(** [max(a, b, key=lambda x: x['blockNumber'])]: [a] unless [b] is
    strictly greater. *)
Definition max_by_block (a b : log) : log :=
  if blockNumber a <? blockNumber b then b else a.

(** The choice of [last_tx] among the first entries of the two replies. *)
Definition select_last_tx (incoming_tx outgoing_tx : list log) : option log :=
  match incoming_tx, outgoing_tx with
  | i :: _, o :: _ => Some (max_by_block i o)
  | i :: _, [] => Some i
  | [], o :: _ => Some o
  | [], [] => None
  end.

(** The body of the [try]. *)
Definition last_transaction_date_body (address : string) : M string :=
  address_topic <- lift (encode_address w3 address) ;;
  incoming_tx <- await_get_logs w3 (incoming_filter address_topic) ;;
  outgoing_tx <- await_get_logs w3 (outgoing_filter address_topic) ;;
  match select_last_tx incoming_tx outgoing_tx with
  | Some last_tx =>
      timestamp <- await_get_block w3 (blockNumber last_tx) ;;
      dt <- lift (DateTime.fromtimestamp utcoffset timestamp) ;;
      ret (DateTime.strftime dt)
  | None => ret "No transactions"%string
  end.

Definition _get_last_transaction_date (address : string) : M string :=
  try_except (last_transaction_date_body address)
    (fun e =>
       print (Error_getting_last_transaction address (str e)) ;;
       ret "Error"%string).

(** [for address, balance in top_holders]. *)
Fixpoint attach_dates (top_holders : list (string * PyFloat.float))
  (results : list (string * PyFloat.float * string))
  : M (list (string * PyFloat.float * string)) :=
  match top_holders with
  | [] => ret results
  | (address, balance) :: rest =>
      last_tx_date <- _get_last_transaction_date address ;;
      attach_dates rest (results ++ [(address, balance, last_tx_date)])
  end.

Definition get_top_with_transactions (fuel : nat) (n : Z)
  : M (list (string * PyFloat.float * string)) :=
  top_holders <- get_top_holders w3 decimals fuel n ;;
  match top_holders with
  | [] => ret []
  | _ :: _ => attach_dates top_holders []
  end.

End Activity.

(** ** Balances: [get_balance] and [get_balance_batch] *)

(** A coroutine run as a task: when it finishes, and how. *)
Record task (A : Type) : Type := Task {
  done_at : nat;
  task_result : result A
}.
Arguments Task {A} done_at task_result.
Arguments done_at {A} t.
Arguments task_result {A} t.

(** The first exception raised among the tasks: the earliest to finish,
    the leftmost of those that finish together. *)
Fixpoint first_raised {A} (tasks : list (task A)) : option (nat * exn) :=
  match tasks with
  | [] => None
  | t :: rest =>
      match task_result t with
      | Return _ => first_raised rest
      | Raise e =>
          match first_raised rest with
          | Some (t', e') =>
              if (done_at t <=? t')%nat then Some (done_at t, e) else Some (t', e')
          | None => Some (done_at t, e)
          end
      end
  end.

Fixpoint returned {A} (tasks : list (task A)) : list A :=
  match tasks with
  | [] => []
  | t :: rest =>
      match task_result t with
      | Return a => a :: returned rest
      | Raise _ => returned rest
      end
  end.

(** [await asyncio.gather] over the tasks, with the default
    [return_exceptions=False]: the results in the order of the tasks when
    all return, otherwise the first exception raised. *)
Definition gather {A} (tasks : list (task A)) : result (list A) :=
  match first_raised tasks with
  | Some (_, e) => Raise e
  | None => Return (returned tasks)
  end.

Section Balances.

Variable w3 : web3.
Variable decimals : N.

(** [get_balance] as the task numbered [call_no]. *)
Definition get_balance (call_no : nat) (address : string) : task PyFloat.float :=
  match to_checksum_address w3 address with
  | Raise e => Task 0%nat (Raise e)
  | Return a =>
      let (t, r) := eth_call_balanceOf w3 call_no a in
      Task t
        match r with
        | Return balance => _to_decimal decimals balance
        | Raise e => Raise e
        end
  end.

(** [[self.get_balance(addr) for addr in addresses]], the tasks numbered
    from [call_no]. *)
Fixpoint balance_tasks (call_no : nat) (addresses : list string)
  : list (task PyFloat.float) :=
  match addresses with
  | [] => []
  | addr :: rest => get_balance call_no addr :: balance_tasks (S call_no) rest
  end.

Definition get_balance_batch (addresses : list string) : result (list PyFloat.float) :=
  gather (balance_tasks 0 addresses).

End Balances.

(** ** Token metadata: [initialize] and [get_token_info] *)

(** The other read-only calls on the token contract.  [decimals] and
    [symbol] are awaited one after the other by [initialize]; [name] and
    [totalSupply] are gathered, so each also gives the time at which its
    reply arrives. *)
Record token_calls : Type := Token_calls {
  call_decimals : result N;
  call_symbol : result string;
  call_name : nat * result string;
  call_totalSupply : nat * result Z
}.

(** [self.decimals] and [self.symbol]: [None] until [initialize] sets
    them. *)
Record metadata : Type := Metadata {
  self_decimals : option N;
  self_symbol : option string
}.

(** The analyzer as [__init__] leaves it. *)
Definition uninitialized : metadata := Metadata None None.

(** [initialize]: the result and the fields as the call leaves them. *)
Definition initialize (c : token_calls) (self : metadata) : result unit * metadata :=
  match call_decimals c with
  | Raise e => (Raise e, self)
  | Return d =>
      let self := Metadata (Some d) (self_symbol self) in
      match call_symbol c with
      | Raise e => (Raise e, self)
      | Return s => (Return tt, Metadata (self_decimals self) (Some s))
      end
  end.

(** [_to_decimal] on an analyzer whose [decimals] may still be [None]:
    [10 ** None] raises a [TypeError]. *)
Definition to_decimal_of (self : metadata) (value : Z) : result PyFloat.float :=
  match self_decimals self with
  | Some d => _to_decimal d value
  | None =>
      Raise (Exception
        "unsupported operand type(s) for ** or pow(): 'int' and 'NoneType'")
  end.

Record token_info : Type := Token_info {
  info_symbol : option string;
  info_name : string;
  info_totalSupply : PyFloat.float;
  info_decimals : option N;
  info_address : string
}.

Definition result_map {A B} (f : A -> B) (r : result A) : result B :=
  match r with
  | Return a => Return (f a)
  | Raise e => Raise e
  end.

(** [get_token_info]: the two calls gathered, then the dict.
    [TOKEN_ADDRESS] is [settings.TOKEN_ADDRESS].  The last case of the
    unpacking cannot occur: two tasks give two results. *)
Definition get_token_info (c : token_calls) (self : metadata) (TOKEN_ADDRESS : string)
  : result token_info :=
  match gather [Task (fst (call_name c)) (result_map inl (snd (call_name c)));
                Task (fst (call_totalSupply c)) (result_map inr (snd (call_totalSupply c)))]
  with
  | Raise e => Raise e
  | Return [inl name; inr total_supply] =>
      match to_decimal_of self total_supply with
      | Raise e => Raise e
      | Return totalSupply =>
          Return (Token_info (self_symbol self) name totalSupply
                    (self_decimals self) TOKEN_ADDRESS)
      end
  | Return _ => Raise (Exception "not enough values to unpack (expected 2, got 1)")
  end.

(** ** The batch endpoint of [server.py] *)

Module Server.

Inductive http (A : Type) : Type :=
| OK (body : A)
| HTTPException (status_code : Z) (detail : string).
Arguments OK {A} body.
Arguments HTTPException {A} status_code detail.

Record batch_body : Type := Batch_body {
  body_addresses : list string;
  body_balances : list PyFloat.float;
  body_symbol : string
}.

Definition get_balance_batch (w3 : web3) (decimals : N) (symbol : string)
  (addresses : list string) : http batch_body :=
  match get_balance_batch w3 decimals addresses with
  | Return balances => OK (Batch_body addresses balances symbol)
  | Raise e => HTTPException 400 (str e)
  end.

(** The other endpoints: each turns whatever its handler raises into a
    status 400 with the exception's text. *)

Record balance_body : Type := Balance_body {
  balance : PyFloat.float;
  balance_symbol : string
}.

(** [/get_balance]: the lookup runs as the only task. *)
Definition get_balance (w3 : web3) (decimals : N) (symbol : string)
  (address : string) : http balance_body :=
  match task_result (get_balance w3 decimals 0 address) with
  | Return balance => OK (Balance_body balance symbol)
  | Raise e => HTTPException 400 (str e)
  end.

Record top_entry : Type := Top_entry {
  entry_address : string;
  entry_balance : PyFloat.float
}.

Record top_body : Type := Top_body {
  top_holders : list top_entry;
  top_symbol : string
}.

(** [/get_top]. *)
Definition get_top (w3 : web3) (decimals : N) (symbol : string) (fuel : nat) (n : Z)
  : list effect -> option (http top_body * list effect) := fun t =>
  match get_top_holders w3 decimals fuel n t with
  | None => None
  | Some (Return top, t') =>
      Some (OK (Top_body (map (fun p => Top_entry (fst p) (snd p)) top) symbol), t')
  | Some (Raise e, t') => Some (HTTPException 400 (str e), t')
  end.

Record dated_entry : Type := Dated_entry {
  dated_address : string;
  dated_balance : PyFloat.float;
  dated_date : string
}.

Record dated_body : Type := Dated_body {
  dated_holders : list dated_entry;
  dated_symbol : string
}.

(** [/get_top_date]. *)
Definition get_balance_batch_with_date (w3 : web3) (decimals : N)
  (utcoffset : Z -> Z) (symbol : string) (fuel : nat) (n : Z)
  : list effect -> option (http dated_body * list effect) := fun t =>
  match get_top_with_transactions w3 decimals utcoffset fuel n t with
  | None => None
  | Some (Return top, t') =>
      Some (OK (Dated_body
                  (map (fun p => Dated_entry (fst (fst p)) (snd (fst p)) (snd p)) top)
                  symbol), t')
  | Some (Raise e, t') => Some (HTTPException 400 (str e), t')
  end.

(** [/get_token_info]. *)
Definition get_token_info (c : token_calls) (self : metadata) (TOKEN_ADDRESS : string)
  : http token_info :=
  match get_token_info c self TOKEN_ADDRESS with
  | Return info => OK info
  | Raise e => HTTPException 400 (str e)
  end.

End Server.

(** * Vocabulary of the properties, sample accounts and nodes *)

(** ** Events and ledgers *)

(** Whether the event writes the entry of account [a]. *)
Definition touches (ev : event) (a : string) : bool :=
  (counts_as_holder (arg_from (args ev)) && String.eqb (addr_key (arg_from (args ev))) a)
  || (counts_as_holder (arg_to (args ev)) && String.eqb (addr_key (arg_to (args ev))) a).

Definition event_value (ev : event) : Z :=
  match arg_value (args ev) with Some v => v | None => 0 end.

(** What the event adds to the balance of [a]. *)
Definition net_change (ev : event) (a : string) : Z :=
  (if counts_as_holder (arg_to (args ev)) && String.eqb (addr_key (arg_to (args ev))) a
   then event_value ev else 0)
  - (if counts_as_holder (arg_from (args ev)) && String.eqb (addr_key (arg_from (args ev))) a
     then event_value ev else 0).

(** The sum of what the events add to the balance of [a], each event
    counted once. *)
Definition net_flow (es : list event) (a : string) : Z :=
  fold_right (fun ev acc => net_change ev a + acc) 0 es.

Definition touched (es : list event) (a : string) : bool :=
  existsb (fun ev => touches ev a) es.

Definition has_key (d : PyDict.dict) (a : string) : bool :=
  match PyDict.get d a with Some _ => true | None => false end.

(** ** Rankings *)

(** [p] may stand before [q] in a ranking: its display balance is not
    smaller. *)
Definition not_below (p q : string * PyFloat.float) : Prop :=
  PyFloat.leb (snd q) (snd p) = true.

Definition has_display (f : PyFloat.float) (p : string * PyFloat.float) : bool :=
  PyFloat.eqb (snd p) f.

(** [l0] lists the accounts of the ledger with a positive balance, in the
    order of the ledger's items, each with its balance in display units. *)
Definition positive_in_ledger_order (decimals : N) (balances : PyDict.dict)
  (l0 : list (string * PyFloat.float)) : Prop :=
  Forall2 (fun p q => fst p = fst q /\ _to_decimal decimals (snd p) = Return (snd q))
    (filter (fun p => 0 <? snd p) (PyDict.items balances)) l0.

(** Entries of [l] with one display balance are the first entries of [l0]
    with that balance, in the order they have in [l0]. *)
Definition ties_keep_order (l0 l : list (string * PyFloat.float)) : Prop :=
  forall f, exists rest,
    filter (has_display f) l0 = filter (has_display f) l ++ rest.

(** The tie rule of the specification: of two entries with equal display
    balances, the one standing first has the smaller account. *)
Definition ties_by_account_ascending (l : list (string * PyFloat.float)) : Prop :=
  forall i j p q,
    (i < j)%nat -> nth_error l i = Some p -> nth_error l j = Some q ->
    PyFloat.eqb (snd p) (snd q) = true ->
    String.ltb (fst p) (fst q) = true.

(** ** Sample accounts and events *)

Definition ALICE : string := "0x1111111111111111111111111111111111111111".
Definition BOB : string := "0x2222222222222222222222222222222222222222".
Definition CAROL : string := "0x3333333333333333333333333333333333333333".

Definition mint (receiver : string) (amount : Z) : event :=
  Event (Args (Some ZERO_ADDRESS) (Some receiver) (Some amount)) 1.

Definition transfer (sender receiver : string) (amount : Z) : event :=
  Event (Args (Some sender) (Some receiver) (Some amount)) 2.

(** ** Traces and block ranges *)

Definition range_of (e : effect) : option (Z * Z) :=
  match e with
  | Call (Eth_get_logs (Filter f (BlockNo t) _ _)) => Some (f, t)
  | _ => None
  end.

(** The block ranges of the [get_logs] calls of a trace, in order. *)
Fixpoint queried_ranges (trace : list effect) : list (Z * Z) :=
  match trace with
  | [] => []
  | e :: rest =>
      match range_of e with
      | Some r => r :: queried_ranges rest
      | None => queried_ranges rest
      end
  end.

(** The seconds slept, in order. *)
Fixpoint slept (trace : list effect) : list Z :=
  match trace with
  | [] => []
  | Sleep s :: rest => s :: slept rest
  | _ :: rest => slept rest
  end.

Definition covers (b : Z) (r : Z * Z) : bool := (fst r <=? b) && (b <=? snd r).

(** [tiles hi lo rs]: the ranges [rs] are non-empty, start at [lo], each
    starts one block after the one before ends, and the last ends at
    [hi]. *)
Inductive tiles (hi : Z) : Z -> list (Z * Z) -> Prop :=
| tiles_done : tiles hi (hi + 1) []
| tiles_chunk (lo to : Z) (rest : list (Z * Z)) :
    lo <= to <= hi -> tiles hi (to + 1) rest -> tiles hi lo ((lo, to) :: rest).

(** [ceil_div a b] is the ceiling of [a / b]. *)
Definition ceil_div (a b : Z) : Z := (a + b - 1) / b.

(** The same node with every range query timing out. *)
Definition node_always_timing_out : web3 :=
  Web3 (fun _ => Return 0)
       (fun _ _ => Raise TimeoutError)
       (fun _ _ => Return 0)
       (fun _ _ => (0%nat, Return 0)) (fun a => Return a) (fun a => Return a).

(** The reply lists its latest entry first. *)
Definition latest_first (l : list log) : Prop :=
  match l with
  | [] => True
  | x :: rest => Forall (fun y => blockNumber y <= blockNumber x) rest
  end.

(** ** Sample nodes *)

(** A node at height 25 whose every query returns no log. *)
Definition quiet_node : web3 :=
  Web3 (fun _ => Return 25) (fun _ _ => Return []) (fun _ _ => Return 0)
       (fun _ _ => (0%nat, Return 0)) (fun a => Return a) (fun a => Return a).

(** A node at height 1500000 whose first range query fails and whose later
    queries return no log. *)
Definition node_failing_once : web3 :=
  Web3 (fun _ => Return 1500000)
       (fun k _ => match k with
                   | 1%nat => Raise (Exception "503 Service Unavailable")
                   | _ => Return []
                   end)
       (fun _ _ => Return 0)
       (fun _ _ => (0%nat, Return 0)) (fun a => Return a) (fun a => Return a).

(** The same node with every range query failing. *)
Definition node_failing : web3 :=
  Web3 (fun _ => Return 1500000)
       (fun _ _ => Raise (Exception "503 Service Unavailable"))
       (fun _ _ => Return 0)
       (fun _ _ => (0%nat, Return 0)) (fun a => Return a) (fun a => Return a).

(** A node at height 0 whose first four range queries time out. *)
Definition node_timing_out : web3 :=
  Web3 (fun _ => Return 0)
       (fun k _ => if (k <=? 4)%nat then Raise TimeoutError else Return [])
       (fun _ _ => Return 0)
       (fun _ _ => (0%nat, Return 0)) (fun a => Return a) (fun a => Return a).

(** A node on which ALICE has received at block 100 and sent at block 150,
    BOB's queries fail, and the block numbered [n] has the timestamp
    [1700000000 + n]. *)
Definition node_with_activity : web3 :=
  Web3 (fun _ => Return 200)
       (fun _ f =>
          match topics f with
          | [_; None; Some a] =>
              if String.eqb a ALICE then Return [Log 100 None]
              else Raise (Exception "query returned more than 10000 results")
          | [_; Some a; None] =>
              if String.eqb a ALICE then Return [Log 150 None]
              else Raise (Exception "query returned more than 10000 results")
          | _ => Return []
          end)
       (fun _ n => Return (1700000000 + n))
       (fun _ _ => (0%nat, Return 0)) (fun a => Return a) (fun a => Return a).

(** A node of a token with 18 decimals on which ALICE holds 5 tokens and
    BOB 7, and the balance call for any other address fails. *)
Definition node_with_balances : web3 :=
  Web3 (fun _ => Return 200) (fun _ _ => Return []) (fun _ _ => Return 0)
       (fun _ a =>
          if String.eqb a ALICE then (3%nat, Return 5000000000000000000)
          else if String.eqb a BOB then (1%nat, Return 7000000000000000000)
          else (2%nat, Raise (Exception "execution reverted")))
       (fun a => Return a) (fun a => Return a).

(** ** Lookups and dates *)

(** The node answers a query by its arguments alone, whatever the number
    of calls made before. *)
Definition stationary (w3 : web3) : Prop :=
  (forall k k' f, eth_get_logs w3 k f = eth_get_logs w3 k' f)
  /\ (forall k k' n, eth_get_block w3 k n = eth_get_block w3 k' n).

(** [s] is what the lookup of [address] returns when it is run from the
    trace [t]. *)
Definition looked_up (w3 : web3) (utcoffset : Z -> Z) (address : string)
  (t : list effect) (s : string) : Prop :=
  exists t', _get_last_transaction_date w3 utcoffset address t = Some (Return s, t').

(** [dated] gives each holder of [top_holders], in order, its address, its
    balance and the date its own lookup returns when it is run after the
    lookups of the holders before it, the first of them from the trace
    [t]. *)
Fixpoint each_looked_up (w3 : web3) (utcoffset : Z -> Z)
  (top_holders : list (string * PyFloat.float)) (t : list effect)
  (dated : list (string * PyFloat.float * string)) : Prop :=
  match top_holders, dated with
  | [], [] => True
  | (address, balance) :: rest, entry :: dated' =>
      exists s t',
        _get_last_transaction_date w3 utcoffset address t = Some (Return s, t')
        /\ entry = (address, balance, s)
        /\ each_looked_up w3 utcoffset rest t' dated'
  | _, _ => False
  end.

(** [dated] gives each holder its address, its balance and the date the
    lookup of that holder alone returns. *)
Definition each_looked_up_alone (w3 : web3) (utcoffset : Z -> Z)
  (top_holders : list (string * PyFloat.float))
  (dated : list (string * PyFloat.float * string)) : Prop :=
  Forall2 (fun h d => exists s, d = (fst h, snd h, s)
                                /\ looked_up w3 utcoffset (fst h) [] s)
    top_holders dated.

(** The fields of a datetime are those of a date and a time of day. *)
Definition in_range_fields (dt : DateTime.datetime) : Prop :=
  1 <= DateTime.year dt <= 9999
  /\ 1 <= DateTime.month dt <= 12
  /\ 1 <= DateTime.day dt <= 31
  /\ 0 <= DateTime.hour dt <= 23
  /\ 0 <= DateTime.minute dt <= 59
  /\ 0 <= DateTime.second dt <= 59.

Definition is_digit (c : ascii) : bool :=
  (48 <=? nat_of_ascii c)%nat && (nat_of_ascii c <=? 57)%nat.

(** [s] reads [YYYY-MM-DD HH:MM:SS]: nineteen characters, digits but for
    the two hyphens, the space and the two colons. *)
Definition date_shaped (s : string) : bool :=
  match list_ascii_of_string s with
  | [y1; y2; y3; y4; h1; m1; m2; h2; d1; d2; sp; H1; H2; c1; M1; M2; c2; S1; S2] =>
      forallb is_digit [y1; y2; y3; y4; m1; m2; d1; d2; H1; H2; M1; M2; S1; S2]
      && forallb (Ascii.eqb "-") [h1; h2]
      && Ascii.eqb " " sp
      && forallb (Ascii.eqb ":") [c1; c2]
  | _ => false
  end.

(** [tx] is an entry of [l] and no entry of [l] is in a later block. *)
Definition most_recent (l : list log) (tx : log) : Prop :=
  In tx l /\ forall tx', In tx' l -> blockNumber tx' <= blockNumber tx.

(** A node at height 25 with a mint of 100 to ALICE in block 3 and a
    transfer of 40 from ALICE to BOB in block 17, on which the queries about
    ALICE fail and the block numbered [n] has the timestamp
    [1700000000 + n]. *)
Definition node_with_failing_lookup : web3 :=
  Web3 (fun _ => Return 25)
       (fun _ f =>
          match topics f with
          | [_] =>
              Return [Log 3 (Some (Args (Some ZERO_ADDRESS) (Some ALICE) (Some 100)));
                      Log 17 (Some (Args (Some ALICE) (Some BOB) (Some 40)))]
          | [_; None; Some a] =>
              if String.eqb a BOB
              then Return [Log 17 (Some (Args (Some ALICE) (Some BOB) (Some 40)))]
              else Raise (Exception "query returned more than 10000 results")
          | [_; Some a; None] =>
              if String.eqb a BOB then Return []
              else Raise (Exception "query returned more than 10000 results")
          | _ => Return []
          end)
       (fun _ n => Return (1700000000 + n))
       (fun _ _ => (0%nat, Return 0)) (fun a => Return a) (fun a => Return a).

(** A node that answers a query about ALICE with every match, oldest
    first: received in blocks 100 and 180, sent in block 150. *)
Definition node_with_ascending_replies : web3 :=
  Web3 (fun _ => Return 200)
       (fun _ f =>
          match topics f with
          | [_; None; Some _] => Return [Log 100 None; Log 180 None]
          | [_; Some _; None] => Return [Log 150 None]
          | _ => Return []
          end)
       (fun _ n => Return (1700000000 + n))
       (fun _ _ => (0%nat, Return 0)) (fun a => Return a) (fun a => Return a).

(** ** Vocabulary and samples of the further properties *)

(** The sum of the balances of a ledger. *)
Definition total (d : PyDict.dict) : Z :=
  fold_right (fun p acc => snd p + acc) 0 d.

(** What an event adds to the sum of the balances: its amount when it is
    credited, less its amount when it is debited. *)
Definition supply_change (ev : event) : Z :=
  (if counts_as_holder (arg_to (args ev)) then event_value ev else 0)
  - (if counts_as_holder (arg_from (args ev)) then event_value ev else 0).

(** The filter of the ranking: [bal > 0]. *)
Definition is_positive (p : string * Z) : bool := 0 <? snd p.

(** The events the entries of a reply decode to, in order. *)
Definition decoded (logs : list log) : list event :=
  flat_map (fun l => match get_event_data l with
                     | Return ev => [ev]
                     | Raise _ => []
                     end) logs.

(** The lines printed for the entries that do not decode. *)
Definition decode_errors (logs : list log) : list notice :=
  flat_map (fun l => match get_event_data l with
                     | Return _ => []
                     | Raise e => [Error_parsing_event (str e)]
                     end) logs.

(** The backoff of [k] timeouts counted from [retries]. *)
Definition backoff (retries : Z) (k : nat) : list Z :=
  map (fun i => 2 ^ (retries + Z.of_nat i)) (seq 1 k).

(** A node whose height query fails. *)
Definition node_without_height : web3 :=
  Web3 (fun _ => Raise (Exception "connection refused"))
       (fun _ _ => Return []) (fun _ _ => Return 0)
       (fun _ _ => (0%nat, Return 0)) (fun a => Return a) (fun a => Return a).

(** A node at height 25 that reports a mint of 2^1100 units, more than a
    float holds. *)
Definition node_with_huge_mint : web3 :=
  Web3 (fun _ => Return 25)
       (fun _ _ => Return [Log 3 (Some (Args (Some ZERO_ADDRESS) (Some ALICE)
                                         (Some (2 ^ 1100))))])
       (fun _ _ => Return 0)
       (fun _ _ => (0%nat, Return 0)) (fun a => Return a) (fun a => Return a).

Definition in_range (lo hi : Z) (l : log) : bool :=
  (lo <=? blockNumber l) && (blockNumber l <=? hi).

(** The entries of the chain in blocks [lo..hi]. *)
Definition logs_in (chain : list log) (lo hi : Z) : list log :=
  filter (in_range lo hi) chain.

(** Entries in the order of their blocks. *)
Definition by_block (chain : list log) : Prop :=
  StronglySorted (fun x y => blockNumber x <= blockNumber y) chain.

(** A chain of three entries: a mint to ALICE in block 3, an entry that
    does not decode in block 12, a transfer to BOB in block 17. *)
Definition sample_chain : list log :=
  [Log 3 (Some (Args (Some ZERO_ADDRESS) (Some ALICE) (Some 100)));
   Log 12 None;
   Log 17 (Some (Args (Some ALICE) (Some BOB) (Some 40)))].

(** A node at height 25 that answers range queries from [sample_chain]. *)
Definition sample_node : web3 :=
  Web3 (fun _ => Return 25)
       (fun _ f => match toBlock f with
                   | BlockNo hi => Return (logs_in sample_chain (fromBlock f) hi)
                   | Latest => Return (logs_in sample_chain (fromBlock f) 25)
                   end)
       (fun _ n => Return (1700000000 + n))
       (fun _ _ => (0%nat, Return 0)) (fun a => Return a) (fun a => Return a).

(** The day number, counted from 1970-01-01, of a proleptic Gregorian
    date. *)
Definition days_from_civil (y m d : Z) : Z :=
  let y' := if m <=? 2 then y - 1 else y in
  let era := y' / 400 in
  let yoe := y' - era * 400 in
  let mp := if 2 <? m then m - 3 else m + 9 in
  let doy := (153 * mp + 2) / 5 + d - 1 in
  let doe := yoe * 365 + yoe / 4 - yoe / 100 + doy in
  era * 146097 + doe - 719468.

(** The local instant a datetime stands for, in seconds from
    1970-01-01 00:00:00. *)
Definition seconds_of (dt : DateTime.datetime) : Z :=
  days_from_civil (DateTime.year dt) (DateTime.month dt) (DateTime.day dt) * 86400
  + DateTime.hour dt * 3600 + DateTime.minute dt * 60 + DateTime.second dt.

(** The calls of a token with 18 decimals and a supply of 1000 tokens. *)
Definition sample_token : token_calls :=
  Token_calls (Return 18%N) (Return "TKN"%string)
    (1%nat, Return "Token"%string) (2%nat, Return (1000 * 10 ^ 18)).

(** The same token with a symbol call that fails. *)
Definition sample_token_without_symbol : token_calls :=
  Token_calls (Return 18%N) (Raise (Exception "execution reverted"))
    (1%nat, Return "Token"%string) (2%nat, Return (1000 * 10 ^ 18)).

(** * Properties *)

(** ** Dict lookups after an update *)

Lemma get_set_same (d : PyDict.dict) (k : string) (v : Z) :
  PyDict.get (PyDict.set d k v) k = Some v.
Proof.
  induction d as [|[k' v'] d IH]; simpl.
  - now rewrite String.eqb_refl.
  - destruct (String.eqb k' k) eqn:E; simpl; rewrite E; auto.
Qed.

Lemma get_set_other (d : PyDict.dict) (k k' : string) (v : Z) :
  k <> k' -> PyDict.get (PyDict.set d k v) k' = PyDict.get d k'.
Proof.
  intros Hk. induction d as [|[k0 v0] d IH]; simpl.
  - destruct (String.eqb_spec k k'); congruence.
  - destruct (String.eqb_spec k0 k) as [->|Hne]; simpl.
    + destruct (String.eqb_spec k k'); congruence.
    + destruct (String.eqb_spec k0 k'); auto.
Qed.

Lemma get_set (d : PyDict.dict) (k k' : string) (v : Z) :
  PyDict.get (PyDict.set d k v) k' =
  if String.eqb k k' then Some v else PyDict.get d k'.
Proof.
  destruct (String.eqb_spec k k') as [->|Hne].
  - apply get_set_same.
  - now apply get_set_other.
Qed.

(** ** The effect of one event on one account *)

Lemma get_default_set (d : PyDict.dict) (k k' : string) (v : Z) :
  PyDict.get_default (PyDict.set d k v) k' =
  if String.eqb k k' then v else PyDict.get_default d k'.
Proof.
  unfold PyDict.get_default. rewrite get_set.
  now destruct (String.eqb k k').
Qed.

Lemma get_apply_event (balances : PyDict.dict) (ev : event) (a : string) :
  PyDict.get (apply_event balances ev) a =
  if touches ev a
  then Some (PyDict.get_default balances a + net_change ev a)
  else PyDict.get balances a.
Proof.
  unfold apply_event, touches, net_change, event_value.
  destruct ev as [[f t v] blk]; simpl.
  generalize (match v with Some v0 => v0 | None => 0 end) as val.
  generalize (addr_key f) as kf, (addr_key t) as kt. intros.
  destruct (counts_as_holder f), (counts_as_holder t); simpl;
    rewrite ?get_set, ?get_default_set;
    repeat match goal with
           | |- context [String.eqb ?x ?y] =>
               destruct (String.eqb_spec x y); subst; simpl
           end;
    try congruence; try reflexivity; f_equal; lia.
Qed.

Lemma get_default_apply_event (balances : PyDict.dict) (ev : event) (a : string) :
  PyDict.get_default (apply_event balances ev) a =
  PyDict.get_default balances a + net_change ev a.
Proof.
  unfold PyDict.get_default at 1. rewrite get_apply_event.
  destruct (touches ev a) eqn:T; auto.
  unfold PyDict.get_default, net_change.
  unfold touches in T. apply orb_false_iff in T as [-> ->].
  destruct (PyDict.get balances a); lia.
Qed.

(** ** The ledger as net flow *)

Lemma fold_apply_event_balance (es : list event) :
  forall (balances : PyDict.dict) (a : string),
    PyDict.get_default (fold_left apply_event es balances) a =
    PyDict.get_default balances a + net_flow es a.
Proof.
  induction es as [|ev es IH]; intros balances a; simpl.
  - lia.
  - rewrite IH, get_default_apply_event. lia.
Qed.

Lemma fold_apply_event_keys (es : list event) :
  forall (balances : PyDict.dict) (a : string),
    has_key (fold_left apply_event es balances) a =
    touched es a || has_key balances a.
Proof.
  induction es as [|ev es IH]; intros balances a; simpl.
  - reflexivity.
  - rewrite IH. unfold has_key. rewrite get_apply_event.
    destruct (touches ev a), (touched es a); reflexivity.
Qed.

Lemma get_from_parts (d : PyDict.dict) (a : string) :
  PyDict.get d a = if has_key d a then Some (PyDict.get_default d a) else None.
Proof.
  unfold has_key, PyDict.get_default. now destruct (PyDict.get d a).
Qed.

Lemma net_flow_permutation (es es' : list event) (a : string) :
  Permutation es es' -> net_flow es a = net_flow es' a.
Proof.
  induction 1; simpl; lia.
Qed.

Lemma touched_permutation (es es' : list event) (a : string) :
  Permutation es es' -> touched es a = touched es' a.
Proof.
  induction 1; simpl; try congruence.
  destruct (touches x a), (touches y a); reflexivity.
Qed.

Lemma net_flow_app (es1 es2 : list event) (a : string) :
  net_flow (es1 ++ es2) a = net_flow es1 a + net_flow es2 a.
Proof.
  induction es1 as [|ev es1 IH]; simpl; lia.
Qed.

Lemma count_balances_net_flow (es : list event) (a : string) :
  PyDict.get_default (count_balances es) a = net_flow es a.
Proof.
  unfold count_balances. rewrite fold_apply_event_balance. reflexivity.
Qed.

(** C6.  In the fold of the events into the ledger, an event with sender
    [s], receiver [r] and amount [v], wherever it stands among the events,
    takes [v] from the balance of [s] unless [s] is the zero address and
    adds [v] to the balance of [r] unless [r] is the zero address; every
    other balance is what the other events make it.  So a mint moves the
    receiver's balance alone, and a burn the sender's alone: with an amount
    other than zero, exactly that one balance changes. *)
Theorem count_balances_debits_sender_credits_receiver
  (before after : list event) (s r : string) (v blk : Z) :
  s <> ""%string -> r <> ""%string ->
  let without := count_balances (before ++ after) in
  let with_event :=
    count_balances (before ++ Event (Args (Some s) (Some r) (Some v)) blk :: after) in
  (forall a,
     PyDict.get_default with_event a =
     PyDict.get_default without a
     - (if String.eqb s a && negb (String.eqb s ZERO_ADDRESS) then v else 0)
     + (if String.eqb r a && negb (String.eqb r ZERO_ADDRESS) then v else 0))
  /\ (s = ZERO_ADDRESS -> r <> ZERO_ADDRESS ->
      PyDict.get_default with_event r = PyDict.get_default without r + v
      /\ (forall a, a <> r ->
            PyDict.get_default with_event a = PyDict.get_default without a)
      /\ (v <> 0 -> forall a,
            PyDict.get_default with_event a <> PyDict.get_default without a <-> a = r))
  /\ (r = ZERO_ADDRESS -> s <> ZERO_ADDRESS ->
      PyDict.get_default with_event s = PyDict.get_default without s - v
      /\ (forall a, a <> s ->
            PyDict.get_default with_event a = PyDict.get_default without a)
      /\ (v <> 0 -> forall a,
            PyDict.get_default with_event a <> PyDict.get_default without a <-> a = s)).
Proof.
  intros Hs Hr without with_event.
  assert (Hall : forall a,
     PyDict.get_default with_event a =
     PyDict.get_default without a
     - (if String.eqb s a && negb (String.eqb s ZERO_ADDRESS) then v else 0)
     + (if String.eqb r a && negb (String.eqb r ZERO_ADDRESS) then v else 0)).
  { intros a. unfold with_event, without.
    rewrite !count_balances_net_flow, !net_flow_app. simpl.
    unfold net_change, event_value, counts_as_holder; simpl.
    destruct (String.eqb_spec s ""), (String.eqb_spec r ""); try contradiction.
    simpl.
    destruct (String.eqb s ZERO_ADDRESS), (String.eqb r ZERO_ADDRESS),
      (String.eqb s a), (String.eqb r a); simpl; lia. }
  split; [exact Hall|]. split.
  - intros -> Hrz.
    assert (Hr' : PyDict.get_default with_event r = PyDict.get_default without r + v).
    { rewrite Hall, !String.eqb_refl.
      destruct (String.eqb_spec r ZERO_ADDRESS); try contradiction.
      rewrite andb_false_r. simpl. lia. }
    assert (Ho : forall a, a <> r ->
                   PyDict.get_default with_event a = PyDict.get_default without a).
    { intros a Ha. rewrite Hall, String.eqb_refl, andb_false_r.
      destruct (String.eqb_spec r a); [congruence|]. simpl. lia. }
    split; [exact Hr'|]. split; [exact Ho|].
    intros Hv a. split.
    + intros Hne. destruct (string_dec a r) as [E|E]; [exact E|].
      now destruct Hne; apply Ho.
    + intros ->. lia.
  - intros -> Hsz.
    assert (Hs' : PyDict.get_default with_event s = PyDict.get_default without s - v).
    { rewrite Hall, !String.eqb_refl.
      destruct (String.eqb_spec s ZERO_ADDRESS); try contradiction.
      rewrite andb_false_r. simpl. lia. }
    assert (Ho : forall a, a <> s ->
                   PyDict.get_default with_event a = PyDict.get_default without a).
    { intros a Ha. rewrite Hall, String.eqb_refl, andb_false_r.
      destruct (String.eqb_spec s a); [congruence|]. simpl. lia. }
    split; [exact Hs'|]. split; [exact Ho|].
    intros Hv a. split.
    + intros Hne. destruct (string_dec a s) as [E|E]; [exact E|].
      now destruct Hne; apply Ho.
    + intros ->. lia.
Qed.

(** A mint of 40 to BOB after a mint of 100 to ALICE, and a burn of 30 by
    ALICE between a mint to her and a transfer from her. *)
Lemma count_balances_debits_sender_credits_receiver_witness :
  PyDict.get_default (count_balances [mint ALICE 100; mint BOB 40]) BOB
  = PyDict.get_default (count_balances [mint ALICE 100]) BOB + 40
  /\ PyDict.get_default
       (count_balances [mint ALICE 100; transfer ALICE ZERO_ADDRESS 30;
                        transfer ALICE BOB 40]) ALICE
     = PyDict.get_default (count_balances [mint ALICE 100; transfer ALICE BOB 40]) ALICE
       - 30.
Proof.
  split.
  - destruct (count_balances_debits_sender_credits_receiver
                [mint ALICE 100] [] ZERO_ADDRESS BOB 40 1)
      as (_ & Hmint & _); [discriminate|discriminate|].
    destruct Hmint as [H _]; [reflexivity|discriminate|exact H].
  - destruct (count_balances_debits_sender_credits_receiver
                [mint ALICE 100] [transfer ALICE BOB 40] ALICE ZERO_ADDRESS 30 2)
      as (_ & _ & Hburn); [discriminate|discriminate|].
    destruct Hburn as [H _]; [reflexivity|discriminate|exact H].
Defined.

(** The scenario of the specification: a mint of 100 to one account, then
    a transfer of 40 from it to another. *)
Example ledger_of_mint_and_transfer :
  count_balances [mint ALICE 100; transfer ALICE BOB 40] = [(ALICE, 60); (BOB, 40)].
Proof.
  reflexivity.
Qed.

Lemma get_count_balances_perm (es es' : list event) (a : string) :
  Permutation es es' ->
  PyDict.get (count_balances es') a = PyDict.get (count_balances es) a.
Proof.
  intros HP. unfold count_balances.
  rewrite (get_from_parts (fold_left apply_event es' [])),
          (get_from_parts (fold_left apply_event es [])).
  rewrite !fold_apply_event_keys, !fold_apply_event_balance.
  now rewrite (net_flow_permutation _ _ a HP), (touched_permutation _ _ a HP).
Qed.

(** C7.  Events aggregated in any order give the same ledger: the same
    accounts with the same balances.  The balance of an account is the net
    flow of the events into it, each event counted once. *)
Theorem count_balances_order_irrelevant (es es' : list event) :
  Permutation es es' ->
  (forall a, PyDict.get (count_balances es') a = PyDict.get (count_balances es) a)
  /\ (forall a, PyDict.get_default (count_balances es) a = net_flow es a).
Proof.
  intros HP. split.
  - intros a. now apply get_count_balances_perm.
  - intros a. unfold count_balances. rewrite fold_apply_event_balance.
    reflexivity.
Qed.

Lemma count_balances_order_irrelevant_witness :
  PyDict.get (count_balances [transfer ALICE BOB 40; mint ALICE 100]) ALICE
  = PyDict.get (count_balances [mint ALICE 100; transfer ALICE BOB 40]) ALICE
  /\ PyDict.get_default (count_balances [mint ALICE 100; transfer ALICE BOB 40]) BOB
     = net_flow [mint ALICE 100; transfer ALICE BOB 40] BOB.
Proof.
  destruct (count_balances_order_irrelevant
              [mint ALICE 100; transfer ALICE BOB 40]
              [transfer ALICE BOB 40; mint ALICE 100]) as [H1 H2].
  - apply perm_swap.
  - split; [apply H1|apply H2].
Defined.

(** ** True division

    Three values of Python's [/]: [1/3] is [0x1.5555555555555p-2]; a tie
    goes to the even significand; [2**1024 / 1] raises. *)

Example true_divide_one_third :
  PyFloat.true_divide 1 3 = Return (PyFloat.Float (6004799503160661 * 2 ^ 1020)).
Proof.
  vm_compute. reflexivity.
Qed.

Example true_divide_ties_to_even :
  PyFloat.true_divide (2 ^ 53 + 1) 1 = Return (PyFloat.of_Z (2 ^ 53)).
Proof.
  vm_compute. reflexivity.
Qed.

Example true_divide_overflow :
  PyFloat.true_divide (2 ^ 1024) 1
  = Raise (Exception "integer division result too large for a float").
Proof.
  vm_compute. reflexivity.
Qed.

(** True division stays finite on bounded operands. *)

Lemma round_half_even_bounds (n d : Z) :
  n / d <= PyFloat.round_half_even n d <= n / d + 1.
Proof.
  unfold PyFloat.round_half_even.
  destruct (2 * (n mod d) <? d); [lia|].
  destruct (d <? 2 * (n mod d)); [lia|].
  destruct (Z.even (n / d)); lia.
Qed.

Lemma significand_fits (q0 : Z) :
  0 <= q0 -> q0 / 2 ^ PyFloat.dropped_bits q0 < 2 ^ 53.
Proof.
  intros Hq. unfold PyFloat.dropped_bits.
  destruct (Z.eq_dec q0 0) as [->|Hne].
  - simpl. reflexivity.
  - assert (Hpos : 0 < q0) by lia.
    pose proof (Z.log2_spec q0 Hpos) as [_ Hlt].
    pose proof (Z.log2_nonneg q0) as HL.
    destruct (Z.max_spec 0 (Z.log2 q0 - 52)) as [[Hc ->]|[Hc ->]].
    + apply Z.div_lt_upper_bound; [apply Z.pow_pos_nonneg; lia|].
      rewrite <- Z.pow_add_r by lia.
      replace (Z.log2 q0 - 52 + 53) with (Z.succ (Z.log2 q0)) by lia. exact Hlt.
    + rewrite Z.pow_0_r, Z.div_1_r.
      eapply Z.lt_le_trans; [exact Hlt|].
      apply Z.pow_le_mono_r; lia.
Qed.

Lemma true_divide_pos_returns (a b : Z) :
  0 <= a < 2 ^ 1023 -> 0 < b ->
  exists x, PyFloat.true_divide_pos a b = Return x
            /\ 0 <= PyFloat.scaled x
            /\ (b <= a * 2 ^ 1074 -> 0 < PyFloat.scaled x).
Proof.
  intros [Ha0 Ha] Hb. unfold PyFloat.true_divide_pos.
  set (n := a * 2 ^ 1074).
  set (k := PyFloat.dropped_bits (n / b)).
  set (m := PyFloat.round_half_even n (b * 2 ^ k)).
  assert (H2 : 0 < 2 ^ 1074) by (apply Z.pow_pos_nonneg; lia).
  assert (Hn0 : 0 <= n) by (unfold n; nia).
  assert (Hn : n < 2 ^ 2097).
  { unfold n. replace 2097 with (1023 + 1074) by lia.
    rewrite Z.pow_add_r by lia. nia. }
  assert (Hq0 : 0 <= n / b) by (apply Z.div_pos; lia).
  assert (Hqn : n / b <= n).
  { apply Z.div_le_upper_bound; nia. }
  assert (Hk0 : 0 <= k) by (unfold k, PyFloat.dropped_bits; lia).
  assert (Hk : k + 53 <= 2097).
  { unfold k, PyFloat.dropped_bits.
    destruct (Z.eq_dec (n / b) 0) as [E|E].
    - rewrite E. simpl. lia.
    - assert (Z.log2 (n / b) < 2097) by (apply Z.log2_lt_pow2; lia). lia. }
  assert (H2k : 0 < 2 ^ k) by (apply Z.pow_pos_nonneg; lia).
  assert (Hdiv : n / (b * 2 ^ k) = n / b / 2 ^ k).
  { rewrite Z.div_div; lia. }
  pose proof (round_half_even_bounds n (b * 2 ^ k)) as [Hlo Hhi].
  fold m in Hlo, Hhi. rewrite Hdiv in Hlo, Hhi.
  pose proof (significand_fits (n / b) Hq0) as Hsig. fold k in Hsig.
  assert (Hm0 : 0 <= m).
  { eapply Z.le_trans; [|exact Hlo]. apply Z.div_pos; lia. }
  assert (Hu : m * 2 ^ k < 2 ^ 2098).
  { apply Z.le_lt_trans with (2 ^ 53 * 2 ^ k); [nia|].
    rewrite <- Z.pow_add_r by lia.
    apply Z.pow_lt_mono_r; lia. }
  destruct (Z.leb_spec (2 ^ 2098) (m * 2 ^ k)); [lia|].
  eexists; split; [reflexivity|]. simpl. split; [nia|].
  intros Hbn. fold n in Hbn.
  assert (Hq1 : 1 <= n / b) by (apply Z.div_le_lower_bound; lia).
  assert (Hkq : 2 ^ k <= n / b).
  { apply Z.le_trans with (2 ^ Z.log2 (n / b)).
    - apply Z.pow_le_mono_r; [lia|].
      unfold k, PyFloat.dropped_bits. pose proof (Z.log2_nonneg (n / b)). lia.
    - apply Z.log2_spec. lia. }
  assert (1 <= n / b / 2 ^ k) by (apply Z.div_le_lower_bound; lia).
  nia.
Qed.

Lemma to_decimal_returns (decimals : N) (bal : Z) :
  0 < bal < 2 ^ 1023 ->
  exists x, _to_decimal decimals bal = Return x
            /\ 0 <= PyFloat.scaled x
            /\ ((decimals <= 255)%N -> 0 < PyFloat.scaled x).
Proof.
  intros [H0 H1]. unfold _to_decimal, PyFloat.true_divide.
  assert (Hp : 0 < 10 ^ Z.of_N decimals) by (apply Z.pow_pos_nonneg; lia).
  destruct (Z.eqb_spec (10 ^ Z.of_N decimals) 0); [lia|].
  rewrite (Z.abs_eq bal), (Z.abs_eq (10 ^ Z.of_N decimals)) by lia.
  destruct (true_divide_pos_returns bal (10 ^ Z.of_N decimals))
    as (x & -> & Hx & Hx'); [lia|lia|].
  eexists; split; [reflexivity|]. simpl.
  rewrite (Z.sgn_pos bal), (Z.sgn_pos (10 ^ Z.of_N decimals)) by lia.
  split; [lia|]. intros Hd.
  assert (H10 : 10 ^ Z.of_N decimals <= 10 ^ 255) by (apply Z.pow_le_mono_r; lia).
  assert (H255 : 10 ^ 255 <= 2 ^ 1074) by (vm_compute; discriminate).
  assert (0 < 2 ^ 1074) by (apply Z.pow_pos_nonneg; lia).
  assert (0 < PyFloat.scaled x); [apply Hx'; nia|lia].
Qed.

(** ** The stable descending sort *)

Lemma insert_desc_perm (x : string * PyFloat.float) (l : list (string * PyFloat.float)) :
  Permutation (x :: l) (insert_desc x l).
Proof.
  induction l as [|y l IH]; simpl; auto.
  destruct (PyFloat.gtb (snd y) (snd x)); auto.
  rewrite perm_swap. now constructor.
Qed.

Lemma sorted_desc_perm (l : list (string * PyFloat.float)) :
  Permutation l (sorted_desc l).
Proof.
  induction l as [|x l IH]; simpl; auto.
  rewrite <- insert_desc_perm. now constructor.
Qed.

Lemma insert_desc_sorted (x : string * PyFloat.float) (l : list (string * PyFloat.float)) :
  StronglySorted not_below l -> StronglySorted not_below (insert_desc x l).
Proof.
  induction 1 as [|y l Hs IH Hy]; simpl.
  - repeat constructor.
  - unfold PyFloat.gtb. destruct (Z.ltb_spec (PyFloat.scaled (snd x)) (PyFloat.scaled (snd y))).
    + constructor; auto.
      rewrite <- insert_desc_perm. constructor; auto.
      unfold not_below, PyFloat.leb. apply Z.leb_le. lia.
    + constructor; [constructor; auto|].
      constructor.
      * unfold not_below, PyFloat.leb. apply Z.leb_le. lia.
      * eapply Forall_impl; [|exact Hy].
        unfold not_below, PyFloat.leb. intros z Hz.
        apply Z.leb_le in Hz. apply Z.leb_le. lia.
Qed.

Lemma sorted_desc_sorted (l : list (string * PyFloat.float)) :
  StronglySorted not_below (sorted_desc l).
Proof.
  induction l; simpl; [constructor|]. now apply insert_desc_sorted.
Qed.

Lemma insert_desc_stable (f : PyFloat.float) (x : string * PyFloat.float)
  (l : list (string * PyFloat.float)) :
  filter (has_display f) (insert_desc x l) = filter (has_display f) (x :: l).
Proof.
  induction l as [|y l IH]; simpl; auto.
  unfold PyFloat.gtb.
  destruct (Z.ltb_spec (PyFloat.scaled (snd x)) (PyFloat.scaled (snd y))); auto.
  simpl. rewrite IH. simpl.
  unfold has_display, PyFloat.eqb.
  destruct (Z.eqb_spec (PyFloat.scaled (snd y)) (PyFloat.scaled f)),
           (Z.eqb_spec (PyFloat.scaled (snd x)) (PyFloat.scaled f)); auto.
  lia.
Qed.

Lemma sorted_desc_stable (f : PyFloat.float) (l : list (string * PyFloat.float)) :
  filter (has_display f) (sorted_desc l) = filter (has_display f) l.
Proof.
  induction l as [|x l IH]; simpl; auto.
  rewrite insert_desc_stable. simpl. now rewrite IH.
Qed.

Lemma firstn_sorted {A} (R : A -> A -> Prop) (n : nat) (l : list A) :
  StronglySorted R l -> StronglySorted R (firstn n l).
Proof.
  revert l. induction n as [|n IH]; intros l Hs; simpl; [constructor|].
  destruct Hs as [|x l Hs Hx]; constructor; auto.
  apply Forall_forall. intros y Hy. rewrite Forall_forall in Hx.
  apply Hx. rewrite <- (firstn_skipn n l). apply in_or_app. now left.
Qed.

Lemma filter_firstn_prefix {A} (p : A -> bool) (n : nat) (l : list A) :
  exists rest, filter p l = filter p (firstn n l) ++ rest.
Proof.
  exists (filter p (skipn n l)).
  now rewrite <- filter_app, firstn_skipn.
Qed.

(** ** The ranking *)

Lemma non_zero_returns (decimals : N) (its : list (string * Z)) :
  (forall a bal, In (a, bal) its -> bal < 2 ^ 1023) ->
  exists l0, non_zero decimals its = Return l0
             /\ positive_in_ledger_order decimals its l0.
Proof.
  unfold positive_in_ledger_order, PyDict.items.
  induction its as [|[a bal] its IH]; intros Hb; simpl.
  - exists []. split; [reflexivity|constructor].
  - destruct IH as (l0 & E & F).
    { intros a' b' Hin. apply (Hb a' b'). now right. }
    destruct (Z.ltb_spec 0 bal) as [Hpos|Hneg].
    + destruct (to_decimal_returns decimals bal) as (x & Ex & _ & _).
      { split; [lia|]. apply (Hb a bal). now left. }
      rewrite Ex, E. exists ((a, x) :: l0). split; [reflexivity|].
      constructor; auto.
    + rewrite E. exists l0. auto.
Qed.

Lemma positive_in_ledger_order_In (decimals : N) (balances : PyDict.dict)
  (l0 : list (string * PyFloat.float)) :
  positive_in_ledger_order decimals balances l0 ->
  forall a x, In (a, x) l0 ->
    exists bal, In (a, bal) balances /\ 0 < bal /\ _to_decimal decimals bal = Return x.
Proof.
  unfold positive_in_ledger_order, PyDict.items.
  intros F a x Hin.
  assert (G : exists p, In p (filter (fun p => 0 <? snd p) balances)
                        /\ fst p = a /\ _to_decimal decimals (snd p) = Return x).
  { induction F as [|p q l l' [H1 H2] F IH]; [contradiction|].
    destruct Hin as [->|Hin].
    - exists p. simpl in *. split; [now left|auto].
    - destruct (IH Hin) as (p' & Hp' & R). exists p'. split; [now right|auto]. }
  destruct G as ([a' bal] & Hp & <- & Hx). simpl in *.
  apply filter_In in Hp as [Hp Hpos]. simpl in Hpos.
  exists bal. split; [exact Hp|]. split; [now apply Z.ltb_lt|exact Hx].
Qed.

Lemma get_top_holders_nonpositive (w3 : web3) (decimals : N) (fuel : nat) (n : Z)
  (t : list effect) :
  n <= 0 -> get_top_holders w3 decimals fuel n t = Some (Return [], t).
Proof.
  intros Hn. unfold get_top_holders.
  destruct (Z.leb_spec n 0); [reflexivity|lia].
Qed.

(** Past the guard on [n], and when the scan returns events, the ranking
    [get_top_holders] returns is [rank] on the ledger of the events. *)
Lemma get_top_holders_ranks_ledger (w3 : web3) (decimals : N) (fuel : nat) (n : Z)
  (t t' : list effect) (events : list event) (l : list (string * PyFloat.float)) :
  0 < n ->
  _get_all_transfer_events w3 3 1000000 fuel t = Some (Return events, t') ->
  events <> [] ->
  rank decimals (count_balances events) n = Return l ->
  get_top_holders w3 decimals fuel n t = Some (Return l, t').
Proof.
  intros Hn Hscan Hne Hrank. unfold get_top_holders.
  destruct (Z.leb_spec n 0); [lia|].
  unfold try_except, bind. rewrite Hscan.
  destruct events as [|ev events]; [congruence|].
  unfold lift. now rewrite Hrank.
Qed.

(** The scenario of the specification: the top holder of the ledger
    [{ALICE: 60, BOB: 40}] with no decimals. *)
Example top_one_of_mint_and_transfer :
  rank 0 (count_balances [mint ALICE 100; transfer ALICE BOB 40]) 1
  = Return [(ALICE, PyFloat.of_Z 60)].
Proof.
  vm_compute. reflexivity.
Qed.

(** C4, as the code has it.  For [n <= 0] the ranking is empty.  For
    [0 < n] and a ledger whose balances are below 2^1023, the ranking
    has at most [n] entries, each an account of the ledger with a balance
    above zero (and, for a token of at most 255 decimals, a display balance
    above zero), in descending order of display balance; entries with
    equal display balances stand in the order of the ledger's items, the
    order in which the accounts were first written. *)
Theorem top_holders_ranking (decimals : N) (balances : PyDict.dict) (n : Z) :
  (forall a bal, In (a, bal) balances -> bal < 2 ^ 1023) ->
  (n <= 0 -> forall w3 fuel t,
     get_top_holders w3 decimals fuel n t = Some (Return [], t))
  /\ (0 < n -> exists l0 l,
        rank decimals balances n = Return l
        /\ Z.of_nat (List.length l) <= n
        /\ (forall a x, In (a, x) l ->
              exists bal, In (a, bal) balances /\ 0 < bal
                          /\ _to_decimal decimals bal = Return x)
        /\ ((decimals <= 255)%N ->
            forall a x, In (a, x) l -> PyFloat.ltb (PyFloat.of_Z 0) x = true)
        /\ StronglySorted not_below l
        /\ positive_in_ledger_order decimals balances l0
        /\ ties_keep_order l0 l).
Proof.
  intros Hb. split.
  - intros Hn w3 fuel t. now apply get_top_holders_nonpositive.
  - intros Hn.
    destruct (non_zero_returns decimals balances Hb) as (l0 & E & F).
    exists l0, (firstn (Z.to_nat n) (sorted_desc l0)).
    unfold rank, PyDict.items. rewrite E.
    split; [reflexivity|]. split.
    { pose proof (firstn_le_length (Z.to_nat n) (sorted_desc l0)). lia. }
    assert (Hfrom : forall a x,
              In (a, x) (firstn (Z.to_nat n) (sorted_desc l0)) ->
              exists bal, In (a, bal) balances /\ 0 < bal
                          /\ _to_decimal decimals bal = Return x).
    { intros a x Hin.
      apply (positive_in_ledger_order_In decimals balances l0 F).
      apply (Permutation_in _ (Permutation_sym (sorted_desc_perm l0))).
      rewrite <- (firstn_skipn (Z.to_nat n) (sorted_desc l0)).
      apply in_or_app. now left. }
    split; [exact Hfrom|]. split.
    { intros Hd a x Hin. destruct (Hfrom a x Hin) as (bal & Hbal & Hpos & Ex).
      destruct (to_decimal_returns decimals bal) as (x' & Ex' & _ & Hx').
      { split; [lia|]. now apply (Hb a). }
      assert (x' = x) by congruence. subst x'.
      unfold PyFloat.ltb, PyFloat.of_Z. simpl. apply Z.ltb_lt. now apply Hx'. }
    split; [apply firstn_sorted, sorted_desc_sorted|].
    split; [exact F|].
    intros f. rewrite <- (sorted_desc_stable f l0).
    apply filter_firstn_prefix.
Qed.

Lemma top_holders_ranking_witness :
  exists l, rank 0 (count_balances [mint ALICE 100; transfer ALICE BOB 40]) 1 = Return l
            /\ Z.of_nat (List.length l) <= 1.
Proof.
  destruct (top_holders_ranking 0
              (count_balances [mint ALICE 100; transfer ALICE BOB 40]) 1)
    as [_ H].
  - intros a bal Hin. vm_compute in Hin.
    destruct Hin as [E|[E|[]]]; inversion E; reflexivity.
  - destruct (H ltac:(lia)) as (l0 & l & E & Hlen & _).
    exists l. split; assumption.
Defined.

(** C4, as the specification has it, fails: two accounts with equal
    balances are ranked in the order of their first events, here the
    greater account first; and two ledgers with the same accounts and
    balances give different rankings. *)
Lemma ranking_ties_not_by_account :
  (exists l,
     rank 0 (count_balances [mint BOB 5; mint ALICE 5]) 2 = Return l
     /\ l = [(BOB, PyFloat.of_Z 5); (ALICE, PyFloat.of_Z 5)]
     /\ ~ ties_by_account_ascending l)
  /\ (forall a, PyDict.get (count_balances [mint ALICE 5; mint BOB 5]) a
                = PyDict.get (count_balances [mint BOB 5; mint ALICE 5]) a)
  /\ rank 0 (count_balances [mint ALICE 5; mint BOB 5]) 2
     <> rank 0 (count_balances [mint BOB 5; mint ALICE 5]) 2.
Proof.
  split; [|split].
  - eexists. split; [vm_compute; reflexivity|]. split; [vm_compute; reflexivity|].
    intros H.
    specialize (H 0%nat 1%nat _ _ (Nat.lt_0_1) eq_refl eq_refl eq_refl).
    vm_compute in H. discriminate.
  - intros a. apply get_count_balances_perm, perm_swap.
  - vm_compute. discriminate.
Qed.

(** ** The range queries of a run *)

Lemma tiles_cover_once (hi lo : Z) (rs : list (Z * Z)) :
  tiles hi lo rs ->
  forall b, List.length (filter (covers b) rs) =
            if (lo <=? b) && (b <=? hi) then 1%nat else 0%nat.
Proof.
  induction 1 as [|lo to rest Hlo Ht IH]; intros b; simpl.
  - destruct (Z.leb_spec (hi + 1) b), (Z.leb_spec b hi); simpl; auto; lia.
  - rewrite <- (Nat.add_0_l (if (lo <=? b) && (b <=? hi) then 1%nat else 0%nat)).
    unfold covers at 1. simpl.
    specialize (IH b).
    destruct (Z.leb_spec lo b), (Z.leb_spec b to), (Z.leb_spec b hi),
      (Z.leb_spec (to + 1) b); simpl in *; try lia.
Qed.

Lemma queried_ranges_app (t1 t2 : list effect) :
  queried_ranges (t1 ++ t2) = queried_ranges t1 ++ queried_ranges t2.
Proof.
  induction t1 as [|e t1 IH]; simpl; auto.
  destruct (range_of e); simpl; now rewrite IH.
Qed.

Lemma calls_made_app (t1 t2 : list effect) :
  calls_made (t1 ++ t2) = (calls_made t1 + calls_made t2)%nat.
Proof.
  unfold calls_made. now rewrite filter_app, length_app.
Qed.

Lemma queried_ranges_prints (notes : list notice) :
  queried_ranges (map Print notes) = [].
Proof.
  induction notes; simpl; auto.
Qed.

Lemma calls_made_prints (notes : list notice) :
  calls_made (map Print notes) = 0%nat.
Proof.
  induction notes; simpl; auto.
Qed.

(** ** The scan when every query succeeds *)

Lemma parse_logs_returns (logs : list log) :
  forall (events : list event) (t : list effect),
  exists events' notes,
    parse_logs logs events t = Some (Return events', t ++ map Print notes).
Proof.
  induction logs as [|l logs IH]; intros events t; simpl.
  - exists events, []. unfold ret. simpl. now rewrite app_nil_r.
  - destruct (get_event_data l) as [ev|e].
    + apply IH.
    + unfold bind, print, emit.
      destruct (IH events (t ++ [Print (Error_parsing_event (str e))]))
        as (events' & notes & E).
      rewrite E. exists events', (Error_parsing_event (str e) :: notes).
      simpl. now rewrite <- app_assoc.
Qed.

Section ScanProperties.

Variable w3 : web3.
Variables max_retries chunk_size : Z.
Hypothesis retries_allowed : 0 < max_retries.

Lemma retry_loop_first_attempt (fuel : nat) (from_block to_block : Z)
  (events : list event) (t : list effect) (logs : list log) :
  eth_get_logs w3 (calls_made t) (range_filter from_block to_block) = Return logs ->
  exists events' t',
    retry_loop w3 max_retries (S fuel) from_block to_block 0 events t
      = Some (Return (to_block + 1, events'), t')
    /\ queried_ranges t' = queried_ranges t ++ [(from_block, to_block)].
Proof.
  intros Hlogs. simpl.
  destruct (Z.ltb_spec 0 max_retries); [|lia].
  unfold try_except, bind at 1, await_get_logs. rewrite Hlogs.
  unfold bind at 1.
  destruct (parse_logs_returns logs events
              (t ++ [Call (Eth_get_logs (range_filter from_block to_block))]))
    as (events' & notes & ->).
  unfold bind, print, emit, ret.
  do 2 eexists. split; [reflexivity|].
  rewrite !queried_ranges_app, queried_ranges_prints. simpl.
  now rewrite !app_nil_r.
Qed.

Hypothesis chunk_positive : 0 < chunk_size.
Hypothesis queries_succeed :
  forall k f, exists logs, eth_get_logs w3 k f = Return logs.

Lemma scan_loop_completes (H : Z) (m : nat) :
  forall (from_block : Z) (events : list event) (t : list effect) (fuel : nat),
    0 <= from_block <= H + 1 ->
    Z.of_nat m = (H - from_block + chunk_size) / chunk_size ->
    (m < fuel)%nat ->
    exists events' t' rs,
      scan_loop w3 max_retries chunk_size fuel H from_block events t
        = Some (Return events', t')
      /\ queried_ranges t' = queried_ranges t ++ rs
      /\ List.length rs = m
      /\ tiles H from_block rs
      /\ Forall (fun r => snd r = Z.min (fst r + chunk_size - 1) H) rs.
Proof.
  induction m as [|m IH]; intros from_block events t fuel Hfrom Hm Hfuel.
  - assert (from_block = H + 1).
    { assert (H - from_block + chunk_size < chunk_size); [|lia].
      destruct (Z.lt_ge_cases (H - from_block + chunk_size) chunk_size); auto.
      assert (1 <= (H - from_block + chunk_size) / chunk_size); [|lia].
      apply Z.div_le_lower_bound; lia. }
    subst from_block.
    destruct fuel as [|fuel]; [lia|]. simpl.
    destruct (Z.leb_spec (H + 1) H); [lia|].
    exists events, t, []. unfold ret. rewrite app_nil_r.
    repeat split; constructor.
  - assert (Hle : from_block <= H).
    { destruct (Z.le_gt_cases from_block H); auto.
      rewrite Z.div_small in Hm; lia. }
    destruct fuel as [|fuel]; [lia|].
    destruct fuel as [|fuel]; [lia|].
    cbn [scan_loop].
    destruct (Z.leb_spec from_block H); [|lia].
    set (to_block := Z.min (from_block + chunk_size - 1) H).
    destruct (queries_succeed (calls_made t) (range_filter from_block to_block))
      as (logs & Hlogs).
    destruct (retry_loop_first_attempt fuel from_block to_block events t logs Hlogs)
      as (events1 & t1 & E1 & Q1).
    unfold bind. rewrite E1. cbn [fst snd].
    destruct (IH (to_block + 1) events1 t1 (S fuel)) as (events' & t' & rs & E & Q & L & T & F).
    + unfold to_block. lia.
    + unfold to_block.
      destruct (Z.min_spec (from_block + chunk_size - 1) H) as [[Hc ->]|[Hc ->]].
      * replace (H - (from_block + chunk_size - 1 + 1) + chunk_size)
          with (H - from_block + chunk_size + (-1) * chunk_size) by lia.
        rewrite Z.div_add by lia. lia.
      * rewrite Z.div_small by lia.
        assert ((H - from_block + chunk_size) / chunk_size < 2); [|lia].
        apply Z.div_lt_upper_bound; lia.
    + lia.
    + exists events', t', ((from_block, to_block) :: rs).
      split; [exact E|]. split.
      { rewrite Q, Q1, <- app_assoc. reflexivity. }
      split; [simpl; lia|]. split.
      { constructor; [unfold to_block; lia|exact T]. }
      constructor; [reflexivity|exact F].
Qed.

End ScanProperties.

Lemma ceil_div_spec (a b : Z) :
  0 < b -> (ceil_div a b - 1) * b < a <= ceil_div a b * b.
Proof.
  intros Hb. unfold ceil_div.
  pose proof (Z.div_mod (a + b - 1) b ltac:(lia)).
  pose proof (Z.mod_pos_bound (a + b - 1) b Hb). nia.
Qed.

(** C9.  When every range query succeeds, the scan of blocks [0..H] with
    chunk size [C] returns, and its range queries number the ceiling of
    [(H+1)/C]; they start at block 0, each starts one block after the one
    before ends, each spans [C] blocks but the last, which ends at [H]; so
    every block of [0..H] lies in exactly one queried range. *)
Theorem chunked_scan_covers_range (w3 : web3) (max_retries chunk_size H : Z)
  (t : list effect) (fuel : nat) :
  0 < max_retries -> 0 < chunk_size -> 0 <= H ->
  eth_block_number w3 (calls_made t) = Return H ->
  (forall k f, exists logs, eth_get_logs w3 k f = Return logs) ->
  (Z.to_nat (ceil_div (H + 1) chunk_size) < fuel)%nat ->
  exists events t' rs,
    _get_all_transfer_events w3 max_retries chunk_size fuel t
      = Some (Return events, t')
    /\ queried_ranges t' = queried_ranges t ++ rs
    /\ Z.of_nat (List.length rs) = ceil_div (H + 1) chunk_size
    /\ tiles H 0 rs
    /\ Forall (fun r => snd r = Z.min (fst r + chunk_size - 1) H) rs
    /\ (forall b, 0 <= b <= H -> List.length (filter (covers b) rs) = 1%nat).
Proof.
  intros Hr Hc HH Hheight Hq Hfuel.
  assert (Hn : 0 <= ceil_div (H + 1) chunk_size).
  { unfold ceil_div. apply Z.div_pos; lia. }
  unfold _get_all_transfer_events, bind at 1, await_block_number.
  rewrite Hheight.
  destruct (scan_loop_completes w3 max_retries chunk_size Hr Hc Hq H
              (Z.to_nat (ceil_div (H + 1) chunk_size)) 0 []
              (t ++ [Call Eth_block_number]) fuel)
    as (events & t' & rs & E & Q & L & T & F).
  - lia.
  - rewrite Z2Nat.id by exact Hn. unfold ceil_div. f_equal. lia.
  - exact Hfuel.
  - exists events, t', rs. split; [exact E|]. split.
    { rewrite Q, queried_ranges_app. simpl. now rewrite app_nil_r. }
    split; [rewrite L; now apply Z2Nat.id|].
    split; [exact T|]. split; [exact F|].
    intros b Hb. rewrite (tiles_cover_once H 0 rs T b).
    destruct (Z.leb_spec 0 b), (Z.leb_spec b H); simpl; auto; lia.
Qed.

Lemma chunked_scan_covers_range_witness :
  exists events t' rs,
    _get_all_transfer_events quiet_node 3 10 4 [] = Some (Return events, t')
    /\ queried_ranges t' = queried_ranges [] ++ rs
    /\ Z.of_nat (List.length rs) = ceil_div (25 + 1) 10
    /\ tiles 25 0 rs
    /\ Forall (fun r => snd r = Z.min (fst r + 10 - 1) 25) rs
    /\ (forall b, 0 <= b <= 25 -> List.length (filter (covers b) rs) = 1%nat).
Proof.
  apply (chunked_scan_covers_range quiet_node 3 10 25 [] 4).
  - lia.
  - lia.
  - lia.
  - reflexivity.
  - intros k f. exists []. reflexivity.
  - vm_compute. lia.
Defined.

(** ** The scan when a chunk fails *)

Section ScanFailures.

Variable w3 : web3.
Variables max_retries chunk_size : Z.
Hypothesis queries_raise : forall k f, exists e, eth_get_logs w3 k f = Raise e.

(** One iteration of the inner loop on a query that raises: a timeout is
    counted, slept on and retried; any other exception ends the loop. *)
Lemma retry_loop_raise_step (fuel : nat) (from_block to_block retries : Z)
  (events : list event) (t : list effect) (e : exn) :
  retries < max_retries ->
  eth_get_logs w3 (calls_made t) (range_filter from_block to_block) = Raise e ->
  retry_loop w3 max_retries (S fuel) from_block to_block retries events t
  = match e with
    | TimeoutError =>
        retry_loop w3 max_retries fuel from_block to_block (retries + 1) events
          (t ++ [Call (Eth_get_logs (range_filter from_block to_block));
                 Print (Timeout_retry (retries + 1) max_retries from_block to_block);
                 Sleep (2 ^ (retries + 1))])
    | Exception msg =>
        Some (Return (from_block, events),
              t ++ [Call (Eth_get_logs (range_filter from_block to_block));
                    Print (Error_getting_logs from_block to_block msg)])
    end.
Proof.
  intros Hlt He. cbn [retry_loop].
  destruct (Z.ltb_spec retries max_retries); [|lia].
  unfold try_except, bind at 1, await_get_logs. rewrite He.
  destruct e as [|msg]; unfold bind, print, sleep, emit, ret; cbv zeta;
    now rewrite <- !app_assoc.
Qed.

(** While every query raises, the inner loop ends with [from_block] and
    [events] where they were: after [max_retries] timeouts, or at the first
    exception of another kind. *)
Lemma retry_loop_keeps_chunk (fuel : nat) :
  forall (from_block to_block retries : Z) (events : list event) (t : list effect),
    retry_loop w3 max_retries fuel from_block to_block retries events t = None
    \/ exists t',
         retry_loop w3 max_retries fuel from_block to_block retries events t
         = Some (Return (from_block, events), t').
Proof.
  induction fuel as [|fuel IH]; intros from_block to_block retries events t;
    [now left|].
  destruct (Z.lt_ge_cases retries max_retries) as [Hlt|Hge].
  - destruct (queries_raise (calls_made t) (range_filter from_block to_block))
      as (e & He).
    rewrite (retry_loop_raise_step fuel _ _ _ events t e Hlt He).
    destruct e as [|msg]; [apply IH|].
    right. eexists. reflexivity.
  - right. cbn [retry_loop]. destruct (Z.ltb_spec retries max_retries); [lia|].
    unfold ret. eexists. reflexivity.
Qed.

(** So the scan stays on its chunk for as long as it is run: no amount of
    fuel lets it return. *)
Lemma scan_loop_stuck_on_failing_chunk (H : Z) (fuel : nat) :
  forall (from_block : Z) (events : list event) (t : list effect),
    from_block <= H ->
    scan_loop w3 max_retries chunk_size fuel H from_block events t = None.
Proof.
  induction fuel as [|fuel IH]; intros from_block events t Hle.
  - reflexivity.
  - cbn [scan_loop]. destruct (Z.leb_spec from_block H); [|lia].
    unfold bind.
    destruct (retry_loop_keeps_chunk fuel from_block
                (Z.min (from_block + chunk_size - 1) H) 0 events t)
      as [->|(t' & ->)]; [reflexivity|].
    cbn [fst snd]. now apply IH.
Qed.

End ScanFailures.

(** C2, on the code.  After a failed query the scan asks for the same
    chunk again instead of going on to the next one; and when the queries
    keep failing, the scan never returns. *)
Theorem failed_chunk_is_not_abandoned :
  (exists t',
     _get_all_transfer_events node_failing_once 3 1000000 5 [] = Some (Return [], t')
     /\ queried_ranges t' = [(0, 999999); (0, 999999); (1000000, 1500000)])
  /\ (forall fuel, _get_all_transfer_events node_failing 3 1000000 fuel [] = None).
Proof.
  split.
  - eexists. split; vm_compute; reflexivity.
  - intros fuel. unfold _get_all_transfer_events, bind, await_block_number.
    cbn [eth_block_number node_failing].
    apply scan_loop_stuck_on_failing_chunk; [|lia].
    intros k f. eexists. reflexivity.
Qed.

(** C3, on the code.  A chunk that times out four times is asked for five
    times, after sleeps of 2, 4, 8 and 2 seconds: after the third timeout
    the retry count starts again from zero on the same chunk.  When the
    queries keep timing out, the scan never returns. *)
Theorem timed_out_chunk_is_retried_past_the_limit :
  (exists t',
     _get_all_transfer_events node_timing_out 3 1000000 6 [] = Some (Return [], t')
     /\ queried_ranges t' = [(0, 0); (0, 0); (0, 0); (0, 0); (0, 0)]
     /\ slept t' = [2; 4; 8; 2])
  /\ (forall fuel,
        _get_all_transfer_events node_always_timing_out 3 1000000 fuel [] = None).
Proof.
  split.
  - eexists. repeat split; vm_compute; reflexivity.
  - intros fuel. unfold _get_all_transfer_events, bind, await_block_number.
    cbn [eth_block_number node_always_timing_out].
    apply scan_loop_stuck_on_failing_chunk; [|lia].
    intros k f. eexists. reflexivity.
Qed.

(** ** Last activity *)

Lemma calls_made_call (t : list effect) (r : request) :
  calls_made (t ++ [Call r]) = S (calls_made t).
Proof.
  rewrite calls_made_app. unfold calls_made. simpl. lia.
Qed.

Lemma select_last_tx_greatest (incoming outgoing : list log) :
  incoming ++ outgoing <> [] ->
  exists last_tx,
    select_last_tx incoming outgoing = Some last_tx
    /\ In last_tx (firstn 1 incoming ++ firstn 1 outgoing)
    /\ (forall tx, In tx (firstn 1 incoming ++ firstn 1 outgoing) ->
          blockNumber tx <= blockNumber last_tx)
    /\ (latest_first incoming -> latest_first outgoing ->
        forall tx, In tx (incoming ++ outgoing) ->
          blockNumber tx <= blockNumber last_tx).
Proof.
  intros Hne.
  destruct incoming as [|i incoming], outgoing as [|o outgoing]; simpl in *;
    try congruence.
  - exists o. repeat split; auto.
    + intros tx [<-|[]]; lia.
    + intros _ Ho tx [<-|Hin]; [lia|].
      rewrite Forall_forall in Ho. now apply Ho.
  - exists i. rewrite !app_nil_r. repeat split; simpl; auto.
    + intros tx [<-|[]]; lia.
    + intros Hi _ tx [<-|Hin]; [lia|].
      rewrite Forall_forall in Hi. now apply Hi.
  - exists (max_by_block i o). unfold max_by_block.
    destruct (Z.ltb_spec (blockNumber i) (blockNumber o)).
    + repeat split; auto.
      * intros tx [<-|[<-|[]]]; lia.
      * intros Hi Ho tx [<-|Hin]; [lia|].
        rewrite Forall_forall in Hi, Ho.
        apply in_app_or in Hin as [Hin|[<-|Hin]]; [|lia|].
        -- specialize (Hi tx Hin). lia.
        -- now apply Ho.
    + repeat split; auto.
      * intros tx [<-|[<-|[]]]; lia.
      * intros Hi Ho tx [<-|Hin]; [lia|].
        rewrite Forall_forall in Hi, Ho.
        apply in_app_or in Hin as [Hin|[<-|Hin]]; [|lia|].
        -- now apply Hi.
        -- specialize (Ho tx Hin). lia.
Qed.

(** ** Dates *)

Lemma year_of_era_range (doe : Z) :
  0 <= doe <= 146096 ->
  0 <= (doe - doe / 1460 + doe / 36524 - doe / 146096) / 365 <= 399.
Proof.
  intros H. Z.to_euclidean_division_equations. lia.
Qed.

Lemma day_of_year_range (doe yoe : Z) :
  0 <= doe <= 146096 ->
  yoe = (doe - doe / 1460 + doe / 36524 - doe / 146096) / 365 ->
  0 <= doe - (365 * yoe + yoe / 4 - yoe / 100) <= 365.
Proof.
  intros H ->. Z.to_euclidean_division_equations. lia.
Qed.

Lemma month_day_range (doy : Z) :
  0 <= doy <= 365 ->
  0 <= (5 * doy + 2) / 153 <= 11
  /\ 1 <= doy - (153 * ((5 * doy + 2) / 153) + 2) / 5 + 1 <= 31.
Proof.
  intros H. Z.to_euclidean_division_equations. lia.
Qed.

Lemma civil_from_days_inverse (days : Z) :
  let '(y, m, d) := DateTime.civil_from_days days in
  days_from_civil y m d = days /\ 1 <= m <= 12 /\ 1 <= d <= 31.
Proof.
  unfold DateTime.civil_from_days.
  remember (days + 719468) as z eqn:Ez.
  remember (z / 146097) as era eqn:Eera.
  remember (z - era * 146097) as doe eqn:Edoe.
  assert (Hdoe : 0 <= doe <= 146096).
  { subst doe era. pose proof (Z.mod_pos_bound z 146097 ltac:(lia)) as Hm.
    rewrite Z.mod_eq in Hm by lia. lia. }
  remember ((doe - doe / 1460 + doe / 36524 - doe / 146096) / 365) as yoe eqn:Eyoe.
  pose proof (year_of_era_range doe Hdoe) as Hyoe. rewrite <- Eyoe in Hyoe.
  pose proof (day_of_year_range doe yoe Hdoe Eyoe) as Hdoy.
  remember (doe - (365 * yoe + yoe / 4 - yoe / 100)) as doy eqn:Edoy.
  pose proof (month_day_range doy Hdoy) as [Hmp Hd].
  remember ((5 * doy + 2) / 153) as mp eqn:Emp.
  remember (doy - (153 * mp + 2) / 5 + 1) as d eqn:Ed.
  cbv zeta.
  assert (Hm : ((if mp <? 10 then mp + 3 else mp - 9) <=? 2) = negb (mp <? 10)).
  { destruct (Z.ltb_spec mp 10); simpl; (apply Z.leb_le || apply Z.leb_gt); lia. }
  split; [|split; [destruct (Z.ltb_spec mp 10); lia|exact Hd]].
  unfold days_from_civil. rewrite Hm.
  assert (Hmp' : (if 2 <? (if mp <? 10 then mp + 3 else mp - 9)
                  then (if mp <? 10 then mp + 3 else mp - 9) - 3
                  else (if mp <? 10 then mp + 3 else mp - 9) + 9) = mp).
  { destruct (Z.ltb_spec mp 10).
    - destruct (Z.ltb_spec 2 (mp + 3)); lia.
    - destruct (Z.ltb_spec 2 (mp - 9)); lia. }
  cbv zeta. rewrite Hmp'.
  assert (Hy : (if negb (mp <? 10)
                then yoe + era * 400 + (if negb (mp <? 10) then 1 else 0) - 1
                else yoe + era * 400 + (if negb (mp <? 10) then 1 else 0))
               = yoe + era * 400).
  { destruct (mp <? 10); simpl; lia. }
  rewrite Hy.
  assert (Hera : (yoe + era * 400) / 400 = era).
  { rewrite Z.div_add by lia. rewrite Z.div_small by lia. lia. }
  rewrite Hera.
  replace (yoe + era * 400 - era * 400) with yoe by lia.
  subst d. lia.
Qed.

Lemma local_fields (utcoffset : Z -> Z) (t : Z) (dt : DateTime.datetime) :
  DateTime.local utcoffset t = Return dt ->
  in_range_fields dt /\ seconds_of dt = t + utcoffset t.
Proof.
  unfold DateTime.local, in_range_fields.
  set (seconds := t + utcoffset t).
  pose proof (civil_from_days_inverse (seconds / 86400)) as Hc.
  destruct (DateTime.civil_from_days (seconds / 86400)) as [[y m] d].
  destruct Hc as (Hinv & Hm & Hd).
  destruct (Z.ltb_spec (y - 1900) (- 2 ^ 31)); [discriminate|].
  destruct (Z.leb_spec (2 ^ 31) (y - 1900)); [discriminate|]. cbn [orb].
  change (2 ^ 31) with 2147483648 in *. change (2 ^ 32) with 4294967296.
  remember ((y + 2147483648) mod 4294967296 - 2147483648) as year eqn:Ey.
  destruct (Z.ltb_spec year 1); [discriminate|].
  destruct (Z.ltb_spec 9999 year); [discriminate|]. cbn [orb].
  assert (year = y).
  { subst year.
    assert (y < 2147483648 \/ 2147483648 <= y) as [Hy|Hy] by lia.
    - rewrite Z.mod_small by lia. lia.
    - exfalso.
      replace (y + 2147483648) with (y - 2147483648 + 1 * 4294967296) in * by lia.
      rewrite Z.mod_add, Z.mod_small in * by lia. lia. }
  subst y. clear Ey.
  intros E. inversion E. subst dt. clear E.
  unfold seconds_of. cbn [DateTime.year DateTime.month DateTime.day
                           DateTime.hour DateTime.minute DateTime.second].
  rewrite Hinv.
  repeat split; try lia; Z.to_euclidean_division_equations; lia.
Qed.

Lemma fromtimestamp_local (utcoffset : Z -> Z) (timestamp : Z) (dt : DateTime.datetime) :
  DateTime.fromtimestamp utcoffset timestamp = Return dt ->
  DateTime.local utcoffset timestamp = Return dt.
Proof.
  unfold DateTime.fromtimestamp.
  destruct (DateTime.time_t_fits timestamp); [|discriminate]. cbn [negb].
  destruct (DateTime.local utcoffset timestamp) as [dt0|e]; [|discriminate].
  destruct (DateTime.local utcoffset (timestamp - 86400)); [|discriminate].
  destruct (utcoffset timestamp - utcoffset (timestamp - 86400) <? 0); [|auto].
  destruct (DateTime.local utcoffset _); [auto|discriminate].
Qed.

Lemma utcfromtimestamp_local (timestamp : Z) (dt : DateTime.datetime) :
  DateTime.utcfromtimestamp timestamp = Return dt ->
  DateTime.local (fun _ => 0) timestamp = Return dt.
Proof.
  unfold DateTime.utcfromtimestamp.
  destruct (DateTime.time_t_fits timestamp); [auto|discriminate].
Qed.

(** A local time at offset 0 is the UTC time. *)
Lemma utcfromtimestamp_at_offset_zero (utcoffset : Z -> Z) (timestamp : Z)
  (dt : DateTime.datetime) :
  utcoffset timestamp = 0 ->
  DateTime.fromtimestamp utcoffset timestamp = Return dt ->
  DateTime.utcfromtimestamp timestamp = Return dt.
Proof.
  intros H0 E. pose proof (fromtimestamp_local _ _ _ E) as L.
  unfold DateTime.utcfromtimestamp.
  unfold DateTime.fromtimestamp in E.
  destruct (DateTime.time_t_fits timestamp); [|discriminate]. cbn [negb].
  unfold DateTime.local in *. rewrite H0 in L. exact L.
Qed.

(** *** The text of a date *)

Lemma nat_of_digit (n : Z) :
  0 <= n <= 9 -> nat_of_ascii (DateTime.digit n) = (48 + Z.to_nat n)%nat.
Proof.
  intros H. unfold DateTime.digit. apply nat_ascii_embedding. lia.
Qed.

Lemma is_digit_digit (n : Z) :
  0 <= n <= 9 -> is_digit (DateTime.digit n) = true.
Proof.
  intros H. unfold is_digit. rewrite nat_of_digit by exact H.
  apply andb_true_iff. split; apply Nat.leb_le; lia.
Qed.

Lemma digit_inj (a b : Z) :
  0 <= a <= 9 -> 0 <= b <= 9 -> DateTime.digit a = DateTime.digit b -> a = b.
Proof.
  intros Ha Hb E. apply (f_equal nat_of_ascii) in E.
  rewrite !nat_of_digit in E by assumption. lia.
Qed.

Lemma pad2_inj (a b : Z) :
  0 <= a <= 99 -> 0 <= b <= 99 -> DateTime.pad2 a = DateTime.pad2 b -> a = b.
Proof.
  intros Ha Hb E. unfold DateTime.pad2 in E. injection E as E1 E2.
  assert (Da : 0 <= a / 10 <= 9).
  { split; [apply Z.div_pos; lia|]. apply Z.lt_succ_r, Z.div_lt_upper_bound; lia. }
  assert (Db : 0 <= b / 10 <= 9).
  { split; [apply Z.div_pos; lia|]. apply Z.lt_succ_r, Z.div_lt_upper_bound; lia. }
  pose proof (Z.mod_pos_bound a 10 ltac:(lia)).
  pose proof (Z.mod_pos_bound b 10 ltac:(lia)).
  apply digit_inj in E1; [|assumption..].
  apply digit_inj in E2; [|lia..].
  rewrite (Z.div_mod a 10), (Z.div_mod b 10) by lia. lia.
Qed.

Lemma year_text_length (y : Z) :
  String.length (DateTime.year_text y)
  = if y <? 10 then 1%nat else if y <? 100 then 2%nat
    else if y <? 1000 then 3%nat else 4%nat.
Proof.
  unfold DateTime.year_text.
  destruct (y <? 10), (y <? 100), (y <? 1000); reflexivity.
Qed.

Lemma three_digits (a : Z) :
  a = 100 * (a / 100) + a mod 100.
Proof.
  apply Z.div_mod. lia.
Qed.

Lemma four_digits (a : Z) :
  0 <= a -> a = 1000 * (a / 1000) + 100 * (a / 100 mod 10) + a mod 100.
Proof.
  intros Ha.
  pose proof (Z.div_mod a 100 ltac:(lia)) as H1.
  pose proof (Z.div_mod (a / 100) 10 ltac:(lia)) as H2.
  rewrite Z.div_div in H2 by lia. change (100 * 10) with 1000 in H2. lia.
Qed.

Lemma String_inj (c c' : ascii) (s s' : string) :
  String c s = String c' s' -> c = c' /\ s = s'.
Proof.
  intros E. injection E. auto.
Qed.

Lemma year_text_inj (a b : Z) :
  1 <= a <= 9999 -> 1 <= b <= 9999 ->
  DateTime.year_text a = DateTime.year_text b -> a = b.
Proof.
  intros Ha Hb E.
  pose proof (f_equal String.length E) as L. rewrite !year_text_length in L.
  assert (Ra : 0 <= a mod 100 <= 99) by (pose proof (Z.mod_pos_bound a 100); lia).
  assert (Rb : 0 <= b mod 100 <= 99) by (pose proof (Z.mod_pos_bound b 100); lia).
  revert E L. unfold DateTime.year_text.
  destruct (Z.ltb_spec a 10), (Z.ltb_spec b 10);
    [intros E _; injection E as E; apply digit_inj in E; lia| | |].
  1, 2: destruct (b <? 100), (b <? 1000), (a <? 100), (a <? 1000); discriminate.
  destruct (Z.ltb_spec a 100), (Z.ltb_spec b 100);
    [intros E _; apply pad2_inj in E; lia| | |].
  1, 2: destruct (b <? 1000), (a <? 1000); discriminate.
  destruct (Z.ltb_spec a 1000), (Z.ltb_spec b 1000); try discriminate; intros E _.
  - apply String_inj in E as [E1 E2].
    apply pad2_inj in E2; [|assumption..].
    apply digit_inj in E1.
    + rewrite (three_digits a), (three_digits b). lia.
    + split; [apply Z.div_pos; lia|].
      apply Z.lt_succ_r, Z.div_lt_upper_bound; lia.
    + split; [apply Z.div_pos; lia|].
      apply Z.lt_succ_r, Z.div_lt_upper_bound; lia.
  - apply String_inj in E as [E1 E].
    apply String_inj in E as [E2 E3].
    apply pad2_inj in E3; [|assumption..].
    apply digit_inj in E1.
    + apply digit_inj in E2.
      * rewrite (four_digits a), (four_digits b) by lia. lia.
      * pose proof (Z.mod_pos_bound (a / 100) 10). lia.
      * pose proof (Z.mod_pos_bound (b / 100) 10). lia.
    + split; [apply Z.div_pos; lia|].
      apply Z.lt_succ_r, Z.div_lt_upper_bound; lia.
    + split; [apply Z.div_pos; lia|].
      apply Z.lt_succ_r, Z.div_lt_upper_bound; lia.
Qed.

Lemma append_inj_length (a a' b b' : string) :
  String.length a = String.length a' ->
  (a ++ b)%string = (a' ++ b')%string -> a = a' /\ b = b'.
Proof.
  revert a'. induction a as [|c a IH]; intros [|c' a'] L E; simpl in *;
    try discriminate; auto.
  injection E as -> E. injection L as L.
  destruct (IH a' L E) as [-> ->]. auto.
Qed.

Lemma length_of_append (a b : string) :
  String.length (a ++ b) = (String.length a + String.length b)%nat.
Proof.
  induction a as [|c a IH]; simpl; [reflexivity|]. now rewrite IH.
Qed.

Lemma strftime_length_of_year (dt : DateTime.datetime) :
  String.length (DateTime.strftime dt)
  = (String.length (DateTime.year_text (DateTime.year dt)) + 15)%nat.
Proof.
  unfold DateTime.strftime. rewrite length_of_append. reflexivity.
Qed.

Lemma strftime_length_bounds (dt : DateTime.datetime) :
  (16 <= String.length (DateTime.strftime dt) <= 19)%nat.
Proof.
  rewrite strftime_length_of_year, year_text_length.
  destruct (DateTime.year dt <? 10), (DateTime.year dt <? 100),
    (DateTime.year dt <? 1000); lia.
Qed.

(** No date reads as one of the two sentinels. *)
Lemma strftime_is_no_sentinel (dt : DateTime.datetime) :
  DateTime.strftime dt <> "No transactions"%string
  /\ DateTime.strftime dt <> "Error"%string.
Proof.
  pose proof (strftime_length_bounds dt) as L.
  split; intros E; rewrite E in L; simpl in L; lia.
Qed.

Lemma pad2_append_inj (a b : Z) (s s' : string) :
  0 <= a <= 99 -> 0 <= b <= 99 ->
  (DateTime.pad2 a ++ s)%string = (DateTime.pad2 b ++ s')%string -> a = b /\ s = s'.
Proof.
  intros Ha Hb E. apply append_inj_length in E as [E1 E2]; [|reflexivity].
  apply pad2_inj in E1; auto.
Qed.

Lemma strftime_inj (dt1 dt2 : DateTime.datetime) :
  in_range_fields dt1 -> in_range_fields dt2 ->
  DateTime.strftime dt1 = DateTime.strftime dt2 -> dt1 = dt2.
Proof.
  intros (Y1 & M1 & D1 & h1 & m1 & s1) (Y2 & M2 & D2 & h2 & m2 & s2) E.
  pose proof (f_equal String.length E) as L.
  rewrite !strftime_length_of_year in L.
  destruct dt1 as [y1 mo1 d1 ho1 mi1 se1], dt2 as [y2 mo2 d2 ho2 mi2 se2].
  unfold DateTime.strftime in E.
  cbn [DateTime.year DateTime.month DateTime.day
       DateTime.hour DateTime.minute DateTime.second] in *.
  apply append_inj_length in E as [Ey E]; [|lia].
  apply year_text_inj in Ey; [|lia..].
  apply (append_inj_length "-" "-") in E as [_ E]; [|reflexivity].
  apply pad2_append_inj in E as [Emo E]; [|lia..].
  apply (append_inj_length "-" "-") in E as [_ E]; [|reflexivity].
  apply pad2_append_inj in E as [Ed E]; [|lia..].
  apply (append_inj_length " " " ") in E as [_ E]; [|reflexivity].
  apply pad2_append_inj in E as [Eh E]; [|lia..].
  apply (append_inj_length ":" ":") in E as [_ E]; [|reflexivity].
  apply pad2_append_inj in E as [Emi E]; [|lia..].
  apply (append_inj_length ":" ":") in E as [_ E]; [|reflexivity].
  apply pad2_inj in E; [|lia..].
  congruence.
Qed.

Lemma digit_of_tens (n : Z) :
  0 <= n <= 99 -> 0 <= n / 10 <= 9 /\ 0 <= n mod 10 <= 9.
Proof.
  intros H. split.
  - split; [apply Z.div_pos; lia|].
    apply Z.lt_succ_r, Z.div_lt_upper_bound; lia.
  - pose proof (Z.mod_pos_bound n 10). lia.
Qed.

Lemma digits_of_pad2 (n : Z) :
  0 <= n <= 99 ->
  is_digit (DateTime.digit (n / 10)) = true
  /\ is_digit (DateTime.digit (n mod 10)) = true.
Proof.
  intros H. destruct (digit_of_tens n H). split; now apply is_digit_digit.
Qed.

(** A date with a year of four digits reads [YYYY-MM-DD HH:MM:SS]. *)
Lemma strftime_shape (dt : DateTime.datetime) :
  in_range_fields dt -> 1000 <= DateTime.year dt ->
  date_shaped (DateTime.strftime dt) = true
  /\ String.length (DateTime.strftime dt) = 19%nat.
Proof.
  intros (Y & M & D & h & m & s) Y4.
  destruct dt as [y mo d ho mi se].
  cbn [DateTime.year DateTime.month DateTime.day
       DateTime.hour DateTime.minute DateTime.second] in *.
  unfold DateTime.strftime, DateTime.year_text, DateTime.pad2.
  cbn [DateTime.year DateTime.month DateTime.day
       DateTime.hour DateTime.minute DateTime.second].
  destruct (Z.ltb_spec y 10); [lia|].
  destruct (Z.ltb_spec y 100); [lia|].
  destruct (Z.ltb_spec y 1000); [lia|].
  split; [|reflexivity].
  unfold date_shaped. cbn [append list_ascii_of_string forallb].
  destruct (digits_of_pad2 mo ltac:(lia)) as [-> ->].
  destruct (digits_of_pad2 d ltac:(lia)) as [-> ->].
  destruct (digits_of_pad2 ho ltac:(lia)) as [-> ->].
  destruct (digits_of_pad2 mi ltac:(lia)) as [-> ->].
  destruct (digits_of_pad2 se ltac:(lia)) as [-> ->].
  assert (Hc : 0 <= y mod 100 <= 99) by (pose proof (Z.mod_pos_bound y 100); lia).
  destruct (digits_of_pad2 (y mod 100) Hc) as [-> ->].
  rewrite (is_digit_digit (y / 1000)).
  - rewrite (is_digit_digit (y / 100 mod 10)); [reflexivity|].
    pose proof (Z.mod_pos_bound (y / 100) 10). lia.
  - split; [apply Z.div_pos; lia|].
    apply Z.lt_succ_r, Z.div_lt_upper_bound; lia.
Qed.

(** ** The lookup and the loop over the top holders *)

Section ActivityProperties.

Variable w3 : web3.
Variable utcoffset : Z -> Z.

Lemma last_transaction_date_body_returns_or_raises (address : string) (t : list effect) :
  exists r t', last_transaction_date_body w3 utcoffset address t = Some (r, t').
Proof.
  unfold last_transaction_date_body, bind, lift, await_get_logs, await_get_block, ret.
  destruct (encode_address w3 address) as [topic|e]; [|eauto].
  destruct (eth_get_logs w3 (calls_made t) (incoming_filter topic)) as [incoming|e];
    [|eauto].
  destruct (eth_get_logs w3 _ (outgoing_filter topic)) as [outgoing|e]; [|eauto].
  destruct (select_last_tx incoming outgoing) as [tx|]; [|eauto].
  destruct (eth_get_block w3 _ (blockNumber tx)) as [ts|e]; [|eauto].
  destruct (DateTime.fromtimestamp utcoffset ts); eauto.
Qed.

Lemma last_transaction_date_of_body (address : string) (t : list effect) :
  (forall s t', last_transaction_date_body w3 utcoffset address t = Some (Return s, t') ->
     _get_last_transaction_date w3 utcoffset address t = Some (Return s, t'))
  /\ (forall e t', last_transaction_date_body w3 utcoffset address t = Some (Raise e, t') ->
        _get_last_transaction_date w3 utcoffset address t
        = Some (Return "Error"%string,
                t' ++ [Print (Error_getting_last_transaction address (str e))])).
Proof.
  unfold _get_last_transaction_date, try_except, bind, print, emit, ret.
  split; intros ? ? E; rewrite E; reflexivity.
Qed.

Lemma last_transaction_date_returns (address : string) (t : list effect) :
  exists s t', _get_last_transaction_date w3 utcoffset address t = Some (Return s, t').
Proof.
  destruct (last_transaction_date_body_returns_or_raises address t) as ([s|e] & t' & E).
  - exists s, t'. now apply last_transaction_date_of_body.
  - do 2 eexists. apply last_transaction_date_of_body. exact E.
Qed.

Lemma attach_dates_returns (top_holders : list (string * PyFloat.float)) :
  forall (results : list (string * PyFloat.float * string)) (t : list effect),
  exists dated t',
    attach_dates w3 utcoffset top_holders results t = Some (Return (results ++ dated), t')
    /\ map fst dated = top_holders.
Proof.
  induction top_holders as [|[address balance] rest IH]; intros results t; simpl.
  - exists [], t. rewrite app_nil_r. auto.
  - destruct (last_transaction_date_returns address t) as (s & t1 & E).
    unfold bind. rewrite E.
    destruct (IH (results ++ [(address, balance, s)]) t1) as (dated & t' & E' & M).
    exists ((address, balance, s) :: dated), t'.
    rewrite E', <- app_assoc. simpl. now rewrite M.
Qed.

Lemma attach_dates_looks_each_up (top_holders : list (string * PyFloat.float)) :
  forall (results : list (string * PyFloat.float * string)) (t : list effect),
  exists dated t',
    attach_dates w3 utcoffset top_holders results t = Some (Return (results ++ dated), t')
    /\ map fst dated = top_holders
    /\ each_looked_up w3 utcoffset top_holders t dated.
Proof.
  induction top_holders as [|[address balance] rest IH]; intros results t; simpl.
  - exists [], t. rewrite app_nil_r. auto.
  - destruct (last_transaction_date_returns address t) as (s & t1 & E).
    unfold bind. rewrite E.
    destruct (IH (results ++ [(address, balance, s)]) t1) as (dated & t' & E' & M & L).
    exists ((address, balance, s) :: dated), t'.
    rewrite E', <- app_assoc. simpl. rewrite M.
    split; [reflexivity|]. split; [reflexivity|].
    exists s, t1. auto.
Qed.

Lemma looked_up_stationary (address : string) (t t0 : list effect) (s : string) :
  stationary w3 ->
  looked_up w3 utcoffset address t s -> looked_up w3 utcoffset address t0 s.
Proof.
  intros [Hl Hb] (t' & E). revert E.
  unfold looked_up, _get_last_transaction_date, try_except, last_transaction_date_body,
    bind, lift, await_get_logs, await_get_block, ret, print, emit.
  destruct (encode_address w3 address) as [topic|e];
    [|intros E; inversion E; eexists; reflexivity].
  rewrite (Hl (calls_made t) (calls_made t0)).
  destruct (eth_get_logs w3 (calls_made t0) (incoming_filter topic)) as [incoming|e];
    [|intros E; inversion E; eexists; reflexivity].
  rewrite !calls_made_call.
  rewrite (Hl (S (calls_made t)) (S (calls_made t0))).
  destruct (eth_get_logs w3 (S (calls_made t0)) (outgoing_filter topic)) as [outgoing|e];
    [|intros E; inversion E; eexists; reflexivity].
  destruct (select_last_tx incoming outgoing) as [tx|];
    [|intros E; inversion E; eexists; reflexivity].
  rewrite !calls_made_call.
  rewrite (Hb (S (S (calls_made t))) (S (S (calls_made t0)))).
  destruct (eth_get_block w3 (S (S (calls_made t0))) (blockNumber tx)) as [ts|e];
    [|intros E; inversion E; eexists; reflexivity].
  destruct (DateTime.fromtimestamp utcoffset ts);
    intros E; inversion E; eexists; reflexivity.
Qed.

Lemma each_looked_up_stationary (top_holders : list (string * PyFloat.float)) :
  stationary w3 ->
  forall (t : list effect) (dated : list (string * PyFloat.float * string)),
    each_looked_up w3 utcoffset top_holders t dated ->
    each_looked_up_alone w3 utcoffset top_holders dated.
Proof.
  intros St. unfold each_looked_up_alone.
  induction top_holders as [|[address balance] rest IH]; intros t [|d dated] H;
    simpl in H; try contradiction.
  - constructor.
  - destruct H as (s & t' & E & -> & H). constructor.
    + exists s. split; [reflexivity|].
      apply (looked_up_stationary address t []); [exact St|].
      exists t'. exact E.
    + eapply IH. exact H.
Qed.

End ActivityProperties.

(** C8.  The lookup of an account always returns a string: ["No
    transactions"] when both queries return no entry, ["Error"] when the
    body of the lookup raises, as it does when a query raises; the two
    strings differ.  The loop of [get_top_with_transactions] gives every
    top holder, in order, an entry with the date its own lookup returns,
    whatever the lookups of the others returned; on a node whose answers do
    not change from one call to the next that is the date the lookup of
    that holder alone returns. *)
Theorem last_transaction_date_sentinels (w3 : web3) (utcoffset : Z -> Z) :
  (forall address t,
     exists s t', _get_last_transaction_date w3 utcoffset address t = Some (Return s, t'))
  /\ (forall address t topic,
        encode_address w3 address = Return topic ->
        eth_get_logs w3 (calls_made t) (incoming_filter topic) = Return [] ->
        eth_get_logs w3 (S (calls_made t)) (outgoing_filter topic) = Return [] ->
        exists t', _get_last_transaction_date w3 utcoffset address t
                   = Some (Return "No transactions"%string, t'))
  /\ (forall address t topic e,
        encode_address w3 address = Return topic ->
        eth_get_logs w3 (calls_made t) (incoming_filter topic) = Raise e
        \/ (exists incoming,
              eth_get_logs w3 (calls_made t) (incoming_filter topic) = Return incoming
              /\ eth_get_logs w3 (S (calls_made t)) (outgoing_filter topic) = Raise e) ->
        exists t', _get_last_transaction_date w3 utcoffset address t
                   = Some (Return "Error"%string, t'))
  /\ (forall address t e t',
        last_transaction_date_body w3 utcoffset address t = Some (Raise e, t') ->
        exists t'', _get_last_transaction_date w3 utcoffset address t
                    = Some (Return "Error"%string, t''))
  /\ "Error"%string <> "No transactions"%string
  /\ (forall top_holders t,
        exists dated t',
          attach_dates w3 utcoffset top_holders [] t = Some (Return dated, t')
          /\ map fst dated = top_holders
          /\ each_looked_up w3 utcoffset top_holders t dated
          /\ (stationary w3 -> each_looked_up_alone w3 utcoffset top_holders dated))
  /\ (forall decimals fuel n t top_holders t1,
        get_top_holders w3 decimals fuel n t = Some (Return top_holders, t1) ->
        exists dated t2,
          get_top_with_transactions w3 decimals utcoffset fuel n t
          = Some (Return dated, t2)
          /\ map fst dated = top_holders
          /\ each_looked_up w3 utcoffset top_holders t1 dated
          /\ (stationary w3 -> each_looked_up_alone w3 utcoffset top_holders dated)).
Proof.
  split; [intros; apply last_transaction_date_returns|].
  split.
  { intros address t topic He Hi Ho. eexists.
    apply last_transaction_date_of_body.
    unfold last_transaction_date_body, bind, lift, await_get_logs.
    rewrite He, Hi, calls_made_call, Ho. reflexivity. }
  split.
  { intros address t topic e He [Hi|(incoming & Hi & Ho)]; eexists;
      apply last_transaction_date_of_body;
      unfold last_transaction_date_body, bind, lift, await_get_logs;
      rewrite He, Hi; [reflexivity|].
    rewrite calls_made_call, Ho. reflexivity. }
  split.
  { intros address t e t' E. eexists. apply last_transaction_date_of_body. exact E. }
  split; [discriminate|].
  split.
  { intros top_holders t.
    destruct (attach_dates_looks_each_up w3 utcoffset top_holders [] t)
      as (d & t' & E & M & L).
    exists d, t'. repeat split; auto.
    intros St. now apply (each_looked_up_stationary w3 utcoffset top_holders St t). }
  intros decimals fuel n t top_holders t1 E.
  unfold get_top_with_transactions, bind. rewrite E.
  destruct top_holders as [|h rest].
  - exists [], t1. repeat split; auto. intros _. constructor.
  - destruct (attach_dates_looks_each_up w3 utcoffset (h :: rest) [] t1)
      as (d & t' & E' & M & L).
    exists d, t'. repeat split; auto.
    intros St. now apply (each_looked_up_stationary w3 utcoffset (h :: rest) St t1).
Qed.

(** An account with no transfer, an account whose queries fail, and a
    ranking of two holders of which the first one's queries fail: the
    second holder still gets the date of its last transfer. *)
Lemma last_transaction_date_sentinels_witness :
  (exists t', _get_last_transaction_date quiet_node (fun _ => 0) CAROL []
              = Some (Return "No transactions"%string, t'))
  /\ (exists t', _get_last_transaction_date node_with_activity (fun _ => 0) BOB []
                 = Some (Return "Error"%string, t'))
  /\ (exists t',
        get_top_with_transactions node_with_failing_lookup 0 (fun _ => 0) 2 2 []
        = Some (Return [(ALICE, PyFloat.of_Z 60, "Error"%string);
                        (BOB, PyFloat.of_Z 40, "2023-11-14 22:13:37"%string)], t')).
Proof.
  split; [|split].
  - destruct (last_transaction_date_sentinels quiet_node (fun _ => 0))
      as (_ & Hnone & _).
    apply (Hnone CAROL [] CAROL); reflexivity.
  - destruct (last_transaction_date_sentinels node_with_activity (fun _ => 0))
      as (_ & _ & Herr & _).
    apply (Herr BOB [] BOB (Exception "query returned more than 10000 results"));
      [reflexivity|]. left. reflexivity.
  - destruct (last_transaction_date_sentinels node_with_failing_lookup (fun _ => 0))
      as (_ & _ & _ & _ & _ & _ & Hloop).
    edestruct (Hloop 0%N 2%nat 2 [] [(ALICE, PyFloat.of_Z 60); (BOB, PyFloat.of_Z 40)])
      as (dated & t2 & E & _ & _ & Halone).
    { vm_compute. reflexivity. }
    exists t2. rewrite E.
    assert (St : stationary node_with_failing_lookup) by (split; reflexivity).
    specialize (Halone St). unfold each_looked_up_alone in Halone.
    inversion Halone as [|h1 d1 hs ds (s1 & -> & (t1' & L1)) R1]; subst.
    inversion R1 as [|h2 d2 hs2 ds2 (s2 & -> & (t2' & L2)) R2]; subst.
    inversion R2; subst.
    vm_compute in L1. vm_compute in L2.
    inversion L1. inversion L2. reflexivity.
Defined.

Lemma select_last_tx_most_recent (incoming outgoing : list log) :
  incoming ++ outgoing <> [] ->
  latest_first incoming -> latest_first outgoing ->
  exists last_tx,
    select_last_tx incoming outgoing = Some last_tx
    /\ most_recent (incoming ++ outgoing) last_tx
    /\ (forall i o, most_recent incoming i -> most_recent outgoing o ->
          blockNumber last_tx = Z.max (blockNumber i) (blockNumber o)).
Proof.
  intros Hne Hi Ho.
  destruct (select_last_tx_greatest incoming outgoing Hne) as (tx & S1 & S2 & _ & S4).
  specialize (S4 Hi Ho).
  assert (Hin : In tx (incoming ++ outgoing)).
  { apply in_app_or in S2. apply in_or_app.
    destruct S2 as [H|H]; [left|right];
      rewrite <- (firstn_skipn 1); apply in_or_app; left; exact H. }
  exists tx. split; [exact S1|]. split; [split; assumption|].
  intros i o [Ii Mi] [Io Mo].
  assert (blockNumber i <= blockNumber tx) by (apply S4, in_or_app; auto).
  assert (blockNumber o <= blockNumber tx) by (apply S4, in_or_app; auto).
  apply in_app_or in Hin as [H1|H1]; [specialize (Mi tx H1)|specialize (Mo tx H1)]; lia.
Qed.

(** C5, as the code has it.  When the two queries succeed with at least one
    entry and each reply lists its most recent entry first, the lookup
    selects the most recent of the transfers returned: of the latest
    transfer received and the latest one sent, the one in the later block.
    The date it returns is the timestamp of that block read in the local
    time of the process; with a year of four digits it reads
    [YYYY-MM-DD HH:MM:SS]; and it is the UTC date exactly when the local
    offset at that timestamp is zero. *)
Theorem last_transaction_date_of_latest_transfer (w3 : web3) (utcoffset : Z -> Z)
  (address : string) (t : list effect) (topic : string) (incoming outgoing : list log) :
  encode_address w3 address = Return topic ->
  eth_get_logs w3 (calls_made t) (incoming_filter topic) = Return incoming ->
  eth_get_logs w3 (S (calls_made t)) (outgoing_filter topic) = Return outgoing ->
  incoming ++ outgoing <> [] ->
  latest_first incoming -> latest_first outgoing ->
  exists last_tx,
    select_last_tx incoming outgoing = Some last_tx
    /\ most_recent (incoming ++ outgoing) last_tx
    /\ (forall i o, most_recent incoming i -> most_recent outgoing o ->
          blockNumber last_tx = Z.max (blockNumber i) (blockNumber o))
    /\ forall timestamp dt,
         eth_get_block w3 (S (S (calls_made t))) (blockNumber last_tx) = Return timestamp ->
         DateTime.fromtimestamp utcoffset timestamp = Return dt ->
         looked_up w3 utcoffset address t (DateTime.strftime dt)
         /\ seconds_of dt = timestamp + utcoffset timestamp
         /\ (1000 <= DateTime.year dt -> date_shaped (DateTime.strftime dt) = true)
         /\ ((exists utc, DateTime.utcfromtimestamp timestamp = Return utc
                          /\ DateTime.strftime utc = DateTime.strftime dt)
             <-> utcoffset timestamp = 0).
Proof.
  intros He Hi Ho Hne Li Lo.
  destruct (select_last_tx_most_recent incoming outgoing Hne Li Lo) as (tx & S1 & S2 & S3).
  exists tx. repeat (split; [assumption|]).
  intros timestamp dt Hb Hd.
  destruct (local_fields _ _ _ (fromtimestamp_local _ _ _ Hd)) as [Hr Hs].
  split; [|split; [exact Hs|split]].
  - eexists. apply last_transaction_date_of_body.
    unfold last_transaction_date_body, bind, lift, await_get_logs, await_get_block.
    rewrite He, Hi, calls_made_call, Ho, S1, !calls_made_call, Hb, Hd. reflexivity.
  - intros Y4. now apply strftime_shape.
  - split.
    + intros (utc & Hu & Es).
      destruct (local_fields _ _ _ (utcfromtimestamp_local _ _ Hu)) as [Hru Hsu].
      apply strftime_inj in Es; [|assumption..]. subst utc. lia.
    + intros H0. exists dt. split; [|reflexivity].
      now apply (utcfromtimestamp_at_offset_zero utcoffset).
Qed.

(** ALICE has received in block 100 and sent in block 150; in a process
    three hours east of UTC the date is that of block 150 in local time. *)
Lemma last_transaction_date_of_latest_transfer_witness :
  exists last_tx,
    select_last_tx [Log 100 None] [Log 150 None] = Some last_tx
    /\ blockNumber last_tx = 150
    /\ looked_up node_with_activity (fun _ => 10800) ALICE []
         "2023-11-15 01:15:50"%string.
Proof.
  destruct (last_transaction_date_of_latest_transfer node_with_activity (fun _ => 10800)
              ALICE [] ALICE [Log 100 None] [Log 150 None]
              eq_refl eq_refl eq_refl ltac:(discriminate)
              (Forall_nil _) (Forall_nil _))
    as (tx & S1 & _ & _ & H).
  exists tx. split; [exact S1|].
  assert (E : tx = Log 150 None) by (vm_compute in S1; congruence).
  split; [now rewrite E|].
  destruct (H 1700000150 (DateTime.Datetime 2023 11 15 1 15 50)) as [D _].
  - now rewrite E.
  - vm_compute. reflexivity.
  - exact D.
Defined.

(** C5, as the specification has it, fails: in a process three hours east
    of UTC the date returned for a block stamped 1700000150 is the local
    one, not the UTC one. *)
Lemma last_transaction_date_is_local_not_utc :
  exists t' dt,
    _get_last_transaction_date node_with_activity (fun _ => 10800) ALICE []
    = Some (Return "2023-11-15 01:15:50"%string, t')
    /\ DateTime.utcfromtimestamp 1700000150 = Return dt
    /\ DateTime.strftime dt = "2023-11-14 22:15:50"%string
    /\ "2023-11-15 01:15:50"%string <> DateTime.strftime dt.
Proof.
  do 2 eexists. split; [vm_compute; reflexivity|].
  split; [vm_compute; reflexivity|].
  split; [reflexivity|]. vm_compute. discriminate.
Qed.

(** Where a reply lists an older entry first, the lookup reads that entry:
    with transfers received in blocks 100 and 180 and one sent in block
    150, the date returned is that of block 150, although the docstring
    promises the date of the last transaction. *)
Example ascending_reply_dates_an_older_transfer :
  looked_up node_with_ascending_replies (fun _ => 0) ALICE []
    "2023-11-14 22:15:50"%string
  /\ eth_get_block node_with_ascending_replies 2 150 = Return 1700000150
  /\ most_recent ([Log 100 None; Log 180 None] ++ [Log 150 None]) (Log 180 None).
Proof.
  split; [eexists; vm_compute; reflexivity|].
  split; [reflexivity|].
  split; [simpl; auto|].
  intros tx [<-|[<-|[<-|[]]]]; simpl; lia.
Qed.

(** ** Gathered tasks *)

Lemma first_raised_none {A} (tasks : list (task A)) :
  (forall t, In t tasks -> exists a, task_result t = Return a) ->
  first_raised tasks = None.
Proof.
  induction tasks as [|t tasks IH]; intros H; simpl; auto.
  destruct (H t (or_introl eq_refl)) as (a & ->).
  apply IH. intros t' Hin. apply H. now right.
Qed.

Lemma first_raised_sound {A} (tasks : list (task A)) :
  forall n e, first_raised tasks = Some (n, e) ->
    exists t, In t tasks /\ task_result t = Raise e /\ done_at t = n.
Proof.
  induction tasks as [|t0 tasks IH]; intros n e F; simpl in F; [discriminate|].
  destruct (task_result t0) as [a|e0] eqn:E0.
  - destruct (IH n e F) as (t & I & R & D). exists t. split; [now right|auto].
  - destruct (first_raised tasks) as [[n' e']|].
    + destruct (done_at t0 <=? n')%nat; inversion F; subst.
      * exists t0. split; [now left|auto].
      * destruct (IH n e eq_refl) as (t & I & R & D).
        exists t. split; [now right|auto].
    + inversion F; subst. exists t0. split; [now left|auto].
Qed.

Lemma first_raised_complete {A} (tasks : list (task A)) (t : task A) (e : exn) :
  In t tasks -> task_result t = Raise e -> first_raised tasks <> None.
Proof.
  induction tasks as [|t0 tasks IH]; intros Hin He; [contradiction|].
  simpl. destruct (task_result t0) as [a|e0] eqn:E0.
  - destruct Hin as [->|Hin]; [congruence|]. now apply IH.
  - destruct (first_raised tasks) as [[n' e']|]; [|discriminate].
    destruct (done_at t0 <=? n')%nat; discriminate.
Qed.

Lemma first_raised_earliest {A} (tasks : list (task A)) :
  forall n e, first_raised tasks = Some (n, e) ->
    forall t e0, In t tasks -> task_result t = Raise e0 -> (n <= done_at t)%nat.
Proof.
  induction tasks as [|t0 tasks IH]; intros n e F t e1 Hin He; [contradiction|].
  simpl in F. destruct (task_result t0) as [a|e0] eqn:E0.
  - destruct Hin as [->|Hin]; [congruence|]. now apply (IH n e F t e1).
  - destruct (first_raised tasks) as [[n' e']|] eqn:F'.
    + destruct (Nat.leb_spec (done_at t0) n'); inversion F; subst.
      * destruct Hin as [->|Hin]; [lia|].
        specialize (IH n' e' eq_refl t e1 Hin He). lia.
      * destruct Hin as [->|Hin]; [lia|].
        now apply (IH n e eq_refl t e1).
    + inversion F; subst. destruct Hin as [->|Hin]; [lia|].
      now destruct (first_raised_complete tasks t e1 Hin He).
Qed.

Lemma gather_raises {A} (tasks : list (task A)) (t : task A) (e : exn) :
  In t tasks -> task_result t = Raise e ->
  exists e' t',
    gather tasks = Raise e' /\ In t' tasks /\ task_result t' = Raise e'
    /\ forall t0 e0, In t0 tasks -> task_result t0 = Raise e0 ->
         (done_at t' <= done_at t0)%nat.
Proof.
  intros Hin He. unfold gather.
  destruct (first_raised tasks) as [[n e']|] eqn:F.
  - destruct (first_raised_sound tasks n e' F) as (t' & I & R & D).
    exists e', t'. repeat split; auto.
    intros t0 e0 I0 R0. rewrite D. now apply (first_raised_earliest tasks n e' F t0 e0).
  - now destruct (first_raised_complete tasks t e Hin He).
Qed.

Lemma returned_all {A} (tasks : list (task A)) :
  (forall t, In t tasks -> exists a, task_result t = Return a) ->
  map (fun t => Return (A:=A) t) (returned tasks) = map task_result tasks.
Proof.
  induction tasks as [|t tasks IH]; intros H; simpl; auto.
  destruct (H t (or_introl eq_refl)) as (a & E). rewrite E. simpl.
  f_equal. apply IH. intros t' Hin. apply H. now right.
Qed.

(** ** Batch balances *)

Section BalanceProperties.

Variable w3 : web3.
Variable decimals : N.

Lemma balance_tasks_nth (addresses : list string) :
  forall (k i : nat),
    nth_error (balance_tasks w3 decimals k addresses) i
    = option_map (get_balance w3 decimals (k + i)) (nth_error addresses i).
Proof.
  induction addresses as [|a addresses IH]; intros k i; simpl.
  - now destruct i.
  - destruct i; simpl.
    + now rewrite Nat.add_0_r.
    + rewrite IH. now rewrite Nat.add_succ_r.
Qed.

Lemma balance_tasks_In (addresses : list string) (t : task PyFloat.float) :
  In t (balance_tasks w3 decimals 0 addresses) ->
  exists i addr, nth_error addresses i = Some addr
                 /\ t = get_balance w3 decimals i addr.
Proof.
  intros Hin. apply In_nth_error in Hin as (i & Hi).
  rewrite balance_tasks_nth in Hi. simpl in Hi.
  destruct (nth_error addresses i) as [addr|] eqn:E; [|discriminate].
  inversion Hi. eauto.
Qed.

End BalanceProperties.

(** C10.  When the lookup of every address of the batch returns, the batch
    returns a list as long as the input whose i-th element is the balance
    the lookup of the i-th address returned. *)
Theorem get_balance_batch_keeps_order (w3 : web3) (decimals : N)
  (addresses : list string) :
  (forall i addr, nth_error addresses i = Some addr ->
     exists x, task_result (get_balance w3 decimals i addr) = Return x) ->
  exists balances,
    get_balance_batch w3 decimals addresses = Return balances
    /\ List.length balances = List.length addresses
    /\ forall i addr, nth_error addresses i = Some addr ->
         exists x, nth_error balances i = Some x
                   /\ task_result (get_balance w3 decimals i addr) = Return x.
Proof.
  intros Hall.
  assert (Hret : forall t, In t (balance_tasks w3 decimals 0 addresses) ->
                   exists a, task_result t = Return a).
  { intros t Hin. apply balance_tasks_In in Hin as (i & addr & Hi & ->). eauto. }
  pose proof (returned_all _ Hret) as Hmap.
  exists (returned (balance_tasks w3 decimals 0 addresses)).
  unfold get_balance_batch, gather. rewrite (first_raised_none _ Hret).
  split; [reflexivity|].
  assert (Hlen : List.length (returned (balance_tasks w3 decimals 0 addresses))
                 = List.length addresses).
  { apply (f_equal (@List.length _)) in Hmap. rewrite !length_map in Hmap.
    rewrite Hmap. clear. generalize 0%nat.
    induction addresses; intros k; simpl; auto. }
  split; [exact Hlen|].
  intros i addr Hi. destruct (Hall i addr Hi) as (x & Hx). exists x. split; [|exact Hx].
  apply (f_equal (fun l => nth_error l i)) in Hmap.
  rewrite !nth_error_map, balance_tasks_nth, Hi in Hmap. simpl in Hmap.
  rewrite Hx in Hmap.
  destruct (nth_error (returned (balance_tasks w3 decimals 0 addresses)) i);
    simpl in Hmap; congruence.
Qed.

Lemma get_balance_batch_keeps_order_witness :
  exists balances,
    get_balance_batch node_with_balances 18 [ALICE; BOB] = Return balances
    /\ List.length balances = 2%nat
    /\ nth_error balances 1 = Some (PyFloat.of_Z 7).
Proof.
  destruct (get_balance_batch_keeps_order node_with_balances 18 [ALICE; BOB])
    as (balances & E & L & H).
  - intros [|[|i]] addr Hi; simpl in Hi; inversion Hi; subst.
    + exists (PyFloat.of_Z 5). vm_compute. reflexivity.
    + exists (PyFloat.of_Z 7). vm_compute. reflexivity.
    + destruct i; discriminate.
  - exists balances. split; [exact E|]. split; [exact L|].
    destruct (H 1%nat BOB eq_refl) as (x & Hx & R).
    rewrite Hx. f_equal.
    assert (R' : task_result (get_balance node_with_balances 18 1 BOB)
                 = Return (PyFloat.of_Z 7)) by (vm_compute; reflexivity).
    congruence.
Defined.

(** C1, as the code has it.  When the lookup of one address of the batch
    raises, the whole batch raises: the caller gets the exception of the
    failed lookup that finished first and no balance at all, and the
    endpoint answers with status 400. *)
Theorem get_balance_batch_fails_as_a_unit (w3 : web3) (decimals : N)
  (symbol : string) (addresses : list string) (i : nat) (addr : string) (e : exn) :
  nth_error addresses i = Some addr ->
  task_result (get_balance w3 decimals i addr) = Raise e ->
  exists e' j addr',
    get_balance_batch w3 decimals addresses = Raise e'
    /\ nth_error addresses j = Some addr'
    /\ task_result (get_balance w3 decimals j addr') = Raise e'
    /\ (forall k addr0 e0,
          nth_error addresses k = Some addr0 ->
          task_result (get_balance w3 decimals k addr0) = Raise e0 ->
          (done_at (get_balance w3 decimals j addr')
           <= done_at (get_balance w3 decimals k addr0))%nat)
    /\ Server.get_balance_batch w3 decimals symbol addresses
       = Server.HTTPException 400 (str e').
Proof.
  intros Hi He.
  assert (Hnth : forall k a, nth_error addresses k = Some a ->
                   In (get_balance w3 decimals k a) (balance_tasks w3 decimals 0 addresses)).
  { intros k a Hk. apply (nth_error_In _ k). rewrite balance_tasks_nth, Hk. reflexivity. }
  destruct (gather_raises (balance_tasks w3 decimals 0 addresses)
              (get_balance w3 decimals i addr) e (Hnth i addr Hi) He)
    as (e' & t' & G & I & R & D).
  apply balance_tasks_In in I as (j & addr' & Hj & ->).
  exists e', j, addr'. unfold Server.get_balance_batch, get_balance_batch.
  rewrite G. repeat split; auto.
  intros k addr0 e0 Hk Rk. apply (D _ e0); auto.
Qed.

Lemma get_balance_batch_fails_as_a_unit_witness :
  exists e',
    get_balance_batch node_with_balances 18 [CAROL; BOB] = Raise e'
    /\ Server.get_balance_batch node_with_balances 18 "TKN" [CAROL; BOB]
       = Server.HTTPException 400 (str e').
Proof.
  destruct (get_balance_batch_fails_as_a_unit node_with_balances 18 "TKN"
              [CAROL; BOB] 0 CAROL (Exception "execution reverted")
              eq_refl eq_refl)
    as (e' & j & addr' & G & _ & _ & _ & S).
  exists e'. split; assumption.
Defined.

(** C1, as the specification has it, fails: BOB's lookup returns 7.0 and
    CAROL's raises, and the caller of the batch gets the exception alone. *)
Lemma batch_with_one_failure_returns_no_balance :
  task_result (get_balance node_with_balances 18 1 BOB) = Return (PyFloat.of_Z 7)
  /\ get_balance_batch node_with_balances 18 [CAROL; BOB]
     = Raise (Exception "execution reverted")
  /\ Server.get_balance_batch node_with_balances 18 "TKN" [CAROL; BOB]
     = Server.HTTPException 400 "execution reverted".
Proof.
  repeat split; vm_compute; reflexivity.
Qed.

(** * Further properties *)

(** ** More on the ledger *)

Lemma total_set (d : PyDict.dict) (k : string) (v : Z) :
  total (PyDict.set d k v) = total d - PyDict.get_default d k + v.
Proof.
  unfold PyDict.get_default.
  induction d as [|[k' v'] d IH]; simpl.
  - lia.
  - destruct (String.eqb k' k); simpl; [lia|]. rewrite IH. lia.
Qed.

Lemma total_apply_event (balances : PyDict.dict) (ev : event) :
  total (apply_event balances ev) = total balances + supply_change ev.
Proof.
  unfold apply_event, supply_change, event_value.
  destruct (counts_as_holder (arg_from (args ev))),
           (counts_as_holder (arg_to (args ev)));
    rewrite ?total_set; lia.
Qed.

Lemma keys_set (d : PyDict.dict) (k : string) (v : Z) :
  PyDict.keys (PyDict.set d k v) =
  if has_key d k then PyDict.keys d else PyDict.keys d ++ [k].
Proof.
  unfold has_key, PyDict.keys.
  induction d as [|[k' v'] d IH]; simpl; auto.
  destruct (String.eqb k' k) eqn:E; simpl; auto.
  rewrite IH. now destruct (PyDict.get d k).
Qed.

Lemma has_key_In (d : PyDict.dict) (k : string) :
  has_key d k = true <-> In k (PyDict.keys d).
Proof.
  unfold has_key, PyDict.keys.
  induction d as [|[k' v'] d IH]; simpl.
  - split; [discriminate|tauto].
  - destruct (String.eqb_spec k' k) as [->|Hne].
    + split; auto.
    + rewrite IH. split; [auto|]. intros [E|H]; [congruence|auto].
Qed.

Lemma NoDup_keys_set (d : PyDict.dict) (k : string) (v : Z) :
  NoDup (PyDict.keys d) -> NoDup (PyDict.keys (PyDict.set d k v)).
Proof.
  intros Hd. rewrite keys_set. destruct (has_key d k) eqn:E; auto.
  apply NoDup_app; auto.
  - repeat constructor. simpl. tauto.
  - intros x Hx [<-|[]]. apply has_key_In in Hx. congruence.
Qed.

Lemma NoDup_keys_apply_event (balances : PyDict.dict) (ev : event) :
  NoDup (PyDict.keys balances) -> NoDup (PyDict.keys (apply_event balances ev)).
Proof.
  intros Hd. unfold apply_event.
  destruct (counts_as_holder (arg_from (args ev))),
           (counts_as_holder (arg_to (args ev)));
    auto using NoDup_keys_set.
Qed.

Lemma fold_apply_event_invariants (es : list event) :
  forall balances,
    NoDup (PyDict.keys balances) ->
    NoDup (PyDict.keys (fold_left apply_event es balances))
    /\ total (fold_left apply_event es balances)
       = total balances + fold_right (fun ev acc => supply_change ev + acc) 0 es.
Proof.
  induction es as [|ev es IH]; intros balances Hd; simpl.
  - split; [exact Hd|lia].
  - destruct (IH (apply_event balances ev) (NoDup_keys_apply_event _ _ Hd)) as [H1 H2].
    split; [exact H1|]. rewrite H2, total_apply_event. lia.
Qed.

Lemma touches_holder (ev : event) (a : string) :
  touches ev a = true -> a <> ""%string /\ a <> ZERO_ADDRESS.
Proof.
  unfold touches, counts_as_holder.
  destruct (arg_from (args ev)) as [f|], (arg_to (args ev)) as [t|]; simpl;
    rewrite ?orb_true_iff, ?andb_true_iff, ?negb_true_iff;
    intros H; repeat match goal with
                     | H : _ \/ _ |- _ => destruct H
                     | H : _ /\ _ |- _ => destruct H
                     end; try discriminate;
    match goal with H : String.eqb _ a = true |- _ => apply String.eqb_eq in H; subst end;
    split; intros ->; simpl in *; congruence.
Qed.

Lemma touched_holder (es : list event) (a : string) :
  touched es a = true -> a <> ""%string /\ a <> ZERO_ADDRESS.
Proof.
  unfold touched. rewrite existsb_exists. intros (ev & _ & H).
  now apply (touches_holder ev).
Qed.

(** X1.  A ledger built from events has each account once; its accounts
    are the senders and receivers of the events other than the zero address
    and the empty string, so the zero address is never an account of it. *)
Theorem count_balances_accounts (es : list event) :
  NoDup (PyDict.keys (count_balances es))
  /\ PyDict.get (count_balances es) ZERO_ADDRESS = None
  /\ forall a,
       In a (PyDict.keys (count_balances es)) <->
       a <> ""%string /\ a <> ZERO_ADDRESS
       /\ exists ev, In ev es
                     /\ (arg_from (args ev) = Some a \/ arg_to (args ev) = Some a).
Proof.
  assert (Hkey : forall a, has_key (count_balances es) a = touched es a).
  { intros a. unfold count_balances. rewrite fold_apply_event_keys.
    unfold has_key. simpl. apply orb_false_r. }
  split; [|split].
  - apply (fold_apply_event_invariants es []). constructor.
  - specialize (Hkey ZERO_ADDRESS). unfold has_key in Hkey.
    destruct (PyDict.get (count_balances es) ZERO_ADDRESS); auto.
    symmetry in Hkey. apply touched_holder in Hkey. tauto.
  - intros a. rewrite <- has_key_In, Hkey. split.
    + intros H. destruct (touched_holder es a H) as [H1 H2].
      split; [exact H1|]. split; [exact H2|].
      unfold touched in H. apply existsb_exists in H as (ev & Hin & Ht).
      exists ev. split; [exact Hin|].
      unfold touches in Ht. apply orb_true_iff in Ht as [Ht|Ht];
        apply andb_true_iff in Ht as [Hc He]; apply String.eqb_eq in He;
        unfold counts_as_holder, addr_key in *.
      * left. destruct (arg_from (args ev)); [now subst|discriminate].
      * right. destruct (arg_to (args ev)); [now subst|discriminate].
    + intros (H1 & H2 & ev & Hin & Hev).
      unfold touched. apply existsb_exists. exists ev. split; [exact Hin|].
      unfold touches, counts_as_holder, addr_key.
      apply String.eqb_neq in H1, H2.
      destruct Hev as [-> | ->]; rewrite H1, H2, String.eqb_refl; simpl;
        [reflexivity|apply orb_true_r].
Qed.

(** X2.  The balances of a ledger add up to what its events minted less
    what they burned: each event adds its amount when its receiver is
    credited and takes it when its sender is debited.  So events between
    two holders leave a sum of zero. *)
Theorem count_balances_conserves_supply (es : list event) :
  total (count_balances es)
  = fold_right (fun ev acc => supply_change ev + acc) 0 es
  /\ ((forall ev, In ev es ->
         counts_as_holder (arg_from (args ev)) = true
         /\ counts_as_holder (arg_to (args ev)) = true) ->
      total (count_balances es) = 0).
Proof.
  assert (E : total (count_balances es)
              = fold_right (fun ev acc => supply_change ev + acc) 0 es).
  { unfold count_balances.
    destruct (fold_apply_event_invariants es []) as [_ H]; [constructor|].
    rewrite H. simpl. lia. }
  split; [exact E|]. intros Hall. rewrite E. clear E.
  induction es as [|ev es IH]; simpl; auto.
  rewrite IH by (intros ev' Hin; apply Hall; now right).
  unfold supply_change. destruct (Hall ev (or_introl eq_refl)) as [-> ->]. lia.
Qed.

Example supply_of_mint_and_transfer :
  total (count_balances [mint ALICE 100; transfer ALICE BOB 40]) = 100.
Proof.
  reflexivity.
Qed.

Lemma count_balances_conserves_supply_witness :
  total (count_balances [transfer ALICE BOB 40; transfer BOB ALICE 15]) = 0.
Proof.
  destruct (count_balances_conserves_supply
              [transfer ALICE BOB 40; transfer BOB ALICE 15]) as [_ H].
  apply H. intros ev [<-|[<-|[]]]; split; reflexivity.
Defined.

(** ** More on the ranking *)

Lemma non_zero_accounts (decimals : N) (its : list (string * Z)) :
  forall l0, non_zero decimals its = Return l0 ->
    map fst l0 = map fst (filter is_positive its)
    /\ forall a bal, In (a, bal) its -> 0 < bal ->
         exists x, _to_decimal decimals bal = Return x /\ In (a, x) l0.
Proof.
  unfold is_positive.
  induction its as [|[a0 bal0] its IH]; intros l0 E; simpl in *.
  - inversion E. split; [reflexivity|contradiction].
  - destruct (Z.ltb_spec 0 bal0).
    + destruct (_to_decimal decimals bal0) as [x0|] eqn:Ex; [|discriminate].
      destruct (non_zero decimals its) as [l|]; [|discriminate].
      inversion E; subst. destruct (IH l eq_refl) as [H1 H2].
      split; [simpl; now rewrite H1|].
      intros a bal [Hin|Hin] Hpos.
      * inversion Hin; subst. exists x0. split; [exact Ex|now left].
      * destruct (H2 a bal Hin Hpos) as (x & Hx & Hl). exists x. split; [exact Hx|now right].
    + destruct (IH l0 E) as [H1 H2]. split; [exact H1|].
      intros a bal [Hin|Hin] Hpos; [inversion Hin; subst; lia|].
      now apply H2.
Qed.

Lemma non_zero_raises (decimals : N) (its : list (string * Z)) (e : exn) :
  non_zero decimals its = Raise e ->
  exists a bal, In (a, bal) its /\ 0 < bal /\ _to_decimal decimals bal = Raise e.
Proof.
  induction its as [|[a0 bal0] its IH]; intros E; simpl in *; [discriminate|].
  destruct (Z.ltb_spec 0 bal0).
  - destruct (_to_decimal decimals bal0) as [x0|e0] eqn:Ex.
    + destruct (non_zero decimals its) as [l|e1]; [discriminate|].
      inversion E; subst. destruct (IH eq_refl) as (a & bal & Hin & Hp & Hr).
      exists a, bal. split; [now right|auto].
    + inversion E; subst. exists a0, bal0. split; [now left|auto].
  - destruct (IH E) as (a & bal & Hin & Hp & Hr).
    exists a, bal. split; [now right|auto].
Qed.

Lemma NoDup_map_fst_filter {A B} (f : A * B -> bool) (l : list (A * B)) :
  NoDup (map fst l) -> NoDup (map fst (filter f l)).
Proof.
  induction l as [|p l IH]; simpl; intros Hd; [constructor|].
  inversion Hd as [|x xs Hnin Hd']; subst.
  destruct (f p); simpl; auto.
  constructor; auto. intros Hin. apply Hnin.
  apply in_map_iff in Hin as (q & Hq & Hin). apply filter_In in Hin as [Hin _].
  apply in_map_iff. exists q. auto.
Qed.

Lemma NoDup_firstn {A} (n : nat) (l : list A) : NoDup l -> NoDup (firstn n l).
Proof.
  intros Hd. rewrite <- (firstn_skipn n l) in Hd.
  now apply NoDup_app_remove_r in Hd.
Qed.

Lemma sorted_app_not_below (l1 l2 : list (string * PyFloat.float)) :
  StronglySorted not_below (l1 ++ l2) ->
  forall p q, In p l1 -> In q l2 -> not_below p q.
Proof.
  induction l1 as [|x l1 IH]; simpl; intros Hs p q Hp Hq; [contradiction|].
  inversion Hs as [|y ys Hs' Hall]; subst.
  destruct Hp as [->|Hp].
  - rewrite Forall_forall in Hall. apply Hall. apply in_or_app. now right.
  - now apply IH.
Qed.

(** X3.  A ranking of [n > 0] entries lists the holders with the greatest
    display balances: an account with a balance above zero is either listed
    or not above any listed entry; every such account is listed when there
    are at most [n] of them, and the ranking is full when there are at
    least [n]; on a ledger with each account once, no account is listed
    twice. *)
Theorem rank_lists_the_top (decimals : N) (balances : PyDict.dict) (n : Z)
  (l : list (string * PyFloat.float)) :
  0 < n ->
  rank decimals balances n = Return l ->
  (forall a bal x,
     In (a, bal) balances -> 0 < bal -> _to_decimal decimals bal = Return x ->
     In (a, x) l \/ forall p, In p l -> PyFloat.leb x (snd p) = true)
  /\ ((List.length (filter is_positive balances) <= Z.to_nat n)%nat ->
      forall a bal, In (a, bal) balances -> 0 < bal -> exists x, In (a, x) l)
  /\ ((Z.to_nat n <= List.length (filter is_positive balances))%nat ->
      List.length l = Z.to_nat n)
  /\ (NoDup (PyDict.keys balances) -> NoDup (map fst l)).
Proof.
  intros Hn Hrank. unfold rank, PyDict.items in Hrank.
  destruct (non_zero decimals balances) as [l0|] eqn:E; [|discriminate].
  inversion Hrank as [Hl]. clear Hrank.
  destruct (non_zero_accounts decimals balances l0 E) as [Hkeys Hin0].
  assert (Hlen0 : List.length l0 = List.length (filter is_positive balances)).
  { apply (f_equal (@List.length _)) in Hkeys. now rewrite !length_map in Hkeys. }
  assert (Hlens : List.length (sorted_desc l0) = List.length l0).
  { symmetry. apply Permutation_length, sorted_desc_perm. }
  pose proof (sorted_desc_sorted l0) as Hs.
  rewrite <- (firstn_skipn (Z.to_nat n) (sorted_desc l0)) in Hs.
  split; [|split; [|split]].
  - intros a bal x Hin Hpos Hx.
    destruct (Hin0 a bal Hin Hpos) as (x' & Hx' & Hl0).
    assert (x' = x) by congruence. subst x'.
    apply (Permutation_in _ (sorted_desc_perm l0)) in Hl0.
    rewrite <- (firstn_skipn (Z.to_nat n) (sorted_desc l0)) in Hl0.
    apply in_app_or in Hl0 as [Hl0|Hl0]; [now left|right].
    intros p Hp. apply (sorted_app_not_below _ _ Hs p (a, x) Hp Hl0).
  - intros Hfew a bal Hin Hpos.
    destruct (Hin0 a bal Hin Hpos) as (x & _ & Hl0). exists x.
    rewrite firstn_all2 by lia.
    now apply (Permutation_in _ (sorted_desc_perm l0)).
  - intros Hmany. rewrite length_firstn. lia.
  - intros Hd. rewrite <- firstn_map. apply NoDup_firstn.
    apply (Permutation_NoDup (Permutation_map fst (sorted_desc_perm l0))).
    rewrite Hkeys. now apply NoDup_map_fst_filter.
Qed.

Lemma rank_lists_the_top_witness :
  (forall p, In p [(ALICE, PyFloat.of_Z 60)] ->
     PyFloat.leb (PyFloat.of_Z 40) (snd p) = true)
  /\ NoDup (map fst [(ALICE, PyFloat.of_Z 60)]).
Proof.
  destruct (rank_lists_the_top 0
              (count_balances [mint ALICE 100; transfer ALICE BOB 40]) 1
              [(ALICE, PyFloat.of_Z 60)])
    as (Htop & _ & _ & Hnodup).
  - lia.
  - vm_compute. reflexivity.
  - split.
    + destruct (Htop BOB 40 (PyFloat.of_Z 40)) as [Hin|H].
      * right. left. reflexivity.
      * lia.
      * vm_compute. reflexivity.
      * destruct Hin as [Hin|[]]. vm_compute in Hin. discriminate.
      * exact H.
    + apply Hnodup. vm_compute. repeat constructor; simpl; intuition discriminate.
Defined.

(** X4.  The ranking returns exactly when every balance above zero
    converts to display units; one balance too large for a float makes the
    whole ranking raise that conversion's exception. *)
Theorem rank_returns_iff_balances_convert (decimals : N) (balances : PyDict.dict) (n : Z) :
  ((exists l, rank decimals balances n = Return l) <->
   (forall a bal, In (a, bal) balances -> 0 < bal ->
      exists x, _to_decimal decimals bal = Return x))
  /\ (forall e, rank decimals balances n = Raise e ->
        exists a bal, In (a, bal) balances /\ 0 < bal
                      /\ _to_decimal decimals bal = Raise e).
Proof.
  unfold rank, PyDict.items. split; [split|].
  - intros (l & Hl) a bal Hin Hpos.
    destruct (non_zero decimals balances) as [l0|] eqn:E; [|discriminate].
    destruct (non_zero_accounts decimals balances l0 E) as [_ H].
    destruct (H a bal Hin Hpos) as (x & Hx & _). eauto.
  - intros Hall.
    destruct (non_zero decimals balances) as [l0|e] eqn:E; [eauto|].
    destruct (non_zero_raises decimals balances e E) as (a & bal & Hin & Hpos & Hr).
    destruct (Hall a bal Hin Hpos) as (x & Hx). congruence.
  - intros e He.
    destruct (non_zero decimals balances) as [l0|e0] eqn:E; [discriminate|].
    inversion He; subst. now apply non_zero_raises.
Qed.

Example rank_overflow :
  rank 0 [(ALICE, 5); (BOB, 2 ^ 1024)] 2
  = Raise (Exception "integer division result too large for a float").
Proof.
  vm_compute. reflexivity.
Qed.

(** ** More on display units *)

Lemma round_half_even_exact (m d : Z) :
  0 < d -> PyFloat.round_half_even (m * d) d = m.
Proof.
  intros Hd. unfold PyFloat.round_half_even.
  rewrite Z.div_mul, Z.mod_mul by lia.
  destruct (Z.ltb_spec (2 * 0) d); [reflexivity|lia].
Qed.

Lemma round_half_even_mono (n1 n2 d : Z) :
  0 < d -> n1 <= n2 ->
  PyFloat.round_half_even n1 d <= PyFloat.round_half_even n2 d.
Proof.
  intros Hd Hn.
  assert (Hq : n1 / d <= n2 / d) by (apply Z.div_le_mono; lia).
  pose proof (round_half_even_bounds n1 d) as [L1 U1].
  pose proof (round_half_even_bounds n2 d) as [L2 U2].
  destruct (Z.eq_dec (n1 / d) (n2 / d)) as [E|E]; [|lia].
  assert (Hr : n1 mod d <= n2 mod d).
  { rewrite !Z.mod_eq by lia. rewrite E. lia. }
  unfold PyFloat.round_half_even. rewrite E.
  destruct (Z.ltb_spec (2 * (n1 mod d)) d), (Z.ltb_spec (2 * (n2 mod d)) d),
    (Z.ltb_spec d (2 * (n1 mod d))), (Z.ltb_spec d (2 * (n2 mod d)));
    destruct (Z.even (n2 / d)); lia.
Qed.

Lemma dropped_bits_mono (q1 q2 : Z) :
  0 <= q1 <= q2 -> PyFloat.dropped_bits q1 <= PyFloat.dropped_bits q2.
Proof.
  intros H. unfold PyFloat.dropped_bits.
  pose proof (Z.log2_le_mono q1 q2 ltac:(lia)). lia.
Qed.

Lemma true_divide_pos_zero (b : Z) :
  0 < b -> PyFloat.true_divide_pos 0 b = Return (PyFloat.Float 0).
Proof.
  intros Hb. unfold PyFloat.true_divide_pos.
  rewrite Z.mul_0_l, Z.div_0_l by lia.
  change (PyFloat.dropped_bits 0) with 0.
  assert (E : PyFloat.round_half_even 0 (b * 2 ^ 0) = 0).
  { apply (round_half_even_exact 0 (b * 2 ^ 0)). rewrite Z.pow_0_r. lia. }
  rewrite E. reflexivity.
Qed.

Lemma true_divide_pos_mono (a1 a2 b : Z) (x1 x2 : PyFloat.float) :
  0 <= a1 <= a2 -> 0 < b ->
  PyFloat.true_divide_pos a1 b = Return x1 ->
  PyFloat.true_divide_pos a2 b = Return x2 ->
  PyFloat.scaled x1 <= PyFloat.scaled x2.
Proof.
  intros Ha Hb. unfold PyFloat.true_divide_pos.
  assert (H2 : 0 < 2 ^ 1074) by (apply Z.pow_pos_nonneg; lia).
  set (n1 := a1 * 2 ^ 1074). set (n2 := a2 * 2 ^ 1074).
  assert (Hn : 0 <= n1 <= n2) by (unfold n1, n2; nia).
  assert (Hq1 : 0 <= n1 / b) by (apply Z.div_pos; lia).
  assert (Hq : n1 / b <= n2 / b) by (apply Z.div_le_mono; lia).
  set (k1 := PyFloat.dropped_bits (n1 / b)).
  set (k2 := PyFloat.dropped_bits (n2 / b)).
  assert (Hk : k1 <= k2) by (apply dropped_bits_mono; lia).
  assert (Hk1 : 0 <= k1) by (unfold k1, PyFloat.dropped_bits; lia).
  assert (P1 : 0 < 2 ^ k1) by (apply Z.pow_pos_nonneg; lia).
  assert (P2 : 0 < 2 ^ k2) by (apply Z.pow_pos_nonneg; lia).
  destruct (2 ^ 2098 <=? _); [discriminate|].
  destruct (2 ^ 2098 <=? _); [discriminate|].
  intros E1 E2. inversion E1. inversion E2. simpl. clear E1 E2.
  destruct (Z.eq_dec k1 k2) as [E|E].
  - rewrite E.
    pose proof (round_half_even_mono n1 n2 (b * 2 ^ k2) ltac:(nia) ltac:(lia)). nia.
  - assert (Hlt : k1 + 1 <= k2) by lia.
    (* the smaller quotient rounds to at most 2^53 units of 2^k1 *)
    pose proof (round_half_even_bounds n1 (b * 2 ^ k1)) as [_ U1].
    rewrite <- Z.div_div in U1 by lia.
    pose proof (significand_fits (n1 / b) Hq1) as S1. fold k1 in S1.
    (* the greater one to at least 2^52 units of 2^k2 *)
    pose proof (round_half_even_bounds n2 (b * 2 ^ k2)) as [L2 _].
    rewrite <- Z.div_div in L2 by lia.
    assert (Hq2 : 0 < n2 / b).
    { destruct (Z.eq_dec (n2 / b) 0) as [Z0|Z0]; [|lia].
      unfold k2 in Hlt. rewrite Z0 in Hlt. unfold PyFloat.dropped_bits in Hlt.
      simpl in Hlt. lia. }
    assert (Hk2 : k2 = Z.log2 (n2 / b) - 52) by (unfold k2, PyFloat.dropped_bits in *; lia).
    assert (B2 : 2 ^ 52 <= n2 / b / 2 ^ k2).
    { apply Z.div_le_lower_bound; [lia|].
      rewrite <- Z.pow_add_r by lia.
      replace (k2 + 52) with (Z.log2 (n2 / b)) by lia.
      apply Z.log2_spec. lia. }
    apply Z.le_trans with (2 ^ 53 * 2 ^ k1); [nia|].
    apply Z.le_trans with (2 ^ 52 * 2 ^ k2); [|nia].
    rewrite <- !Z.pow_add_r by lia. apply Z.pow_le_mono_r; lia.
Qed.

Lemma to_decimal_nonneg (decimals : N) (v : Z) :
  0 <= v ->
  _to_decimal decimals v = PyFloat.true_divide_pos v (10 ^ Z.of_N decimals).
Proof.
  intros Hv. unfold _to_decimal, PyFloat.true_divide.
  assert (Hp : 0 < 10 ^ Z.of_N decimals) by (apply Z.pow_pos_nonneg; lia).
  destruct (Z.eqb_spec (10 ^ Z.of_N decimals) 0); [lia|].
  rewrite (Z.abs_eq v), (Z.abs_eq (10 ^ Z.of_N decimals)) by lia.
  destruct (Z.eq_dec v 0) as [->|Hne].
  - rewrite true_divide_pos_zero by lia. reflexivity.
  - destruct (PyFloat.true_divide_pos v (10 ^ Z.of_N decimals)) as [[u]|e]; auto.
    rewrite (Z.sgn_pos v), (Z.sgn_pos (10 ^ Z.of_N decimals)) by lia.
    cbn [PyFloat.scaled]. rewrite !Z.mul_1_l. reflexivity.
Qed.

Lemma to_decimal_returns_nonneg (decimals : N) (v : Z) :
  0 <= v < 2 ^ 1023 -> exists x, _to_decimal decimals v = Return x.
Proof.
  intros [H0 H1]. destruct (Z.eq_dec v 0) as [->|Hne].
  - rewrite to_decimal_nonneg by lia.
    rewrite true_divide_pos_zero by (apply Z.pow_pos_nonneg; lia). eauto.
  - destruct (to_decimal_returns decimals v) as (x & E & _); [lia|eauto].
Qed.

(** X5.  Display units keep the order of raw amounts: of two amounts that
    convert, the smaller one never gets the greater display value; so an
    entry ranked strictly above another has the strictly greater ledger
    balance. *)
Theorem to_decimal_monotone (decimals : N) (v1 v2 : Z) (x1 x2 : PyFloat.float) :
  0 <= v1 ->
  0 <= v2 ->
  _to_decimal decimals v1 = Return x1 ->
  _to_decimal decimals v2 = Return x2 ->
  (v1 <= v2 -> PyFloat.leb x1 x2 = true)
  /\ (PyFloat.ltb x1 x2 = true -> v1 < v2).
Proof.
  intros H1 H2 E1 E2.
  rewrite to_decimal_nonneg in E1, E2 by lia.
  assert (Hp : 0 < 10 ^ Z.of_N decimals) by (apply Z.pow_pos_nonneg; lia).
  split.
  - intros Hle. unfold PyFloat.leb. apply Z.leb_le.
    apply (true_divide_pos_mono v1 v2 (10 ^ Z.of_N decimals)); auto; lia.
  - unfold PyFloat.ltb. intros Hlt. apply Z.ltb_lt in Hlt.
    destruct (Z.lt_ge_cases v1 v2) as [|Hge]; auto.
    pose proof (true_divide_pos_mono v2 v1 (10 ^ Z.of_N decimals) x2 x1
                  ltac:(lia) Hp E2 E1). lia.
Qed.

Lemma to_decimal_monotone_witness :
  PyFloat.leb (PyFloat.of_Z 5) (PyFloat.of_Z 7) = true.
Proof.
  destruct (to_decimal_monotone 18 5000000000000000000 7000000000000000000
              (PyFloat.of_Z 5) (PyFloat.of_Z 7)) as [H _].
  - lia.
  - lia.
  - vm_compute. reflexivity.
  - vm_compute. reflexivity.
  - apply H. lia.
Defined.

(** X6.  A whole number of tokens converts exactly: [k] times
    [10 ** decimals] raw units, for [0 <= k < 2^53], gives the float [k]. *)
Theorem to_decimal_whole_tokens (decimals : N) (k : Z) :
  0 <= k < 2 ^ 53 ->
  _to_decimal decimals (k * 10 ^ Z.of_N decimals) = Return (PyFloat.of_Z k).
Proof.
  intros [Hk0 Hk].
  set (b := 10 ^ Z.of_N decimals).
  assert (Hb : 0 < b) by (apply Z.pow_pos_nonneg; lia).
  rewrite to_decimal_nonneg by nia. fold b.
  destruct (Z.eq_dec k 0) as [->|Hne].
  - rewrite Z.mul_0_l. now rewrite true_divide_pos_zero.
  - unfold PyFloat.true_divide_pos, PyFloat.of_Z.
    assert (H2 : 0 < 2 ^ 1074) by (apply Z.pow_pos_nonneg; lia).
    replace (k * b * 2 ^ 1074) with (k * 2 ^ 1074 * b) by lia.
    rewrite Z.div_mul by lia.
    assert (HL : Z.log2 (k * 2 ^ 1074) = 1074 + Z.log2 k)
      by (apply Z.log2_mul_pow2; lia).
    assert (HLk : 0 <= Z.log2 k < 53).
    { split; [apply Z.log2_nonneg|]. apply Z.log2_lt_pow2; lia. }
    set (kb := PyFloat.dropped_bits (k * 2 ^ 1074)).
    assert (Hkb : 0 <= kb <= 1074) by (unfold kb, PyFloat.dropped_bits; lia).
    assert (P : 0 < 2 ^ kb) by (apply Z.pow_pos_nonneg; lia).
    replace (k * 2 ^ 1074 * b) with (k * 2 ^ (1074 - kb) * (b * 2 ^ kb)).
    + rewrite round_half_even_exact by nia.
      replace (k * 2 ^ (1074 - kb) * 2 ^ kb) with (k * 2 ^ 1074).
      * assert (k * 2 ^ 1074 < 2 ^ 2098).
        { apply Z.lt_trans with (2 ^ 53 * 2 ^ 1074); [nia|].
          rewrite <- Z.pow_add_r by lia. apply Z.pow_lt_mono_r; lia. }
        destruct (Z.leb_spec (2 ^ 2098) (k * 2 ^ 1074)); [lia|reflexivity].
      * rewrite <- Z.mul_assoc, <- Z.pow_add_r by lia. do 2 f_equal. lia.
    + replace (2 ^ 1074) with (2 ^ (1074 - kb) * 2 ^ kb); [lia|].
      rewrite <- Z.pow_add_r by lia. f_equal. lia.
Qed.

Lemma to_decimal_whole_tokens_witness :
  _to_decimal 18 (7 * 10 ^ Z.of_N 18) = Return (PyFloat.of_Z 7).
Proof.
  apply (to_decimal_whole_tokens 18 7). split; [lia|reflexivity].
Defined.

(** ** More on the scan *)

Lemma parse_logs_appends_decoded (logs : list log) :
  forall (events : list event) (t : list effect),
    parse_logs logs events t
    = Some (Return (events ++ decoded logs), t ++ map Print (decode_errors logs)).
Proof.
  induction logs as [|l logs IH]; intros events t; simpl.
  - unfold ret. now rewrite !app_nil_r.
  - destruct (get_event_data l) as [ev|e]; simpl.
    + rewrite IH, <- app_assoc. reflexivity.
    + unfold bind, print, emit. rewrite IH, <- app_assoc. reflexivity.
Qed.

(** X7.  The decoding loop never raises: it appends the events of the
    entries that decode, in order, and prints one line for each entry that
    does not; every entry is either decoded or reported. *)
Theorem parse_logs_skips_undecodable (logs : list log) (events : list event)
  (t : list effect) :
  parse_logs logs events t
  = Some (Return (events ++ decoded logs), t ++ map Print (decode_errors logs))
  /\ (List.length (decoded logs) + List.length (decode_errors logs)
      = List.length logs)%nat
  /\ (forall ev, In ev (decoded logs) <->
        exists l, In l logs /\ get_event_data l = Return ev).
Proof.
  split; [apply parse_logs_appends_decoded|]. split.
  - induction logs as [|l logs IH]; simpl; auto.
    rewrite !length_app, <- IH. destruct (get_event_data l); simpl; lia.
  - intros ev. unfold decoded. rewrite in_flat_map. split.
    + intros (l & Hl & Hin). exists l. split; [exact Hl|].
      destruct (get_event_data l); [|contradiction].
      destruct Hin as [->|[]]. reflexivity.
    + intros (l & Hl & E). exists l. split; [exact Hl|]. rewrite E. now left.
Qed.

Lemma slept_app (t1 t2 : list effect) : slept (t1 ++ t2) = slept t1 ++ slept t2.
Proof.
  induction t1 as [|e t1 IH]; simpl; auto.
  destruct e; simpl; now rewrite IH.
Qed.

Lemma slept_prints (notes : list notice) : slept (map Print notes) = [].
Proof.
  induction notes; simpl; auto.
Qed.

Section RetryPolicy.

Variable w3 : web3.
Variables max_retries chunk_size : Z.

(** One iteration of the inner loop on a query that returns. *)
Lemma retry_loop_return_step (fuel : nat) (from_block to_block retries : Z)
  (events : list event) (t : list effect) (logs : list log) :
  retries < max_retries ->
  eth_get_logs w3 (calls_made t) (range_filter from_block to_block) = Return logs ->
  retry_loop w3 max_retries (S fuel) from_block to_block retries events t
  = Some (Return (to_block + 1, events ++ decoded logs),
          t ++ [Call (Eth_get_logs (range_filter from_block to_block))]
            ++ map Print (decode_errors logs)
            ++ [Print (Processed_blocks from_block to_block
                         (Z.of_nat (List.length (events ++ decoded logs))))]).
Proof.
  intros Hlt Hlogs. cbn [retry_loop].
  destruct (Z.ltb_spec retries max_retries); [|lia].
  unfold try_except, bind at 1, await_get_logs. rewrite Hlogs.
  unfold bind at 1.
  rewrite parse_logs_appends_decoded.
  unfold bind, print, emit, ret. now rewrite <- !app_assoc.
Qed.

Lemma backoff_S (retries : Z) (k : nat) :
  backoff retries (S k) = 2 ^ (retries + 1) :: backoff (retries + 1) k.
Proof.
  unfold backoff. simpl. f_equal.
  rewrite <- seq_shift, map_map. apply map_ext. intros i. f_equal. lia.
Qed.

Lemma retry_loop_timeouts_then_return (k : nat) :
  forall (fuel : nat) (from_block to_block retries : Z) (events : list event)
         (t : list effect) (logs : list log),
    retries + Z.of_nat k < max_retries ->
    (forall i, (i < k)%nat ->
       eth_get_logs w3 (calls_made t + i) (range_filter from_block to_block)
       = Raise TimeoutError) ->
    eth_get_logs w3 (calls_made t + k) (range_filter from_block to_block)
    = Return logs ->
    (k < fuel)%nat ->
    exists t',
      retry_loop w3 max_retries fuel from_block to_block retries events t
      = Some (Return (to_block + 1, events ++ decoded logs), t')
      /\ queried_ranges t' = queried_ranges t ++ repeat (from_block, to_block) (S k)
      /\ slept t' = slept t ++ backoff retries k.
Proof.
  induction k as [|k IH];
    intros fuel from_block to_block retries events t logs Hlt Hto Hret Hfuel;
    (destruct fuel as [|fuel]; [lia|]).
  - rewrite Nat.add_0_r in Hret.
    rewrite (retry_loop_return_step fuel _ _ _ events t logs) by (auto; lia).
    eexists. split; [reflexivity|].
    rewrite !queried_ranges_app, !slept_app, queried_ranges_prints, slept_prints.
    simpl. now rewrite !app_nil_r.
  - pose proof (Hto 0%nat ltac:(lia)) as H0. rewrite Nat.add_0_r in H0.
    rewrite (retry_loop_raise_step w3 max_retries fuel _ _ _ events t TimeoutError)
      by (auto; lia).
    destruct (IH fuel from_block to_block (retries + 1) events
                (t ++ [Call (Eth_get_logs (range_filter from_block to_block));
                       Print (Timeout_retry (retries + 1) max_retries from_block to_block);
                       Sleep (2 ^ (retries + 1))]) logs)
      as (t' & E & Q & S).
    + lia.
    + intros i Hi. rewrite calls_made_app.
      replace (calls_made t + calls_made _ + i)%nat with (calls_made t + S i)%nat
        by (unfold calls_made; simpl; lia).
      apply Hto. lia.
    + rewrite calls_made_app.
      replace (calls_made t + calls_made _ + k)%nat with (calls_made t + S k)%nat
        by (unfold calls_made; simpl; lia).
      exact Hret.
    + lia.
    + exists t'. split; [exact E|]. split.
      * rewrite Q, queried_ranges_app. simpl. now rewrite <- app_assoc.
      * rewrite S, slept_app, backoff_S. simpl. now rewrite <- app_assoc.
Qed.

Lemma retry_loop_exhausted (k : nat) :
  forall (fuel : nat) (from_block to_block retries : Z) (events : list event)
         (t : list effect),
    retries + Z.of_nat k = max_retries ->
    (forall i, (i < k)%nat ->
       eth_get_logs w3 (calls_made t + i) (range_filter from_block to_block)
       = Raise TimeoutError) ->
    (k < fuel)%nat ->
    exists t',
      retry_loop w3 max_retries fuel from_block to_block retries events t
      = Some (Return (from_block, events), t')
      /\ queried_ranges t' = queried_ranges t ++ repeat (from_block, to_block) k
      /\ slept t' = slept t ++ backoff retries k.
Proof.
  induction k as [|k IH]; intros fuel from_block to_block retries events t Hlt Hto Hfuel;
    (destruct fuel as [|fuel]; [lia|]).
  - cbn [retry_loop]. destruct (Z.ltb_spec retries max_retries); [lia|].
    exists t. unfold ret. simpl. now rewrite !app_nil_r.
  - pose proof (Hto 0%nat ltac:(lia)) as H0. rewrite Nat.add_0_r in H0.
    rewrite (retry_loop_raise_step w3 max_retries fuel _ _ _ events t TimeoutError)
      by (auto; lia).
    destruct (IH fuel from_block to_block (retries + 1) events
                (t ++ [Call (Eth_get_logs (range_filter from_block to_block));
                       Print (Timeout_retry (retries + 1) max_retries from_block to_block);
                       Sleep (2 ^ (retries + 1))]))
      as (t' & E & Q & S).
    + lia.
    + intros i Hi. rewrite calls_made_app.
      replace (calls_made t + calls_made _ + i)%nat with (calls_made t + S i)%nat
        by (unfold calls_made; simpl; lia).
      apply Hto. lia.
    + lia.
    + exists t'. split; [exact E|]. split.
      * rewrite Q, queried_ranges_app. simpl. now rewrite <- app_assoc.
      * rewrite S, slept_app, backoff_S. simpl. now rewrite <- app_assoc.
Qed.

End RetryPolicy.

(** X8.  One pass of the retry loop over a chunk.  After [k] timeouts,
    [k] below [max_retries], a reply that returns moves the window past the
    chunk with the reply's events appended once: the chunk was asked for
    [k + 1] times, with sleeps of 2, 4, ..., 2^k seconds.  After
    [max_retries] timeouts the pass ends with the window and the events
    where they were, having asked [max_retries] times. *)
Theorem retry_pass_backs_off (w3 : web3) (max_retries : Z) (k fuel : nat)
  (from_block to_block : Z) (events : list event) (t : list effect) :
  (forall i, (i < k)%nat ->
     eth_get_logs w3 (calls_made t + i) (range_filter from_block to_block)
     = Raise TimeoutError) ->
  (k < fuel)%nat ->
  (forall logs,
     Z.of_nat k < max_retries ->
     eth_get_logs w3 (calls_made t + k) (range_filter from_block to_block)
     = Return logs ->
     exists t',
       retry_loop w3 max_retries fuel from_block to_block 0 events t
       = Some (Return (to_block + 1, events ++ decoded logs), t')
       /\ queried_ranges t' = queried_ranges t ++ repeat (from_block, to_block) (S k)
       /\ slept t' = slept t ++ map (fun i => 2 ^ Z.of_nat i) (seq 1 k))
  /\ (Z.of_nat k = max_retries ->
      exists t',
        retry_loop w3 max_retries fuel from_block to_block 0 events t
        = Some (Return (from_block, events), t')
        /\ queried_ranges t' = queried_ranges t ++ repeat (from_block, to_block) k
        /\ slept t' = slept t ++ map (fun i => 2 ^ Z.of_nat i) (seq 1 k)).
Proof.
  intros Hto Hfuel. split.
  - intros logs Hk Hret.
    apply (retry_loop_timeouts_then_return w3 max_retries k); auto.
  - intros Hk.
    apply (retry_loop_exhausted w3 max_retries k); auto.
Qed.

Lemma retry_pass_backs_off_witness :
  exists t',
    retry_loop node_timing_out 5 10 0 0 0 [] [Call Eth_block_number]
    = Some (Return (1, [] ++ decoded []), t')
    /\ queried_ranges t' = queried_ranges [Call Eth_block_number] ++ repeat (0, 0) 5
    /\ slept t' = slept [Call Eth_block_number] ++ [2; 4; 8; 16].
Proof.
  destruct (retry_pass_backs_off node_timing_out 5 4 10 0 0 [] [Call Eth_block_number])
    as [H _].
  - intros i Hi. unfold calls_made. simpl.
    destruct i as [|[|[|[|i]]]]; try reflexivity. lia.
  - lia.
  - apply (H []); [lia|reflexivity].
Defined.

Section ScanOutcomes.

Variable w3 : web3.
Variables max_retries chunk_size : Z.

(** A pass of the inner loop never raises: it runs out of fuel, or leaves
    the window and the events where they were, or moves the window past the
    chunk. *)
Lemma retry_loop_outcome (fuel : nat) :
  forall (from_block to_block retries : Z) (events : list event) (t : list effect),
    retry_loop w3 max_retries fuel from_block to_block retries events t = None
    \/ exists from_block' events' t',
         retry_loop w3 max_retries fuel from_block to_block retries events t
         = Some (Return (from_block', events'), t')
         /\ ((from_block' = from_block /\ events' = events)
             \/ (from_block' = to_block + 1 /\ retries < max_retries)).
Proof.
  induction fuel as [|fuel IH]; intros from_block to_block retries events t;
    [now left|].
  destruct (Z.lt_ge_cases retries max_retries) as [Hlt|Hge].
  - destruct (eth_get_logs w3 (calls_made t) (range_filter from_block to_block))
      as [logs|e] eqn:E.
    + right. rewrite (retry_loop_return_step w3 max_retries fuel _ _ _ events t logs Hlt E).
      do 3 eexists. split; [reflexivity|]. right. auto.
    + rewrite (retry_loop_raise_step w3 max_retries fuel _ _ _ events t e Hlt E).
      destruct e as [|msg].
      * destruct (IH from_block to_block (retries + 1) events
                    (t ++ [Call (Eth_get_logs (range_filter from_block to_block));
                           Print (Timeout_retry (retries + 1) max_retries
                                    from_block to_block);
                           Sleep (2 ^ (retries + 1))]))
          as [->|(f' & ev' & t' & -> & H)]; [now left|].
        right. exists f', ev', t'. split; [reflexivity|].
        destruct H as [H|[H1 H2]]; [now left|right]. split; [exact H1|lia].
      * right. do 3 eexists. split; [reflexivity|]. left. auto.
  - right. cbn [retry_loop]. destruct (Z.ltb_spec retries max_retries); [lia|].
    exists from_block, events, t. split; [reflexivity|]. left. auto.
Qed.

Lemma scan_loop_never_raises (H : Z) (fuel : nat) :
  forall (from_block : Z) (events : list event) (t : list effect),
    scan_loop w3 max_retries chunk_size fuel H from_block events t = None
    \/ exists events' t',
         scan_loop w3 max_retries chunk_size fuel H from_block events t
         = Some (Return events', t').
Proof.
  induction fuel as [|fuel IH]; intros from_block events t; [now left|].
  cbn [scan_loop]. destruct (from_block <=? H).
  - unfold bind.
    destruct (retry_loop_outcome fuel from_block
                (Z.min (from_block + chunk_size - 1) H) 0 events t)
      as [->|(f' & ev' & t' & -> & _)]; [now left|].
    cbn [fst snd]. apply IH.
  - right. unfold ret. eauto.
Qed.

Lemma scan_loop_stuck_on_degenerate_parameters (H : Z) (fuel : nat) :
  chunk_size <= 0 \/ max_retries <= 0 ->
  forall (from_block : Z) (events : list event) (t : list effect),
    from_block <= H ->
    scan_loop w3 max_retries chunk_size fuel H from_block events t = None.
Proof.
  intros Hdeg. induction fuel as [|fuel IH]; intros from_block events t Hle;
    [reflexivity|].
  cbn [scan_loop]. destruct (Z.leb_spec from_block H); [|lia].
  unfold bind.
  destruct (retry_loop_outcome fuel from_block
              (Z.min (from_block + chunk_size - 1) H) 0 events t)
    as [->|(f' & ev' & t' & -> & Hf)]; [reflexivity|].
  cbn [fst snd]. apply IH. lia.
Qed.

End ScanOutcomes.

(** X9.  The scan raises exactly when the query for the chain height
    raises, and then with that exception before any range query; whatever
    the range queries raise is absorbed. *)
Theorem scan_raises_only_on_height (w3 : web3) (max_retries chunk_size : Z)
  (fuel : nat) (t : list effect) (e : exn) :
  (eth_block_number w3 (calls_made t) = Raise e ->
   _get_all_transfer_events w3 max_retries chunk_size fuel t
   = Some (Raise e, t ++ [Call Eth_block_number]))
  /\ (forall t',
        _get_all_transfer_events w3 max_retries chunk_size fuel t = Some (Raise e, t') ->
        eth_block_number w3 (calls_made t) = Raise e
        /\ t' = t ++ [Call Eth_block_number]).
Proof.
  unfold _get_all_transfer_events, bind, await_block_number. split.
  - intros ->. reflexivity.
  - intros t'. destruct (eth_block_number w3 (calls_made t)) as [H|e0].
    + destruct (scan_loop_never_raises w3 max_retries chunk_size H fuel 0 []
                  (t ++ [Call Eth_block_number]))
        as [->|(ev & t1 & ->)]; discriminate.
    + intros E. inversion E. auto.
Qed.

Lemma scan_raises_only_on_height_witness :
  _get_all_transfer_events node_without_height 3 1000000 5 []
  = Some (Raise (Exception "connection refused"), [] ++ [Call Eth_block_number]).
Proof.
  destruct (scan_raises_only_on_height node_without_height 3 1000000 5 []
              (Exception "connection refused")) as [H _].
  apply H. reflexivity.
Defined.

(** X10.  With a chunk size or a retry limit that is not positive the
    window never moves forward: on a chain of height [H >= 0] the scan does
    not return, however long it is run. *)
Theorem scan_hangs_on_degenerate_parameters (w3 : web3) (max_retries chunk_size H : Z)
  (t : list effect) :
  eth_block_number w3 (calls_made t) = Return H ->
  0 <= H ->
  chunk_size <= 0 \/ max_retries <= 0 ->
  forall fuel, _get_all_transfer_events w3 max_retries chunk_size fuel t = None.
Proof.
  intros EH HH Hdeg fuel.
  unfold _get_all_transfer_events, bind, await_block_number. rewrite EH.
  now apply scan_loop_stuck_on_degenerate_parameters.
Qed.

Lemma scan_hangs_on_degenerate_parameters_witness :
  _get_all_transfer_events quiet_node 3 0 1000 [] = None.
Proof.
  apply (scan_hangs_on_degenerate_parameters quiet_node 3 0 25 []).
  - reflexivity.
  - lia.
  - left. lia.
Defined.

(** ** The scan against a node that answers by block range *)

Lemma decoded_app (l1 l2 : list log) : decoded (l1 ++ l2) = decoded l1 ++ decoded l2.
Proof.
  apply flat_map_app.
Qed.

Lemma logs_in_split_perm (chain : list log) (lo to hi : Z) :
  lo <= to + 1 -> to <= hi ->
  Permutation (logs_in chain lo to ++ logs_in chain (to + 1) hi) (logs_in chain lo hi).
Proof.
  intros H1 H2. unfold logs_in, in_range.
  induction chain as [|x chain IH]; simpl; auto.
  destruct (Z.leb_spec lo (blockNumber x)), (Z.leb_spec (blockNumber x) to),
    (Z.leb_spec (to + 1) (blockNumber x)), (Z.leb_spec (blockNumber x) hi);
    simpl; try lia; auto.
  rewrite <- Permutation_middle. auto.
Qed.

Lemma logs_in_above (chain : list log) (lo hi : Z) :
  Forall (fun y => hi < blockNumber y) chain -> logs_in chain lo hi = [].
Proof.
  unfold logs_in, in_range. induction 1 as [|x chain Hx _ IH]; simpl; auto.
  destruct (Z.leb_spec (blockNumber x) hi); [lia|]. now rewrite andb_false_r.
Qed.

Lemma in_range_spec (lo hi : Z) (l : log) :
  in_range lo hi l = true <-> lo <= blockNumber l <= hi.
Proof.
  unfold in_range. rewrite andb_true_iff, !Z.leb_le. tauto.
Qed.

Lemma logs_in_split_sorted (chain : list log) (lo to hi : Z) :
  by_block chain -> lo <= to + 1 -> to <= hi ->
  logs_in chain lo to ++ logs_in chain (to + 1) hi = logs_in chain lo hi.
Proof.
  intros Hs H1 H2. induction Hs as [|x chain Hs IH Hx]; auto.
  unfold logs_in in *. cbn [filter].
  destruct (in_range lo to x) eqn:E1, (in_range (to + 1) hi x) eqn:E2,
    (in_range lo hi x) eqn:E3;
    rewrite ?in_range_spec in *;
    repeat match goal with
           | H : in_range _ _ _ = false |- _ =>
               apply not_true_iff_false in H; rewrite in_range_spec in H
           end; try lia.
  - simpl. now rewrite IH.
  - (* the head lies past [to]: so does the rest of the chain *)
    assert (E : filter (in_range lo to) chain = []).
    { apply logs_in_above. eapply Forall_impl; [|exact Hx]. simpl. intros y Hy. lia. }
    rewrite E in *. simpl in *. now rewrite IH.
  - exact IH.
Qed.

Lemma logs_in_empty (chain : list log) (hi : Z) : logs_in chain (hi + 1) hi = [].
Proof.
  unfold logs_in, in_range. induction chain as [|x chain IH]; simpl; auto.
  destruct (Z.leb_spec (hi + 1) (blockNumber x)), (Z.leb_spec (blockNumber x) hi);
    simpl; auto; lia.
Qed.

Lemma tiles_bounds (hi lo : Z) (rs : list (Z * Z)) : tiles hi lo rs -> lo <= hi + 1.
Proof.
  induction 1; lia.
Qed.

Lemma tiles_logs (chain : list log) (hi lo : Z) (rs : list (Z * Z)) :
  tiles hi lo rs ->
  Permutation (flat_map (fun r => logs_in chain (fst r) (snd r)) rs)
              (logs_in chain lo hi)
  /\ (by_block chain ->
      flat_map (fun r => logs_in chain (fst r) (snd r)) rs = logs_in chain lo hi).
Proof.
  induction 1 as [|lo to rest Hlo Ht [IHp IHs]]; simpl.
  - rewrite logs_in_empty. auto.
  - pose proof (tiles_bounds _ _ _ Ht). split.
    + rewrite IHp. apply logs_in_split_perm; lia.
    + intros Hs. rewrite (IHs Hs). apply logs_in_split_sorted; auto; lia.
Qed.

Lemma decoded_flat_map {A} (g : A -> list log) (rs : list A) :
  flat_map (fun r => decoded (g r)) rs = decoded (flat_map g rs).
Proof.
  induction rs as [|r rs IH]; simpl; auto.
  now rewrite decoded_app, IH.
Qed.

Section HonestNode.

Variable w3 : web3.
Variables max_retries chunk_size : Z.
Variable chain : list log.
Hypothesis retries_allowed : 0 < max_retries.
Hypothesis chunk_positive : 0 < chunk_size.
Hypothesis answers_by_range :
  forall k lo hi,
    eth_get_logs w3 k (range_filter lo hi) = Return (logs_in chain lo hi).

Lemma scan_loop_collects (H : Z) (m : nat) :
  forall (from_block : Z) (events : list event) (t : list effect) (fuel : nat),
    0 <= from_block <= H + 1 ->
    Z.of_nat m = (H - from_block + chunk_size) / chunk_size ->
    (m < fuel)%nat ->
    exists t' rs,
      scan_loop w3 max_retries chunk_size fuel H from_block events t
      = Some (Return (events ++ flat_map (fun r => decoded (logs_in chain (fst r) (snd r))) rs),
              t')
      /\ tiles H from_block rs.
Proof.
  induction m as [|m IH]; intros from_block events t fuel Hfrom Hm Hfuel.
  - assert (from_block = H + 1).
    { assert (H - from_block + chunk_size < chunk_size); [|lia].
      destruct (Z.lt_ge_cases (H - from_block + chunk_size) chunk_size); auto.
      assert (1 <= (H - from_block + chunk_size) / chunk_size); [|lia].
      apply Z.div_le_lower_bound; lia. }
    subst from_block.
    destruct fuel as [|fuel]; [lia|]. simpl.
    destruct (Z.leb_spec (H + 1) H); [lia|].
    exists t, []. unfold ret. simpl. rewrite app_nil_r. split; [reflexivity|constructor].
  - assert (Hle : from_block <= H).
    { destruct (Z.le_gt_cases from_block H); auto.
      rewrite Z.div_small in Hm; lia. }
    destruct fuel as [|fuel]; [lia|].
    destruct fuel as [|fuel]; [lia|].
    cbn [scan_loop].
    destruct (Z.leb_spec from_block H); [|lia].
    set (to_block := Z.min (from_block + chunk_size - 1) H).
    unfold bind.
    rewrite (retry_loop_return_step w3 max_retries fuel from_block to_block 0 events t
               (logs_in chain from_block to_block) retries_allowed
               (answers_by_range _ _ _)).
    destruct (IH (to_block + 1)
                (events ++ decoded (logs_in chain from_block to_block))
                (t ++ [Call (Eth_get_logs (range_filter from_block to_block))]
                   ++ map Print (decode_errors (logs_in chain from_block to_block))
                   ++ [Print (Processed_blocks from_block to_block
                                (Z.of_nat (List.length
                                   (events ++ decoded (logs_in chain from_block to_block)))))])
                (S fuel)) as (t' & rs & E & T).
    + unfold to_block. lia.
    + unfold to_block.
      destruct (Z.min_spec (from_block + chunk_size - 1) H) as [[Hc ->]|[Hc ->]].
      * replace (H - (from_block + chunk_size - 1 + 1) + chunk_size)
          with (H - from_block + chunk_size + (-1) * chunk_size) by lia.
        rewrite Z.div_add by lia. lia.
      * rewrite Z.div_small by lia.
        assert ((H - from_block + chunk_size) / chunk_size < 2); [|lia].
        apply Z.div_lt_upper_bound; lia.
    + lia.
    + exists t', ((from_block, to_block) :: rs). split.
      * rewrite <- app_assoc in E. exact E.
      * constructor; [unfold to_block; lia|exact T].
Qed.

End HonestNode.

Lemma scan_of_chain (w3 : web3) (max_retries chunk_size H : Z)
  (chain : list log) (t : list effect) (fuel : nat) :
  0 < max_retries -> 0 < chunk_size -> 0 <= H ->
  eth_block_number w3 (calls_made t) = Return H ->
  (forall k lo hi,
     eth_get_logs w3 k (range_filter lo hi) = Return (logs_in chain lo hi)) ->
  (Z.to_nat (ceil_div (H + 1) chunk_size) < fuel)%nat ->
  exists events t',
    _get_all_transfer_events w3 max_retries chunk_size fuel t
    = Some (Return events, t')
    /\ Permutation events (decoded (logs_in chain 0 H))
    /\ (by_block chain -> events = decoded (logs_in chain 0 H)).
Proof.
  intros Hr Hc HH Hheight Hq Hfuel.
  assert (Hn : 0 <= ceil_div (H + 1) chunk_size).
  { unfold ceil_div. apply Z.div_pos; lia. }
  unfold _get_all_transfer_events, bind at 1, await_block_number.
  rewrite Hheight.
  destruct (scan_loop_collects w3 max_retries chunk_size chain Hr Hc Hq H
              (Z.to_nat (ceil_div (H + 1) chunk_size)) 0 []
              (t ++ [Call Eth_block_number]) fuel)
    as (t' & rs & E & T).
  - lia.
  - rewrite Z2Nat.id by exact Hn. unfold ceil_div. f_equal. lia.
  - exact Hfuel.
  - destruct (tiles_logs chain H 0 rs T) as [Hp Hs].
    rewrite decoded_flat_map in E. simpl in E.
    do 2 eexists. split; [exact E|]. split.
    + unfold decoded. now apply Permutation_flat_map.
    + intros Hb. now rewrite (Hs Hb).
Qed.

(** X11.  Against a node that answers every range query with the chain's
    entries of that range, the scan of blocks [0..H] returns the events of
    every entry of those blocks that decodes, each once; in the order of the
    chain when the chain is in block order.  The ledger of the returned
    events is then the ledger of the chain's events. *)
Theorem scan_returns_each_log_once (w3 : web3) (max_retries chunk_size H : Z)
  (chain : list log) (t : list effect) (fuel : nat) :
  0 < max_retries -> 0 < chunk_size -> 0 <= H ->
  eth_block_number w3 (calls_made t) = Return H ->
  (forall k lo hi,
     eth_get_logs w3 k (range_filter lo hi) = Return (logs_in chain lo hi)) ->
  (Z.to_nat (ceil_div (H + 1) chunk_size) < fuel)%nat ->
  exists events t',
    _get_all_transfer_events w3 max_retries chunk_size fuel t
    = Some (Return events, t')
    /\ Permutation events (decoded (logs_in chain 0 H))
    /\ (by_block chain -> events = decoded (logs_in chain 0 H))
    /\ (forall a, PyDict.get (count_balances events) a
                  = PyDict.get (count_balances (decoded (logs_in chain 0 H))) a).
Proof.
  intros Hr Hc HH Hheight Hq Hfuel.
  destruct (scan_of_chain w3 max_retries chunk_size H chain t fuel
              Hr Hc HH Hheight Hq Hfuel) as (events & t' & E & P & S).
  exists events, t'. repeat split; auto.
  intros a. apply get_count_balances_perm. now apply Permutation_sym.
Qed.

Lemma scan_returns_each_log_once_witness :
  exists events t',
    _get_all_transfer_events sample_node 3 10 4 [] = Some (Return events, t')
    /\ events = decoded (logs_in sample_chain 0 25).
Proof.
  destruct (scan_returns_each_log_once sample_node 3 10 25 sample_chain [] 4)
    as (events & t' & E & _ & Hs & _).
  - lia.
  - lia.
  - lia.
  - reflexivity.
  - intros k lo hi. reflexivity.
  - vm_compute. lia.
  - exists events, t'. split; [exact E|]. apply Hs.
    unfold by_block, sample_chain.
    repeat constructor; simpl; lia.
Defined.

(** ** More on [get_top_holders] and its endpoints *)

Lemma get_top_holders_of_scan (w3 : web3) (decimals : N) (fuel : nat) (n : Z)
  (t : list effect) :
  0 < n ->
  get_top_holders w3 decimals fuel n t
  = match _get_all_transfer_events w3 3 1000000 fuel t with
    | None => None
    | Some (Return [], t') => Some (Return [], t' ++ [Print No_transfer_events])
    | Some (Return (ev :: evs), t') =>
        match rank decimals (count_balances (ev :: evs)) n with
        | Return l => Some (Return l, t')
        | Raise e =>
            Some (Raise HTTPError_TypeError,
                  t' ++ [Print (Error_in_get_top_holders (str e))])
        end
    | Some (Raise e, t') =>
        Some (Raise HTTPError_TypeError,
              t' ++ [Print (Error_in_get_top_holders (str e))])
    end.
Proof.
  intros Hn. unfold get_top_holders.
  destruct (Z.leb_spec n 0); [lia|].
  unfold try_except, bind at 1.
  destruct (_get_all_transfer_events w3 3 1000000 fuel t) as [[[evs|e] t']|]; auto.
  destruct evs as [|ev evs]; [reflexivity|].
  unfold lift. destruct (rank decimals (count_balances (ev :: evs)) n); reflexivity.
Qed.

(** X12.  For [n > 0] no exception raised under the [try] of
    [get_top_holders] leaves it as it is: when the height query raises, and
    when the ranking raises, the exception is printed and the [TypeError] of
    the [except] branch is raised in its place; whatever [get_top_holders]
    raises is that [TypeError], after such a line.  When the scan returns no
    event the ranking is empty. *)
Theorem get_top_holders_handles_exceptions (w3 : web3) (decimals : N)
  (fuel : nat) (n : Z) (t : list effect) :
  0 < n ->
  (forall e, eth_block_number w3 (calls_made t) = Raise e ->
     get_top_holders w3 decimals fuel n t
     = Some (Raise HTTPError_TypeError,
             t ++ [Call Eth_block_number; Print (Error_in_get_top_holders (str e))]))
  /\ (forall ev evs t' e,
        _get_all_transfer_events w3 3 1000000 fuel t = Some (Return (ev :: evs), t') ->
        rank decimals (count_balances (ev :: evs)) n = Raise e ->
        get_top_holders w3 decimals fuel n t
        = Some (Raise HTTPError_TypeError,
                t' ++ [Print (Error_in_get_top_holders (str e))]))
  /\ (forall e t',
        get_top_holders w3 decimals fuel n t = Some (Raise e, t') ->
        e = HTTPError_TypeError
        /\ exists e0 t0, t' = t0 ++ [Print (Error_in_get_top_holders (str e0))])
  /\ (forall t',
        _get_all_transfer_events w3 3 1000000 fuel t = Some (Return [], t') ->
        get_top_holders w3 decimals fuel n t
        = Some (Return [], t' ++ [Print No_transfer_events])).
Proof.
  intros Hn. rewrite get_top_holders_of_scan by exact Hn. split; [|split; [|split]].
  - intros e He. unfold _get_all_transfer_events, bind, await_block_number.
    rewrite He, <- app_assoc. reflexivity.
  - intros ev evs t' e -> ->. reflexivity.
  - intros e t'.
    destruct (_get_all_transfer_events w3 3 1000000 fuel t) as [[[evs|e0] t0]|];
      [|intros E; inversion E; eauto|discriminate].
    destruct evs as [|ev evs]; [discriminate|].
    destruct (rank decimals (count_balances (ev :: evs)) n) as [l|e1];
      [discriminate|].
    intros E; inversion E; eauto.
  - intros t' ->. reflexivity.
Qed.

(** A node whose height query fails, and a node that reports a mint too
    large for a float. *)
Lemma get_top_holders_handles_exceptions_witness :
  get_top_holders node_without_height 18 5 10 []
  = Some (Raise HTTPError_TypeError,
          [Call Eth_block_number;
           Print (Error_in_get_top_holders "connection refused")])
  /\ exists t',
       get_top_holders node_with_huge_mint 0 5 10 []
       = Some (Raise HTTPError_TypeError,
               t' ++ [Print (Error_in_get_top_holders
                               "integer division result too large for a float")]).
Proof.
  split.
  - destruct (get_top_holders_handles_exceptions node_without_height 18 5 10 [])
      as [H _]; [lia|].
    exact (H (Exception "connection refused") eq_refl).
  - destruct (get_top_holders_handles_exceptions node_with_huge_mint 0 5 10 [])
      as (_ & H & _); [lia|].
    eexists.
    eapply (H _ _ _ (Exception "integer division result too large for a float")).
    + vm_compute. reflexivity.
    + vm_compute. reflexivity.
Defined.

(** X13.  Against a node that answers range queries from a chain in block
    order, [get_top_holders] ranks the ledger of every event of blocks
    [0..H] that decodes; with no such event the ranking is empty. *)
Theorem get_top_holders_ranks_the_chain (w3 : web3) (decimals : N) (H : Z)
  (chain : list log) (t : list effect) (fuel : nat) (n : Z) :
  0 < n -> 0 <= H ->
  eth_block_number w3 (calls_made t) = Return H ->
  (forall k lo hi,
     eth_get_logs w3 k (range_filter lo hi) = Return (logs_in chain lo hi)) ->
  by_block chain ->
  (Z.to_nat (ceil_div (H + 1) 1000000) < fuel)%nat ->
  (decoded (logs_in chain 0 H) = [] ->
   exists t', get_top_holders w3 decimals fuel n t = Some (Return [], t'))
  /\ (forall l,
        decoded (logs_in chain 0 H) <> [] ->
        rank decimals (count_balances (decoded (logs_in chain 0 H))) n = Return l ->
        exists t', get_top_holders w3 decimals fuel n t = Some (Return l, t')).
Proof.
  intros Hn HH Hheight Hq Hb Hfuel.
  destruct (scan_of_chain w3 3 1000000 H chain t fuel
              ltac:(lia) ltac:(lia) HH Hheight Hq Hfuel) as (events & t' & E & _ & S).
  specialize (S Hb). subst events.
  rewrite get_top_holders_of_scan, E by exact Hn. split.
  - intros ->. eauto.
  - intros l Hne Hrank.
    destruct (decoded (logs_in chain 0 H)) as [|ev evs]; [congruence|].
    rewrite Hrank. eauto.
Qed.

Lemma get_top_holders_ranks_the_chain_witness :
  exists t',
    get_top_holders sample_node 0 2 1 [] = Some (Return [(ALICE, PyFloat.of_Z 60)], t').
Proof.
  destruct (get_top_holders_ranks_the_chain sample_node 0 25 sample_chain [] 2 1)
    as [_ H].
  - lia.
  - lia.
  - reflexivity.
  - intros k lo hi. reflexivity.
  - unfold by_block, sample_chain. repeat constructor; simpl; lia.
  - vm_compute. lia.
  - apply H; [vm_compute; discriminate|vm_compute; reflexivity].
Defined.

(** X14.  [/get_top] answers a count that is not positive with an empty
    list and no call to the node; a failure of the height query, and every
    other failure, reaches the client as status 400. *)
Theorem server_get_top_statuses (w3 : web3) (decimals : N) (symbol : string)
  (fuel : nat) (n : Z) (t : list effect) :
  (n <= 0 ->
   Server.get_top w3 decimals symbol fuel n t
   = Some (Server.OK (Server.Top_body [] symbol), t))
  /\ (0 < n -> forall e,
        eth_block_number w3 (calls_made t) = Raise e ->
        exists detail t',
          Server.get_top w3 decimals symbol fuel n t
          = Some (Server.HTTPException 400 detail, t'))
  /\ (forall status_code detail t',
        Server.get_top w3 decimals symbol fuel n t
        = Some (Server.HTTPException status_code detail, t') ->
        status_code = 400).
Proof.
  unfold Server.get_top. split; [|split].
  - intros Hn. now rewrite get_top_holders_nonpositive.
  - intros Hn e He. rewrite get_top_holders_of_scan by exact Hn.
    unfold _get_all_transfer_events, bind, await_block_number. rewrite He.
    do 2 eexists. reflexivity.
  - intros c d t'.
    destruct (get_top_holders w3 decimals fuel n t) as [[[top|e] t0]|];
      intros E; inversion E; reflexivity.
Qed.

(** X15.  [/get_top_date] answers with status 200 whenever the ranking
    returns: every ranked holder has an entry with its address and balance,
    in order, whatever became of the date lookups. *)
Theorem server_get_top_date_keeps_ranking (w3 : web3) (decimals : N)
  (utcoffset : Z -> Z) (symbol : string) (fuel : nat) (n : Z) (t t1 : list effect)
  (top : list (string * PyFloat.float)) :
  get_top_holders w3 decimals fuel n t = Some (Return top, t1) ->
  exists body t2,
    Server.get_balance_batch_with_date w3 decimals utcoffset symbol fuel n t
    = Some (Server.OK body, t2)
    /\ map (fun d => (Server.dated_address d, Server.dated_balance d))
           (Server.dated_holders body) = top
    /\ Server.dated_symbol body = symbol.
Proof.
  intros E. unfold Server.get_balance_batch_with_date, get_top_with_transactions, bind.
  rewrite E. destruct top as [|h rest].
  - do 2 eexists. split; [reflexivity|]. auto.
  - destruct (attach_dates_returns w3 utcoffset (h :: rest) [] t1) as (d & t2 & E' & M).
    rewrite E'. do 2 eexists. split; [reflexivity|].
    cbn [Server.dated_holders Server.dated_symbol]. split; [|reflexivity].
    rewrite <- M, map_map. apply map_ext. intros [[a b] s]. reflexivity.
Qed.

Lemma server_get_top_date_keeps_ranking_witness :
  exists body t2,
    Server.get_balance_batch_with_date sample_node 0 (fun _ => 0) "TKN" 2 2 []
    = Some (Server.OK body, t2)
    /\ map (fun d => (Server.dated_address d, Server.dated_balance d))
           (Server.dated_holders body)
       = [(ALICE, PyFloat.of_Z 60); (BOB, PyFloat.of_Z 40)].
Proof.
  assert (exists t1,
            get_top_holders sample_node 0 2 2 []
            = Some (Return [(ALICE, PyFloat.of_Z 60); (BOB, PyFloat.of_Z 40)], t1))
    as (t1 & E) by (eexists; vm_compute; reflexivity).
  destruct (server_get_top_date_keeps_ranking sample_node 0 (fun _ => 0) "TKN" 2 2 []
              t1 _ E) as (body & t2 & E' & M & _).
  exists body, t2. split; assumption.
Defined.

(** X16.  A batch of one address answers like the single lookup of that
    address: the same balance, or status 400 with the same text. *)
Theorem server_batch_of_one (w3 : web3) (decimals : N) (symbol address : string) :
  match Server.get_balance w3 decimals symbol address with
  | Server.OK body =>
      Server.get_balance_batch w3 decimals symbol [address]
      = Server.OK (Server.Batch_body [address] [Server.balance body] symbol)
  | Server.HTTPException status_code detail =>
      Server.get_balance_batch w3 decimals symbol [address]
      = Server.HTTPException status_code detail
  end.
Proof.
  unfold Server.get_balance, Server.get_balance_batch, get_balance_batch, gather.
  simpl. destruct (task_result (get_balance w3 decimals 0 address)); reflexivity.
Qed.

(** ** More on the date lookup *)

Ltac budget :=
  do 2 eexists; split; [reflexivity|]; rewrite ?calls_made_call;
  repeat split; intros;
  repeat match goal with
         | H : Return _ = Return _ |- _ => inversion H; clear H; subst
         end;
  try lia; try congruence; try discriminate;
  try match goal with
      | H : DateTime.strftime ?dt = _ |- _ =>
          destruct (strftime_is_no_sentinel dt); congruence
      end.

Section LookupCalls.

Variable w3 : web3.
Variable utcoffset : Z -> Z.

Lemma last_transaction_date_body_calls (address : string) (t : list effect) :
  exists r t',
    last_transaction_date_body w3 utcoffset address t = Some (r, t')
    /\ (calls_made t <= calls_made t' <= calls_made t + 3)%nat
    /\ (forall e, encode_address w3 address = Raise e ->
          r = Raise e /\ t' = t)
    /\ (r = Return "No transactions"%string -> calls_made t' = (calls_made t + 2)%nat)
    /\ (forall topic e,
          encode_address w3 address = Return topic ->
          eth_get_logs w3 (calls_made t) (incoming_filter topic) = Raise e ->
          r = Raise e /\ calls_made t' = S (calls_made t)).
Proof.
  unfold last_transaction_date_body, bind, lift, await_get_logs, await_get_block, ret.
  destruct (encode_address w3 address) as [topic|e]; [|budget].
  destruct (eth_get_logs w3 (calls_made t) (incoming_filter topic))
    as [incoming|e] eqn:Ei; [|budget].
  destruct (eth_get_logs w3 _ (outgoing_filter topic)) as [outgoing|e]; [|budget].
  destruct (select_last_tx incoming outgoing) as [tx|]; [|budget].
  destruct (eth_get_block w3 _ (blockNumber tx)) as [ts|e]; [|budget].
  destruct (DateTime.fromtimestamp utcoffset ts) as [dt|e]; budget.
Qed.

Lemma last_transaction_date_calls (address : string) (t : list effect) :
  exists s t',
    _get_last_transaction_date w3 utcoffset address t = Some (Return s, t')
    /\ (calls_made t <= calls_made t' <= calls_made t + 3)%nat
    /\ (forall e, encode_address w3 address = Raise e ->
          s = "Error"%string /\ calls_made t' = calls_made t)
    /\ (s = "No transactions"%string -> calls_made t' = (calls_made t + 2)%nat)
    /\ (forall topic e,
          encode_address w3 address = Return topic ->
          eth_get_logs w3 (calls_made t) (incoming_filter topic) = Raise e ->
          s = "Error"%string /\ calls_made t' = S (calls_made t)).
Proof.
  destruct (last_transaction_date_body_calls address t)
    as (r & t' & E & Hc & He & Hn & Hi).
  destruct r as [s|e].
  - exists s, t'. split; [now apply last_transaction_date_of_body|].
    split; [exact Hc|]. split; [|split].
    + intros e Hx. destruct (He e Hx). discriminate.
    + intros ->. now apply Hn.
    + intros topic e H1 H2. destruct (Hi topic e H1 H2). discriminate.
  - exists "Error"%string, (t' ++ [Print (Error_getting_last_transaction address (str e))]).
    split; [now apply last_transaction_date_of_body|].
    assert (Hp : calls_made (t' ++ [Print (Error_getting_last_transaction address (str e))])
                 = calls_made t').
    { rewrite calls_made_app. unfold calls_made. simpl. lia. }
    rewrite Hp. split; [exact Hc|]. split; [|split].
    + intros e0 Hx. destruct (He e0 Hx) as [_ ->]. auto.
    + discriminate.
    + intros topic e0 H1 H2. destruct (Hi topic e0 H1 H2). auto.
Qed.

Lemma attach_dates_calls (top_holders : list (string * PyFloat.float)) :
  forall (results : list (string * PyFloat.float * string)) (t : list effect),
  exists dated t',
    attach_dates w3 utcoffset top_holders results t = Some (Return dated, t')
    /\ (calls_made t' <= calls_made t + 3 * List.length top_holders)%nat.
Proof.
  induction top_holders as [|[address balance] rest IH]; intros results t; simpl.
  - exists results, t. split; [reflexivity|lia].
  - destruct (last_transaction_date_calls address t) as (s & t1 & E & Hc & _).
    unfold bind. rewrite E.
    destruct (IH (results ++ [(address, balance, s)]) t1) as (dated & t' & E' & Hc').
    exists dated, t'. split; [exact E'|lia].
Qed.

End LookupCalls.

(** X17.  A date lookup makes at most three calls to the node: none when
    the address does not encode, one when the first query raises (the
    second query is not made), two when it finds no transfer.  Dating a
    ranking of [k] holders makes at most [3 k] calls. *)
Theorem date_lookup_call_budget (w3 : web3) (utcoffset : Z -> Z) :
  (forall address t,
     exists s t',
       _get_last_transaction_date w3 utcoffset address t = Some (Return s, t')
       /\ (calls_made t <= calls_made t' <= calls_made t + 3)%nat
       /\ (forall e, encode_address w3 address = Raise e ->
             s = "Error"%string /\ calls_made t' = calls_made t)
       /\ (s = "No transactions"%string -> calls_made t' = (calls_made t + 2)%nat)
       /\ (forall topic e,
             encode_address w3 address = Return topic ->
             eth_get_logs w3 (calls_made t) (incoming_filter topic) = Raise e ->
             s = "Error"%string /\ calls_made t' = S (calls_made t)))
  /\ (forall top_holders t,
        exists dated t',
          attach_dates w3 utcoffset top_holders [] t = Some (Return dated, t')
          /\ (calls_made t' <= calls_made t + 3 * List.length top_holders)%nat).
Proof.
  split.
  - intros. apply last_transaction_date_calls.
  - intros. apply attach_dates_calls.
Qed.

(** ** More on dates *)

(** X18.  A datetime [fromtimestamp] returns has its fields in range:
    year 1 to 9999, month 1 to 12, day 1 to 31, hour 0 to 23, minute and
    second 0 to 59; and it stands for the local instant it was made from, so
    two instants that differ in local time never get the same fields. *)
Theorem fromtimestamp_fields (utcoffset : Z -> Z) (timestamp : Z)
  (dt : DateTime.datetime) :
  DateTime.fromtimestamp utcoffset timestamp = Return dt ->
  1 <= DateTime.year dt <= 9999
  /\ 1 <= DateTime.month dt <= 12
  /\ 1 <= DateTime.day dt <= 31
  /\ 0 <= DateTime.hour dt <= 23
  /\ 0 <= DateTime.minute dt <= 59
  /\ 0 <= DateTime.second dt <= 59
  /\ seconds_of dt = timestamp + utcoffset timestamp.
Proof.
  intros E.
  destruct (local_fields _ _ _ (fromtimestamp_local _ _ _ E)) as [R S].
  unfold in_range_fields in R. tauto.
Qed.

Lemma fromtimestamp_fields_witness :
  seconds_of (DateTime.Datetime 2023 11 15 1 15 50) = 1700000150 + 10800.
Proof.
  destruct (fromtimestamp_fields (fun _ => 10800) 1700000150
              (DateTime.Datetime 2023 11 15 1 15 50)) as (_ & _ & _ & _ & _ & _ & H).
  - vm_compute. reflexivity.
  - exact H.
Defined.

(** ** Token metadata *)

Lemma get_token_info_cases (c : token_calls) (self : metadata) (address : string) :
  get_token_info c self address
  = match snd (call_name c), snd (call_totalSupply c) with
    | Return name, Return total_supply =>
        match to_decimal_of self total_supply with
        | Return totalSupply =>
            Return (Token_info (self_symbol self) name totalSupply
                      (self_decimals self) address)
        | Raise e => Raise e
        end
    | Raise e, Return _ => Raise e
    | Return _, Raise e => Raise e
    | Raise e1, Raise e2 =>
        if (fst (call_name c) <=? fst (call_totalSupply c))%nat
        then Raise e1 else Raise e2
    end.
Proof.
  unfold get_token_info, gather. simpl.
  destruct (snd (call_name c)) as [name|e1], (snd (call_totalSupply c)) as [ts|e2];
    simpl; try reflexivity.
  destruct (fst (call_name c) <=? fst (call_totalSupply c))%nat; reflexivity.
Qed.

(** X19.  After an [initialize] that returned, token info is served
    whenever the name and supply calls return (supply below 2^1023): it
    carries the symbol and decimals the contract gave at [initialize] and
    the supply in display units.  When one of the two calls raises, its
    exception is what the caller gets, and the endpoint answers 400. *)
Theorem token_info_after_initialize (c : token_calls) (self : metadata)
  (address : string) :
  initialize c uninitialized = (Return tt, self) ->
  (forall name supply,
     snd (call_name c) = Return name ->
     snd (call_totalSupply c) = Return supply ->
     0 <= supply < 2 ^ 1023 ->
     exists d s totalSupply,
       call_decimals c = Return d /\ call_symbol c = Return s
       /\ _to_decimal d supply = Return totalSupply
       /\ get_token_info c self address
          = Return (Token_info (Some s) name totalSupply (Some d) address)
       /\ Server.get_token_info c self address
          = Server.OK (Token_info (Some s) name totalSupply (Some d) address))
  /\ (forall e0,
        snd (call_name c) = Raise e0 \/ snd (call_totalSupply c) = Raise e0 ->
        exists e,
          (snd (call_name c) = Raise e \/ snd (call_totalSupply c) = Raise e)
          /\ get_token_info c self address = Raise e
          /\ Server.get_token_info c self address = Server.HTTPException 400 (str e)).
Proof.
  unfold initialize, uninitialized.
  destruct (call_decimals c) as [d|e] eqn:Ed; [|discriminate].
  destruct (call_symbol c) as [s|e] eqn:Es; [|discriminate].
  simpl. intros E. inversion E. subst self. clear E. split.
  - intros name supply Hn Hs Hb.
    destruct (to_decimal_returns_nonneg d supply Hb) as (ts & Ets).
    exists d, s, ts. split; [reflexivity|]. split; [reflexivity|].
    split; [exact Ets|].
    unfold Server.get_token_info. rewrite get_token_info_cases, Hn, Hs.
    unfold to_decimal_of. simpl. rewrite Ets. auto.
  - intros e0 H. unfold Server.get_token_info. rewrite get_token_info_cases.
    destruct (snd (call_name c)) as [name|e1], (snd (call_totalSupply c)) as [ts|e2].
    + destruct H; discriminate.
    + exists e2. auto.
    + exists e1. auto.
    + destruct (fst (call_name c) <=? fst (call_totalSupply c))%nat;
        [exists e1|exists e2]; auto.
Qed.

Lemma token_info_after_initialize_witness :
  get_token_info sample_token (Metadata (Some 18%N) (Some "TKN"%string)) ALICE
  = Return (Token_info (Some "TKN"%string) "Token" (PyFloat.of_Z 1000) (Some 18%N) ALICE).
Proof.
  destruct (token_info_after_initialize sample_token
              (Metadata (Some 18%N) (Some "TKN"%string)) ALICE eq_refl) as [H _].
  destruct (H "Token"%string (1000 * 10 ^ 18) eq_refl eq_refl)
    as (d & s & ts & Ed & Es & Ets & E & _).
  - split; [discriminate|reflexivity].
  - inversion Ed. inversion Es. subst d s.
    assert (ts = PyFloat.of_Z 1000).
    { assert (R : _to_decimal 18 (1000 * 10 ^ 18) = Return (PyFloat.of_Z 1000))
        by (vm_compute; reflexivity). congruence. }
    subst ts. exact E.
Defined.

(** X20.  After an [initialize] that raised, the analyzer is left half
    set up.  When it was the decimals call that raised, token info raises
    although its own calls return; when it was the symbol call, token info
    is served with the decimals and no symbol. *)
Theorem token_info_after_failed_initialize (c : token_calls) (self : metadata)
  (address : string) (e : exn) (name : string) (supply : Z) :
  initialize c uninitialized = (Raise e, self) ->
  snd (call_name c) = Return name ->
  snd (call_totalSupply c) = Return supply ->
  (call_decimals c = Raise e ->
   self = uninitialized
   /\ exists e', get_token_info c self address = Raise e')
  /\ (forall d, call_decimals c = Return d ->
        call_symbol c = Raise e
        /\ self = Metadata (Some d) None
        /\ get_token_info c self address
           = result_map (fun totalSupply =>
                           Token_info None name totalSupply (Some d) address)
                        (_to_decimal d supply)).
Proof.
  unfold initialize, uninitialized. intros E Hn Hs.
  destruct (call_decimals c) as [d|e0] eqn:Ed.
  - destruct (call_symbol c) as [s|e1] eqn:Es; [discriminate|].
    simpl in E. inversion E. subst. split; [discriminate|].
    intros d0 Hd. inversion Hd. subst d0.
    split; [reflexivity|]. split; [reflexivity|].
    rewrite get_token_info_cases, Hn, Hs. unfold to_decimal_of. simpl.
    destruct (_to_decimal d supply); reflexivity.
  - inversion E. subst. split; [|discriminate].
    intros _. split; [reflexivity|].
    rewrite get_token_info_cases, Hn, Hs. unfold to_decimal_of. simpl. eauto.
Qed.

Lemma token_info_after_failed_initialize_witness :
  get_token_info sample_token_without_symbol (Metadata (Some 18%N) None) ALICE
  = Return (Token_info None "Token" (PyFloat.of_Z 1000) (Some 18%N) ALICE).
Proof.
  destruct (token_info_after_failed_initialize sample_token_without_symbol
              (Metadata (Some 18%N) None) ALICE (Exception "execution reverted")
              "Token" (1000 * 10 ^ 18) eq_refl eq_refl eq_refl) as [_ H].
  destruct (H 18%N eq_refl) as (_ & _ & E).
  rewrite E. vm_compute. reflexivity.
Defined.

(** ** More on [get_top_with_transactions] and on events with missing fields *)

(** X21.  [get_top_with_transactions] raises exactly what [get_top_holders]
    raises, before any date lookup; the date lookups add no failure of
    their own.  A count that is not positive gives an empty list without a
    call to the node. *)
Theorem get_top_with_transactions_failures (w3 : web3) (decimals : N)
  (utcoffset : Z -> Z) (fuel : nat) (n : Z) (t : list effect) :
  (forall e t',
     get_top_with_transactions w3 decimals utcoffset fuel n t = Some (Raise e, t')
     <-> get_top_holders w3 decimals fuel n t = Some (Raise e, t'))
  /\ (get_top_with_transactions w3 decimals utcoffset fuel n t = None
      <-> get_top_holders w3 decimals fuel n t = None)
  /\ (n <= 0 ->
      get_top_with_transactions w3 decimals utcoffset fuel n t = Some (Return [], t)).
Proof.
  unfold get_top_with_transactions, bind. split; [|split].
  - intros e t'.
    destruct (get_top_holders w3 decimals fuel n t) as [[[top|e0] t0]|];
      [|split; intros E; inversion E; reflexivity|split; discriminate].
    destruct top as [|h rest].
    + unfold ret. split; discriminate.
    + destruct (attach_dates_returns w3 utcoffset (h :: rest) [] t0) as (d & t1 & -> & _).
      split; discriminate.
  - destruct (get_top_holders w3 decimals fuel n t) as [[[top|e0] t0]|];
      [|split; discriminate|tauto].
    destruct top as [|h rest].
    + unfold ret. split; discriminate.
    + destruct (attach_dates_returns w3 utcoffset (h :: rest) [] t0) as (d & t1 & -> & _).
      split; discriminate.
  - intros Hn. now rewrite get_top_holders_nonpositive.
Qed.

(** X22.  An event read with a field missing: with no amount it changes no
    balance; with no sender, or with the empty string for it, only the
    receiver's balance moves; with no receiver, only the sender's. *)
Theorem apply_event_missing_fields (balances : PyDict.dict) (ev : event) :
  (arg_value (args ev) = None ->
   forall a, PyDict.get_default (apply_event balances ev) a
             = PyDict.get_default balances a)
  /\ (arg_from (args ev) = None \/ arg_from (args ev) = Some ""%string ->
      forall a, PyDict.get_default (apply_event balances ev) a
                = PyDict.get_default balances a
                  + (if counts_as_holder (arg_to (args ev))
                        && String.eqb (addr_key (arg_to (args ev))) a
                     then event_value ev else 0))
  /\ (arg_to (args ev) = None \/ arg_to (args ev) = Some ""%string ->
      forall a, PyDict.get_default (apply_event balances ev) a
                = PyDict.get_default balances a
                  - (if counts_as_holder (arg_from (args ev))
                        && String.eqb (addr_key (arg_from (args ev))) a
                     then event_value ev else 0)).
Proof.
  split; [|split].
  - intros Hv a. rewrite get_default_apply_event.
    unfold net_change, event_value. rewrite Hv.
    destruct (_ && _), (_ && _); lia.
  - intros Hf a. rewrite get_default_apply_event. unfold net_change.
    destruct Hf as [-> | ->]; simpl; lia.
  - intros Hto a. rewrite get_default_apply_event. unfold net_change.
    destruct Hto as [-> | ->]; simpl; lia.
Qed.

Lemma apply_event_missing_fields_witness :
  PyDict.get_default
    (apply_event [(ALICE, 60)] (Event (Args (Some ALICE) (Some BOB) None) 4)) ALICE
  = PyDict.get_default [(ALICE, 60)] ALICE.
Proof.
  destruct (apply_event_missing_fields [(ALICE, 60)]
              (Event (Args (Some ALICE) (Some BOB) None) 4)) as [H _].
  apply H. reflexivity.
Defined.

(** ** More on balance lookups *)

Lemma get_balance_of_uint256 (w3 : web3) (decimals : N) (call_no : nat)
  (address a : string) (time : nat) (balance : Z) :
  to_checksum_address w3 address = Return a ->
  eth_call_balanceOf w3 call_no a = (time, Return balance) ->
  0 <= balance < 2 ^ 256 ->
  exists x,
    get_balance w3 decimals call_no address = Task time (Return x)
    /\ _to_decimal decimals balance = Return x.
Proof.
  intros Ha Hb Hr. unfold get_balance. rewrite Ha, Hb.
  destruct (to_decimal_returns_nonneg decimals balance) as (x & E).
  - split; [lia|]. apply Z.lt_trans with (2 ^ 256); [lia|].
    apply Z.pow_lt_mono_r; lia.
  - exists x. now rewrite E.
Qed.

(** X23.  A balance the contract returns as a [uint256] always converts:
    the lookup of an address that passes the checksum returns whenever its
    call returns, at the time the reply arrives; so a batch over such
    addresses whose calls all return never fails. *)
Theorem get_balance_returns_on_uint256 (w3 : web3) (decimals : N)
  (addresses : list string) :
  (forall i address, nth_error addresses i = Some address ->
     exists a time balance,
       to_checksum_address w3 address = Return a
       /\ eth_call_balanceOf w3 i a = (time, Return balance)
       /\ 0 <= balance < 2 ^ 256) ->
  (forall i address, nth_error addresses i = Some address ->
     exists a time balance x,
       eth_call_balanceOf w3 i a = (time, Return balance)
       /\ get_balance w3 decimals i address = Task time (Return x)
       /\ _to_decimal decimals balance = Return x)
  /\ exists balances,
       get_balance_batch w3 decimals addresses = Return balances
       /\ List.length balances = List.length addresses.
Proof.
  intros Hall.
  assert (Hone : forall i address, nth_error addresses i = Some address ->
            exists a time balance x,
              eth_call_balanceOf w3 i a = (time, Return balance)
              /\ get_balance w3 decimals i address = Task time (Return x)
              /\ _to_decimal decimals balance = Return x).
  { intros i address Hi. destruct (Hall i address Hi) as (a & time & b & Ha & Hb & Hr).
    destruct (get_balance_of_uint256 w3 decimals i address a time b Ha Hb Hr)
      as (x & E & D).
    exists a, time, b, x. auto. }
  split; [exact Hone|].
  assert (Hret : forall t, In t (balance_tasks w3 decimals 0 addresses) ->
                   exists x, task_result t = Return x).
  { intros t Hin. apply balance_tasks_In in Hin as (i & addr & Hi & ->).
    destruct (Hone i addr Hi) as (a & time & b & x & _ & E & _).
    rewrite E. simpl. eauto. }
  exists (returned (balance_tasks w3 decimals 0 addresses)).
  unfold get_balance_batch, gather. rewrite (first_raised_none _ Hret).
  split; [reflexivity|].
  pose proof (returned_all _ Hret) as Hmap.
  apply (f_equal (@List.length _)) in Hmap. rewrite !length_map in Hmap.
  rewrite Hmap. clear. generalize 0%nat.
  induction addresses; intros k; simpl; auto.
Qed.

Lemma get_balance_returns_on_uint256_witness :
  exists balances,
    get_balance_batch node_with_balances 18 [ALICE; BOB] = Return balances
    /\ List.length balances = 2%nat.
Proof.
  destruct (get_balance_returns_on_uint256 node_with_balances 18 [ALICE; BOB])
    as [_ H].
  - intros [|[|i]] address Hi; simpl in Hi; inversion Hi; subst.
    + exists ALICE, 3%nat, 5000000000000000000.
      repeat split; try reflexivity; try discriminate.
    + exists BOB, 1%nat, 7000000000000000000.
      repeat split; try reflexivity; try discriminate.
    + destruct i; discriminate.
  - exact H.
Defined.
